(** * AI-delegator: the routing core, the retrieval agent and the chart tool

    A shallow embedding of [src/agents/delegating-agent.js], of the
    retrieval agent ([rag-agent.js]) and of the chart tool
    ([chart-tool.js]), and the properties of the specification checked
    against them.

    Conventions of the embedding.
    - JavaScript strings are Rocq strings read as ASCII text; code units
      above 127 are outside the model.
    - An [async] function that may throw is a computation in the monad [M]:
      it reads the collaborators (chat model, vector database) from a
      [World], sees the calls made so far and returns either a value or a
      thrown error message together with the calls it made itself.
    - A JavaScript object is a record; a field that may be missing,
      [undefined] or [null] has an [option] type.
    - [JSON.stringify] followed by [JSON.parse] gives back the value it
      started from; a string that carries JSON text is represented by the
      value it is the text of.
    - [console.log] and [console.error] have no effect on results and are
      left out. *)

From Stdlib Require Import String Ascii List Arith Bool Lia.
From Stdlib Require QArith_base.
Import ListNotations.
Local Open Scope string_scope.
Local Open Scope nat_scope.

(* ================================================================== *)
(** * Definitions *)
(* ================================================================== *)

(** ** JavaScript string built-ins used by the agents *)

Module JS.

Definition code (c : ascii) : nat := nat_of_ascii c.

Definition between (lo hi n : nat) : bool := (lo <=? n) && (n <=? hi).

Definition isUpper (c : ascii) : bool := between 65 90 (code c).
Definition isLower (c : ascii) : bool := between 97 122 (code c).
Definition isDigit (c : ascii) : bool := between 48 57 (code c).

(** [\s]: tab, line feed, vertical tab, form feed, carriage return, space. *)
Definition isWhiteSpace (c : ascii) : bool :=
  between 9 13 (code c) || (code c =? 32).

(** [\w]: letters, digits and the underscore. *)
Definition isWordChar (c : ascii) : bool :=
  isUpper c || isLower c || isDigit c || (code c =? 95).

Definition lowerChar (c : ascii) : ascii :=
  if isUpper c then ascii_of_nat (code c + 32) else c.

Fixpoint mapChars (f : ascii -> ascii) (s : string) : string :=
  match s with
  | EmptyString => EmptyString
  | String c s' => String (f c) (mapChars f s')
  end.

(** [s.toLowerCase()] *)
Definition toLowerCase (s : string) : string := mapChars lowerChar s.

Fixpoint trimStart (s : string) : string :=
  match s with
  | EmptyString => EmptyString
  | String c s' => if isWhiteSpace c then trimStart s' else s
  end.

Fixpoint trimEnd (s : string) : string :=
  match s with
  | EmptyString => EmptyString
  | String c s' =>
      match trimEnd s' with
      | EmptyString => if isWhiteSpace c then EmptyString else String c EmptyString
      | t => String c t
      end
  end.

(** [s.trim()] *)
Definition trim (s : string) : string := trimEnd (trimStart s).

(** [s.split(sep)] for a one-character separator given as a test on
    characters: the pieces between separators, empty ones included, so
    that the empty string gives one empty piece. *)
Fixpoint splitAt (sep : ascii -> bool) (s : string) : list string :=
  match s with
  | EmptyString => [EmptyString]
  | String c s' =>
      if sep c then EmptyString :: splitAt sep s'
      else match splitAt sep s' with
           | [] => [String c EmptyString]
           | w :: ws => String c w :: ws
           end
  end.

Definition isSpaceChar (c : ascii) : bool := code c =? 32.

(** [s.split(' ')] *)
Definition split_space (s : string) : list string := splitAt isSpaceChar s.

(** [arr.includes(x)] on an array of strings *)
Definition includes (arr : list string) (x : string) : bool :=
  existsb (String.eqb x) arr.

(** [arr.slice(0, n)] *)
Definition slice0 {A : Type} (n : nat) (arr : list A) : list A := firstn n arr.

(** [arr.join(sep)] *)
Fixpoint join (sep : string) (arr : list string) : string :=
  match arr with
  | [] => EmptyString
  | [x] => x
  | x :: rest => x ++ sep ++ join sep rest
  end.

(** [x || d] on a possibly missing string: the empty string is falsy. *)
Definition orDefault (x : option string) (d : string) : string :=
  match x with
  | Some s => if String.eqb s EmptyString then d else s
  | None => d
  end.

(** [text + x] for a possibly undefined string [x]. *)
Definition toStr (x : option string) : string :=
  match x with
  | Some s => s
  | None => "undefined"
  end.

Definition newline : string := String (ascii_of_nat 10) EmptyString.

End JS.

(** ** Keyword extraction (rag-agent.js, [directSearch], the fallback to
    text search) *)

Definition stopWords : list string :=
  ["the"; "and"; "or"; "but"; "in"; "on"; "at"; "to"; "for"; "of"; "with"; "by"].

(** [.replace(/[^\w\s]/g, ' ')] *)
Definition blankPunctuation (s : string) : string :=
  JS.mapChars
    (fun c => if JS.isWordChar c || JS.isWhiteSpace c then c else " "%char) s.

(** [word => word.length > 2 && ![...].includes(word)] *)
Definition meaningful (word : string) : bool :=
  (2 <? String.length word) && negb (JS.includes stopWords word).

Definition extractKeywords (query : string) : list string :=
  JS.slice0 3
    (filter meaningful
       (JS.split_space (blankPunctuation (JS.toLowerCase query)))).

(** The extraction as the specification words it: lower-case, strip
    punctuation, split on whitespace, discard short tokens and stop words,
    keep the first three.  Splitting on whitespace cuts at every
    whitespace character and yields the non-empty pieces. *)
Definition splitOnWhitespace (s : string) : list string :=
  filter (fun w => negb (String.eqb w EmptyString)) (JS.splitAt JS.isWhiteSpace s).

Definition extractKeywords_spec (query : string) : list string :=
  firstn 3
    (filter meaningful
       (splitOnWhitespace (blankPunctuation (JS.toLowerCase query)))).

(** Queries whose only whitespace is the space character. *)
Fixpoint onlySpaces (s : string) : Prop :=
  match s with
  | EmptyString => True
  | String c s' => (JS.isWhiteSpace c = true -> JS.isSpaceChar c = true) /\ onlySpaces s'
  end.

(** ** Data exchanged with the collaborators *)

(** A JavaScript number that is only carried through (the distance of a
    similarity match) is represented by a rational. *)
Definition Number : Type := QArith_base.Q.

(** One item of [result.data.Get[CLASS_NAME]], the answer of a GraphQL
    query: the three text properties and, when asked for, [_additional]
    with its [distance]. *)
Record Item := {
  item_fileId : string;
  item_question : string;
  item_answer : string;
  item_additional : option (option Number)
}.

(** The answer of [client.graphql.get()...do()], reduced to the part that is
    read: [data.Get[CLASS_NAME]], which may be missing.  An answer that
    arrives has [data.Get]; the client throws on a failed query. *)
Record GraphQLResponse := {
  data_Get_class : option (list Item)
}.

Record Properties := {
  prop_fileId : string;
  prop_question : string;
  prop_answer : string
}.

(** One object of the answer of [client.data.getter()...do()], as the
    fallback reads it: [item.properties] may be missing. *)
Record DataObject := {
  properties : option Properties
}.

(** The answer of the getter, as the fallback reads it: [allObjects.data]. *)
Record GetterResponse := {
  getter_data : option (list DataObject)
}.

(** What the variable [result] of [directSearch] holds: the answer of a
    GraphQL query or the answer of the getter. *)
Inductive SearchResponse :=
| FromGraphQL (r : GraphQLResponse)
| FromGetter (r : GetterResponse).

(** An element of [results] in the value returned by [directSearch]. *)
Record Entry := {
  fileId : string;
  question : string;
  answer : string;
  distance : option Number
}.

(** The value returned by [directSearch]. *)
Record SearchResults := {
  search_success : bool;
  results : option (list Entry);
  count : option nat;
  note : option string;
  search_error : option string;
  search_message : option string
}.

(** The value returned by [RAGAgent.query] (and written to [ragResult]). *)
Record RagResult := {
  rag_success : bool;
  rag_answer : option string;
  rag_sources : option (list string);
  rag_error : option string
}.

(** *** Charts *)

(** A dataset of the mock data: its label and its numbers.  The colours
    and the other styling constants of the source are not represented. *)
Record Dataset := {
  ds_label : option string;
  ds_data : list nat
}.

Record MockData := {
  labels : list string;
  datasets : list Dataset
}.

(** The Chart.js configuration built by the chart tool, after its trip
    through [JSON.stringify] and [JSON.parse]: [scales] is absent for pie
    and doughnut charts. *)
Record ChartConfig := {
  cfg_type : string;
  cfg_data : MockData;
  cfg_responsive : bool;
  cfg_title_display : bool;
  cfg_title_text : string;
  cfg_title_font_size : nat;
  cfg_title_font_weight : string;
  cfg_legend_display : bool;
  cfg_legend_position : string;
  cfg_scales_y_beginAtZero : option bool
}.

(** The value written to [chartResult]: the parsed answer of the chart
    tool, or [{ success: false, error }] from the handler's own [catch]. *)
Record ChartResult := {
  chart_success : bool;
  chart_chartConfig : option ChartConfig;
  chart_message : option string;
  chart_error : option string
}.

(** The three parameters of a chart; each may be missing (or empty). *)
Record ChartParams := {
  chartType : option string;
  title : option string;
  data : option string
}.

(** What [JSON.parse] makes of the chat model's answer to the extraction
    prompt: [null], whose fields cannot be read, or a value whose fields
    [chartType], [title] and [data] are strings or missing.  The prompt
    asks for three strings; fields of other types are outside the model. *)
Inductive JsonValue :=
| JsonNull
| JsonObject (p : ChartParams).

(** The input of the chart tool's [_call]: a string that is the JSON text
    of a value, a string that is not JSON, an object, or anything else. *)
Inductive ToolInput :=
| InputJsonText (v : JsonValue)
| InputText (s : string)
| InputObject (p : ChartParams)
| InputOther.

(** *** The final response *)

(** [references]: [{}] or [{ ragSources: fileIds }]. *)
Inductive References :=
| NoReferences
| RagSources (ids : list string).

(** [answer] holds whatever the code puts there, a string or [undefined]. *)
Record FinalResponse := {
  final_answer : option string;
  references : References;
  fileIds : list string;
  chartConfig : option ChartConfig
}.

(** ** Calls to the collaborators and the monad of the agents *)

(** The prompts sent to the chat model, by their variables. *)
Inductive Prompt :=
| AnalyzePrompt (query : string)
| ChartParamsPrompt (query : string)
| RagAnswerPrompt (context question : string)
| DirectPrompt (query : string)
| CombinePrompt (query : string) (chartInfo : ChartResult) (ragInfo : option string).

Inductive Handler := VisualizationHandler | RetrievalHandler.

(** What a run does that can be observed from outside, in order: the start
    of a handler ([executeChartTool], [RAGAgent.query]) and each call to
    the chat model and to the database. *)
Inductive Event :=
| Enter (h : Handler)
| ChatCall (p : Prompt)
| NearTextCall (query : string) (limit : nat)
| KeywordCall (keywords : list string) (limit : nat)
| GetterCall (limit : nat).

(** The outcome of a call: a value, or a thrown error with its message. *)
Inductive Res (A : Type) :=
| Ok (a : A)
| Throw (message : string).
Arguments Ok {A} a.
Arguments Throw {A} message.

(** The collaborators.  Each answer may depend on everything that happened
    before the call, so that two calls with the same arguments may answer
    differently.  [JSON_parse] is the built-in on the chat model's answer
    to the extraction prompt; [None] is a syntax error. *)
Record World := {
  chatModel : list Event -> Prompt -> Res string;
  nearText : list Event -> string -> nat -> Res GraphQLResponse;
  keywordSearch : list Event -> list string -> nat -> Res GraphQLResponse;
  getObjects : list Event -> nat -> Res GetterResponse;
  JSON_parse : string -> option JsonValue
}.

(** A computation: given the collaborators and the events so far, an
    outcome and the events of the computation itself. *)
Definition M (A : Type) : Type := World -> list Event -> Res A * list Event.

Definition ret {A : Type} (a : A) : M A := fun _ _ => (Ok a, []).

Definition throw {A : Type} (message : string) : M A := fun _ _ => (Throw message, []).

Definition bind {A B : Type} (m : M A) (f : A -> M B) : M B :=
  fun w past =>
    match m w past with
    | (Ok a, t) => let (r, t') := f a w (past ++ t)%list in (r, (t ++ t')%list)
    | (Throw e, t) => (Throw e, t)
    end.

(** [try { m } catch (error) { handler(error.message) }] *)
Definition try_catch {A : Type} (m : M A) (handler : string -> M A) : M A :=
  fun w past =>
    match m w past with
    | (Ok a, t) => (Ok a, t)
    | (Throw e, t) => let (r, t') := handler e w (past ++ t)%list in (r, (t ++ t')%list)
    end.

Declare Scope agent_scope.
Delimit Scope agent_scope with agent.
Notation "x <- c1 ;; c2" := (bind c1 (fun x => c2))
  (at level 61, c1 at next level, right associativity) : agent_scope.
Notation "c1 ;; c2" := (bind c1 (fun _ => c2))
  (at level 61, right associativity) : agent_scope.
Local Open Scope agent_scope.

(** The start of a handler. *)
Definition enter (h : Handler) : M unit := fun _ _ => (Ok tt, [Enter h]).

(** [await prompt.pipe(chatModel).invoke(vars)], giving [response.content]. *)
Definition chat (p : Prompt) : M string :=
  fun w past => (chatModel w past p, [ChatCall p]).

Definition callNearText (query : string) (limit : nat) : M GraphQLResponse :=
  fun w past => (nearText w past query limit, [NearTextCall query limit]).

Definition callKeywordSearch (keywords : list string) (limit : nat) : M GraphQLResponse :=
  fun w past => (keywordSearch w past keywords limit, [KeywordCall keywords limit]).

Definition callGetter (limit : nat) : M GetterResponse :=
  fun w past => (getObjects w past limit, [GetterCall limit]).

Definition parseJSON (text : string) : M (option JsonValue) :=
  fun w _ => (Ok (JSON_parse w text), []).

(** [arr.map(f)] for an [f] that may throw. *)
Fixpoint mapM {A B : Type} (f : A -> M B) (arr : list A) : M (list B) :=
  match arr with
  | [] => ret []
  | x :: rest => y <- f x ;; ys <- mapM f rest ;; ret (y :: ys)
  end.

(** The value and the events of a computation run from a given past. *)
Definition outcome {A : Type} (m : M A) (w : World) (past : list Event) : Res A :=
  fst (m w past).
Definition trace {A : Type} (m : M A) (w : World) (past : list Event) : list Event :=
  snd (m w past).

(** ** The retrieval agent (rag-agent.js) *)

Module RAGAgent.

(** [result.data.Get[CLASS_NAME] || []].  The answer of the getter has no
    [data.Get]: reading it throws a [TypeError]. *)
Definition classItems (result : SearchResponse) : M (list Item) :=
  match result with
  | FromGraphQL r =>
      ret (match data_Get_class r with Some items => items | None => [] end)
  | FromGetter r =>
      match getter_data r with
      | None => throw "Cannot read properties of undefined (reading 'Get')"
      | Some _ => throw "Cannot read properties of undefined (reading 'QuestionAnswer')"
      end
  end.

(** [item => ({ fileId, question, answer, distance: item._additional?.distance })] *)
Definition toEntry (item : Item) : Entry :=
  {| fileId := item_fileId item;
     question := item_question item;
     answer := item_answer item;
     distance := match item_additional item with
                 | Some d => d
                 | None => None
                 end |}.

(** [item => ({ fileId: item.properties.fileId, ... })] *)
Definition fromObject (item : DataObject) : M Entry :=
  match properties item with
  | Some p =>
      ret {| fileId := prop_fileId p;
             question := prop_question p;
             answer := prop_answer p;
             distance := None |}
  | None => throw "Cannot read properties of undefined (reading 'fileId')"
  end.

Definition found (entries : list Entry) (n : nat) (remark : option string)
  : SearchResults :=
  {| search_success := true;
     results := Some entries;
     count := Some n;
     note := remark;
     search_error := None;
     search_message := None |}.

Definition searchFailed (message : string) : SearchResults :=
  {| search_success := false;
     results := None;
     count := None;
     note := None;
     search_error := Some message;
     search_message := Some "Both vector search and fallback failed" |}.

Definition directSearch (query : string) (limit : nat) : M SearchResults :=
  try_catch
    (result <-
       try_catch
         (r <- callNearText query limit ;; ret (FromGraphQL r))
         (fun _ =>
            let keywords := extractKeywords query in
            if length keywords =? 0
            then r <- callGetter limit ;; ret (FromGetter r)
            else r <- callKeywordSearch keywords limit ;; ret (FromGraphQL r)) ;;
     items <- classItems result ;;
     ret (found (map toEntry items) (length items) None))
    (fun _ =>
       try_catch
         (allObjects <- callGetter limit ;;
          let objects := match getter_data allObjects with
                         | Some objects => objects
                         | None => []
                         end in
          entries <- mapM fromObject objects ;;
          ret (found entries (length objects) (Some "Used fallback fetchObjects API")))
         (fun fallbackError => ret (searchFailed fallbackError))).

(** [searchResults.results], read for its [length] and for [map]. *)
Definition getResults (searchResults : SearchResults) : M (list Entry) :=
  match results searchResults with
  | Some entries => ret entries
  | None => throw "Cannot read properties of undefined (reading 'length')"
  end.

Definition notFound : RagResult :=
  {| rag_success := false;
     rag_answer := Some "I could not find relevant information in the database.";
     rag_sources := Some [];
     rag_error := None |}.

Definition queryFailed (message : string) : RagResult :=
  {| rag_success := false;
     rag_answer := Some "I encountered an error while processing your query.";
     rag_sources := None;
     rag_error := Some message |}.

(** [`File: ${result.fileId}\nQuestion: ${result.question}\nAnswer: ${result.answer}\n`] *)
Definition describe (e : Entry) : string :=
  "File: " ++ fileId e ++ JS.newline ++
  "Question: " ++ question e ++ JS.newline ++
  "Answer: " ++ answer e ++ JS.newline.

Definition query (userQuery : string) : M RagResult :=
  enter RetrievalHandler ;;
  try_catch
    (searchResults <- directSearch userQuery 3 ;;
     if negb (search_success searchResults) then ret notFound
     else
       entries <- getResults searchResults ;;
       if length entries =? 0 then ret notFound
       else
         let context := JS.join JS.newline (map describe entries) in
         content <- chat (RagAnswerPrompt context userQuery) ;;
         ret {| rag_success := true;
                rag_answer := Some content;
                rag_sources := Some (map fileId entries);
                rag_error := None |})
    (fun message => ret (queryFailed message)).

End RAGAgent.

(** ** The chart tool (chart-tool.js) *)

Module ChartTool.

Definition months : list string :=
  ["January"; "February"; "March"; "April"; "May"; "June"].

Definition generateMockData (chartType : string) (dataDescription : string)
  : MockData :=
  if String.eqb chartType "line" then
    {| labels := months;
       datasets := [ {| ds_label := Some "Dataset 1"; ds_data := [65; 59; 80; 81; 56; 55] |};
                     {| ds_label := Some "Dataset 2"; ds_data := [28; 48; 40; 19; 86; 27] |} ] |}
  else if String.eqb chartType "bar" then
    {| labels := months;
       datasets := [ {| ds_label := Some "Sales"; ds_data := [12; 19; 3; 5; 2; 3] |} ] |}
  else if String.eqb chartType "pie" || String.eqb chartType "doughnut" then
    {| labels := ["Red"; "Blue"; "Yellow"; "Green"; "Purple"; "Orange"];
       datasets := [ {| ds_label := None; ds_data := [12; 19; 3; 5; 2; 3] |} ] |}
  else if String.eqb chartType "radar" then
    {| labels := ["Speed"; "Reliability"; "Comfort"; "Safety"; "Efficiency"; "Durability"];
       datasets := [ {| ds_label := Some "Product A"; ds_data := [65; 59; 90; 81; 56; 55] |};
                     {| ds_label := Some "Product B"; ds_data := [28; 48; 40; 19; 96; 27] |} ] |}
  else
    {| labels := months;
       datasets := [ {| ds_label := Some "Default Dataset"; ds_data := [1; 2; 3; 4; 5; 6] |} ] |}.

(** The three parameters as [_call] reads them from its input, before the
    defaults for missing ones.  Reading a field of [null] throws inside
    the inner [try], whose [catch] takes the input text as the data. *)
Definition readInput (input : ToolInput) : ChartParams :=
  match input with
  | InputJsonText (JsonObject p) => p
  | InputJsonText JsonNull =>
      {| chartType := Some "bar"; title := Some "Chart"; data := Some "null" |}
  | InputText s =>
      {| chartType := Some "bar"; title := Some "Chart"; data := Some s |}
  | InputObject p => p
  | InputOther =>
      {| chartType := Some "bar"; title := Some "Chart"; data := Some "Data" |}
  end.

(** [`Generated ${chartType} chart configuration for: ${title}`] *)
Definition generatedMessage (kind heading : string) : string :=
  "Generated " ++ kind ++ " chart configuration for: " ++ heading.

Definition buildConfig (kind heading : string) (mockData : MockData) : ChartConfig :=
  {| cfg_type := kind;
     cfg_data := mockData;
     cfg_responsive := true;
     cfg_title_display := true;
     cfg_title_text := heading;
     cfg_title_font_size := 16;
     cfg_title_font_weight := "bold";
     cfg_legend_display := true;
     cfg_legend_position := "top";
     cfg_scales_y_beginAtZero :=
       if negb (String.eqb kind "pie") && negb (String.eqb kind "doughnut")
       then Some true else None |}.

(** The object built in the [try] of [_call]. *)
Definition generated (input : ToolInput) : ChartResult :=
  let params := readInput input in
  let kind := JS.orDefault (chartType params) "bar" in
  let description := JS.orDefault (data params) "Data" in
  let heading := JS.orDefault (title params) "Chart" in
  let mockData := generateMockData kind description in
  {| chart_success := true;
     chart_chartConfig := Some (buildConfig kind heading mockData);
     chart_message := Some (generatedMessage kind heading);
     chart_error := None |}.

(** [_call] answers with the JSON text of an object; the value here is
    that object, as the caller's [JSON.parse] gives it back. *)
Definition _call (input : ToolInput) : M ChartResult :=
  try_catch
    (ret (generated input))
    (fun message =>
       ret {| chart_success := false;
              chart_chartConfig := None;
              chart_message := Some "Failed to generate chart configuration";
              chart_error := Some message |}).

(** [chartTool.invoke(text)] runs [_call] on the text. *)
Definition invoke (input : ToolInput) : M ChartResult := _call input.

End ChartTool.

(** ** The delegating agent (delegating-agent.js) *)

Module DelegatingAgent.

Record Message := {
  role : string;
  content : option string
}.

Definition assistant (text : string) : Message :=
  {| role := "assistant"; content := Some text |}.

(** The channels of the state graph; the defaults of the schema are the
    empty array, the empty string and [null]. *)
Record State := {
  messages : list Message;
  userQuery : string;
  decision : option string;
  chartResult : option ChartResult;
  ragResult : option RagResult;
  finalResponse : option FinalResponse
}.

Definition defaultState : State :=
  {| messages := [];
     userQuery := EmptyString;
     decision := None;
     chartResult := None;
     ragResult := None;
     finalResponse := None |}.

(** The object a node returns (and the input of [invoke]): the channels
    it writes. *)
Record Update := {
  upd_messages : option (list Message);
  upd_userQuery : option string;
  upd_decision : option string;
  upd_chartResult : option ChartResult;
  upd_ragResult : option RagResult;
  upd_finalResponse : option FinalResponse
}.

Definition noUpdate : Update :=
  {| upd_messages := None;
     upd_userQuery := None;
     upd_decision := None;
     upd_chartResult := None;
     upd_ragResult := None;
     upd_finalResponse := None |}.

(** The reducers of the schema: [messages] concatenates, every other
    channel takes the new value. *)
Definition applyUpdate (s : State) (u : Update) : State :=
  {| messages := match upd_messages u with
                 | Some y => (messages s ++ y)%list
                 | None => messages s
                 end;
     userQuery := match upd_userQuery u with
                  | Some y => y
                  | None => userQuery s
                  end;
     decision := match upd_decision u with
                 | Some y => Some y
                 | None => decision s
                 end;
     chartResult := match upd_chartResult u with
                    | Some y => Some y
                    | None => chartResult s
                    end;
     ragResult := match upd_ragResult u with
                  | Some y => Some y
                  | None => ragResult s
                  end;
     finalResponse := match upd_finalResponse u with
                      | Some y => Some y
                      | None => finalResponse s
                      end |}.

Inductive Node :=
| analyze_query
| chart_tool
| rag_agent
| direct_response
| combine_results.

Definition analyzeQuery (state : State) : M Update :=
  response_content <- chat (AnalyzePrompt (userQuery state)) ;;
  let decision := JS.trim (JS.toLowerCase response_content) in
  ret {| upd_messages := Some (messages state ++ [assistant ("Decision: " ++ decision)])%list;
         upd_userQuery := None;
         upd_decision := Some decision;
         upd_chartResult := None;
         upd_ragResult := None;
         upd_finalResponse := None |}.

Definition routeDecision (state : State) : Node :=
  match decision state with
  | Some decision =>
      if String.eqb decision "chart" then chart_tool
      else if String.eqb decision "rag" then rag_agent
      else if String.eqb decision "both" then chart_tool
      else direct_response
  | None => direct_response
  end.

Definition defaultChartParams (userQuery : string) : JsonValue :=
  JsonObject {| chartType := Some "bar";
                title := Some "Data Visualization";
                data := Some userQuery |}.

Definition executeChartTool (state : State) : M Update :=
  enter VisualizationHandler ;;
  try_catch
    (let userQuery := userQuery state in
     response_content <- chat (ChartParamsPrompt userQuery) ;;
     parsed <- parseJSON response_content ;;
     let chartParams := match parsed with
                        | Some value => value
                        | None => defaultChartParams userQuery
                        end in
     chartResult <- ChartTool.invoke (InputJsonText chartParams) ;;
     ret {| upd_messages := Some (messages state ++ [assistant "Chart tool executed"])%list;
            upd_userQuery := None;
            upd_decision := None;
            upd_chartResult := Some chartResult;
            upd_ragResult := None;
            upd_finalResponse := None |})
    (fun message =>
       ret {| upd_messages := Some (messages state ++ [assistant "Chart tool failed"])%list;
              upd_userQuery := None;
              upd_decision := None;
              upd_chartResult := Some {| chart_success := false;
                                         chart_chartConfig := None;
                                         chart_message := None;
                                         chart_error := Some message |};
              upd_ragResult := None;
              upd_finalResponse := None |}).

Definition executeRAGAgent (state : State) : M Update :=
  try_catch
    (let userQuery := userQuery state in
     ragResult <- RAGAgent.query userQuery ;;
     ret {| upd_messages := Some (messages state ++ [assistant "RAG agent executed"])%list;
            upd_userQuery := None;
            upd_decision := None;
            upd_chartResult := None;
            upd_ragResult := Some ragResult;
            upd_finalResponse := None |})
    (fun message =>
       ret {| upd_messages := Some (messages state ++ [assistant "RAG agent failed"])%list;
              upd_userQuery := None;
              upd_decision := None;
              upd_chartResult := None;
              upd_ragResult := Some {| rag_success := false;
                                       rag_answer := None;
                                       rag_sources := None;
                                       rag_error := Some message |};
              upd_finalResponse := None |}).

Definition finish (state : State) (response : FinalResponse) (said : Message)
  : Update :=
  {| upd_messages := Some (messages state ++ [said])%list;
     upd_userQuery := None;
     upd_decision := None;
     upd_chartResult := None;
     upd_ragResult := None;
     upd_finalResponse := Some response |}.

Definition directResponse (state : State) : M Update :=
  response_content <- chat (DirectPrompt (userQuery state)) ;;
  ret (finish state
         {| final_answer := Some response_content;
            references := NoReferences;
            fileIds := [];
            chartConfig := None |}
         (assistant response_content)).

(** [chartResult && chartResult.success] *)
Definition chartSucceeded (chartResult : option ChartResult) : bool :=
  match chartResult with
  | Some r => chart_success r
  | None => false
  end.

(** [ragResult && ragResult.success] *)
Definition ragSucceeded (ragResult : option RagResult) : bool :=
  match ragResult with
  | Some r => rag_success r
  | None => false
  end.

Definition isSome {A : Type} (x : option A) : bool :=
  match x with
  | Some _ => true
  | None => false
  end.

Definition decisionIs (state : State) (token : string) : bool :=
  match decision state with
  | Some d => String.eqb d token
  | None => false
  end.

Definition combineFailed : FinalResponse :=
  {| final_answer := Some "I encountered an error while processing your request.";
     references := NoReferences;
     fileIds := [];
     chartConfig := None |}.

(** The first half of [combineResults], after the retrieval result is
    settled: the chart configuration, the answer text put together so far,
    the file ids and the references. *)
Definition assemble (chartResult : option ChartResult) (ragResult : option RagResult)
  : option ChartConfig * string * list string * References :=
  let finalAnswer := EmptyString in
  let references := NoReferences in
  let fileIds := [] in
  let chartConfig := None in
  (* Process chart result *)
  let '(chartConfig, finalAnswer) :=
    if chartSucceeded chartResult
    then (match chartResult with
          | Some r => chart_chartConfig r
          | None => None
          end,
          finalAnswer ++ "I've created a chart for you. ")
    else (chartConfig, finalAnswer) in
  (* Process RAG result *)
  let '(finalAnswer, fileIds, references) :=
    if ragSucceeded ragResult
    then
      let ids := match ragResult with
                 | Some {| rag_sources := Some ids |} => ids
                 | _ => []
                 end in
      (finalAnswer ++ JS.toStr (match ragResult with
                                | Some r => rag_answer r
                                | None => None
                                end),
       ids, RagSources ids)
    else (finalAnswer, fileIds, references) in
  (chartConfig, finalAnswer, fileIds, references).

(** The block under "If we only have one result, use it": the last word on
    the answer text. *)
Definition lastWord (finalAnswer : string)
  (chartResult : option ChartResult) (ragResult : option RagResult) : option string :=
  if String.eqb finalAnswer EmptyString
  then
    if chartSucceeded chartResult
    then Some (JS.orDefault (match chartResult with
                             | Some r => chart_message r
                             | None => None
                             end) "Chart created successfully.")
    else if ragSucceeded ragResult
         then match ragResult with
              | Some r => rag_answer r
              | None => None
              end
         else Some "I encountered an error processing your request."
  else Some finalAnswer.

Definition combineResults (state : State) : M Update :=
  try_catch
    (let userQuery := userQuery state in
     let chartResult := chartResult state in
     (* If we have a chart result but no RAG result, and the decision was
        "both", execute the RAG agent now *)
     ragResult <-
       (if isSome chartResult && negb (isSome (ragResult state)) && decisionIs state "both"
        then r <- RAGAgent.query userQuery ;; ret (Some r)
        else ret (ragResult state)) ;;
     let '(chartConfig, finalAnswer, fileIds, references) :=
       assemble chartResult ragResult in
     (* If we have both, create a comprehensive response *)
     finalAnswer <-
       (if chartSucceeded chartResult && ragSucceeded ragResult
        then
          match chartResult, ragResult with
          | Some c, Some r => chat (CombinePrompt userQuery c (rag_answer r))
          | _, _ => ret finalAnswer
          end
        else ret finalAnswer) ;;
     let finalAnswer := lastWord finalAnswer chartResult ragResult in
     ret (finish state
            {| final_answer := finalAnswer;
               references := references;
               fileIds := fileIds;
               chartConfig := chartConfig |}
            {| role := "assistant"; content := finalAnswer |}))
    (fun _ => ret (finish state combineFailed (assistant "Error in combining results"))).

(** *** The compiled graph *)

Inductive Target :=
| Next (n : Node)
| END.

Definition runNode (n : Node) (state : State) : M Update :=
  match n with
  | analyze_query => analyzeQuery state
  | chart_tool => executeChartTool state
  | rag_agent => executeRAGAgent state
  | direct_response => directResponse state
  | combine_results => combineResults state
  end.

(** The edges: the conditional edge out of [analyze_query] and the four
    fixed ones. *)
Definition edge (n : Node) (state : State) : Target :=
  match n with
  | analyze_query => Next (routeDecision state)
  | chart_tool => Next combine_results
  | rag_agent => Next combine_results
  | direct_response => END
  | combine_results => END
  end.

(** The number of steps after which the graph library gives up. *)
Definition recursionLimit : nat := 25.

(** Run a node, merge what it returns into the state, follow the edge. *)
Fixpoint superSteps (fuel : nat) (n : Node) (state : State) : M State :=
  match fuel with
  | 0 => throw "Recursion limit reached without hitting a stop condition."
  | S fuel' =>
      update <- runNode n state ;;
      let state' := applyUpdate state update in
      match edge n state' with
      | END => ret state'
      | Next n' => superSteps fuel' n' state'
      end
  end.

(** [this.app.invoke(input)], from the entry point. *)
Definition invoke (input : Update) : M State :=
  superSteps recursionLimit analyze_query (applyUpdate defaultState input).

Definition noResponse : FinalResponse :=
  {| final_answer := Some "No response generated.";
     references := NoReferences;
     fileIds := [];
     chartConfig := None |}.

Definition queryFailed : FinalResponse :=
  {| final_answer := Some "I encountered an error while processing your query.";
     references := NoReferences;
     fileIds := [];
     chartConfig := None |}.

Definition initialState (userQuery : string) : Update :=
  {| upd_messages := Some [ {| role := "user"; content := Some userQuery |} ];
     upd_userQuery := Some userQuery;
     upd_decision := None;
     upd_chartResult := None;
     upd_ragResult := None;
     upd_finalResponse := None |}.

Definition processQuery (userQuery : string) : M FinalResponse :=
  try_catch
    (result <- invoke (initialState userQuery) ;;
     ret (match finalResponse result with
          | Some response => response
          | None => noResponse
          end))
    (fun _ => ret queryFailed).

End DelegatingAgent.

(** ** Vocabulary of the properties *)

Definition threw {A : Type} (r : Res A) : bool :=
  match r with
  | Ok _ => false
  | Throw _ => true
  end.

Definition isEnter (h : Handler) (e : Event) : bool :=
  match e, h with
  | Enter VisualizationHandler, VisualizationHandler => true
  | Enter RetrievalHandler, RetrievalHandler => true
  | _, _ => false
  end.

(** How many times a handler was started in a sequence of events. *)
Definition starts (h : Handler) (t : list Event) : nat :=
  length (filter (isEnter h) t).

Definition isKeywordCall (e : Event) : bool :=
  match e with
  | KeywordCall _ _ => true
  | _ => false
  end.

Definition isGetterCall (e : Event) : bool :=
  match e with
  | GetterCall _ => true
  | _ => false
  end.

(** The keyword search (tier 2), the unrestricted fetch (tier 3) was
    called in a sequence of events. *)
Definition keywordSearchInvoked (t : list Event) : bool := existsb isKeywordCall t.
Definition fetchInvoked (t : list Event) : bool := existsb isGetterCall t.

(** A computation that never throws, whatever the collaborators do. *)
Definition neverThrows {A : Type} (m : M A) : Prop :=
  forall w past, exists a, outcome m w past = Ok a.

(** A computation in which handler [h] is never started. *)
Definition neverStarts {A : Type} (h : Handler) (m : M A) : Prop :=
  forall w past, starts h (trace m w past) = 0.

(** The four decision tokens. *)
Definition decisionTokens : list string := ["chart"; "rag"; "both"; "direct"].

(** A final response whose four fields hold values of the expected kinds:
    by its type it has [references], [fileIds] and [chartConfig]; its
    [answer] must be a string. *)
Definition wellFormed (r : FinalResponse) : Prop :=
  exists text, final_answer r = Some text.

(** The state in which [processQuery] enters the graph. *)
Definition startState (userQuery : string) : DelegatingAgent.State :=
  DelegatingAgent.applyUpdate DelegatingAgent.defaultState
    (DelegatingAgent.initialState userQuery).

(** ** Scripted collaborators, for concrete runs *)

Definition scripted
  (answers : Prompt -> Res string)
  (similar : Res GraphQLResponse)
  (byKeyword : Res GraphQLResponse)
  (fetched : Res GetterResponse)
  (parse : string -> option JsonValue) : World :=
  {| chatModel := fun _ p => answers p;
     nearText := fun _ _ _ => similar;
     keywordSearch := fun _ _ _ => byKeyword;
     getObjects := fun _ _ => fetched;
     JSON_parse := parse |}.

Definition sampleItem : Item :=
  {| item_fileId := "file_001";
     item_question := "What is machine learning?";
     item_answer := "Machine learning is a subset of artificial intelligence.";
     item_additional := Some None |}.

Definition oneItem : Res GraphQLResponse :=
  Ok {| data_Get_class := Some [sampleItem] |}.

Definition noItems : Res GraphQLResponse :=
  Ok {| data_Get_class := Some [] |}.

Definition noObjects : Res GetterResponse :=
  Ok {| getter_data := Some [] |}.

Definition salesParams : JsonValue :=
  JsonObject {| chartType := Some "bar"; title := Some "Sales"; data := Some "Q1 sales" |}.

(** The chat model classifies with [decisionText], answers the extraction
    prompt with [paramsText] and fails on every other prompt. *)
Definition classifyThenFail (decisionText paramsText : string) (p : Prompt) : Res string :=
  match p with
  | AnalyzePrompt _ => Ok decisionText
  | ChartParamsPrompt _ => Ok paramsText
  | _ => Throw "quota exceeded"
  end.

(** The chat model answers every prompt with the same text. *)
Definition alwaysSays (text : string) (p : Prompt) : Res string := Ok text.

Definition parseNothing (text : string) : option JsonValue := None.
Definition parseSales (text : string) : option JsonValue := Some salesParams.

(** The classification answer is a greeting, none of the four tokens. *)
Definition greetingWorld : World :=
  scripted (alwaysSays " Hello! ") oneItem noItems noObjects parseNothing.

(** Decision [both]; the chart is made; the database answers, and the chat
    model fails on the retrieval agent's prompt. *)
Definition partialFailureWorld : World :=
  scripted (classifyThenFail "both" "{...}") oneItem noItems noObjects parseSales.

(** The similarity search fails; keyword search and getter answer. *)
Definition noVectorsWorld : World :=
  scripted (alwaysSays "rag") (Throw "no vectorizer module") noItems noObjects parseNothing.

(** The similarity search succeeds with no entry. *)
Definition emptyIndexWorld : World :=
  scripted (alwaysSays "rag") noItems oneItem noObjects parseNothing.

(** A query of two lines: "machine learning", a line feed, "neural networks". *)
Definition twoLineQuery : string :=
  "machine learning" ++ JS.newline ++ "neural networks".

(** ** Further vocabulary *)

(** The last resort of [directSearch], the body of its outer [catch]: the
    getter, its objects turned into entries. *)
Definition lastResort (limit : nat) : M SearchResults :=
  try_catch
    (allObjects <- callGetter limit ;;
     let objects := match getter_data allObjects with
                    | Some objects => objects
                    | None => []
                    end in
     entries <- mapM RAGAgent.fromObject objects ;;
     ret (RAGAgent.found entries (length objects) (Some "Used fallback fetchObjects API")))
    (fun fallbackError => ret (RAGAgent.searchFailed fallbackError)).

Definition isChatCall (e : Event) : bool :=
  match e with
  | ChatCall _ => true
  | _ => false
  end.

(** How many times the chat model was called in a sequence of events. *)
Definition chatCalls (t : list Event) : nat := length (filter isChatCall t).

(** Every character of a string passes a test. *)
Fixpoint allChars (p : ascii -> bool) (s : string) : bool :=
  match s with
  | EmptyString => true
  | String c s' => p c && allChars p s'
  end.

(** The characters a keyword can be made of: lower-case letters, digits,
    the underscore, and whitespace other than the space. *)
Definition keywordChar (c : ascii) : bool :=
  (JS.isLower c || JS.isDigit c || (JS.code c =? 95) || JS.isWhiteSpace c)
  && negb (JS.isSpaceChar c).

(** [references] and [fileIds] of a response tell the same sources. *)
Definition sameSources (r : FinalResponse) : Prop :=
  match references r with
  | NoReferences => fileIds r = []
  | RagSources ids => fileIds r = ids
  end.

(** The deferred case of [combineResults]: a chart result, no retrieval
    result, and the decision [both]. *)
Definition deferred (state : DelegatingAgent.State) : bool :=
  DelegatingAgent.isSome (DelegatingAgent.chartResult state)
  && negb (DelegatingAgent.isSome (DelegatingAgent.ragResult state))
  && DelegatingAgent.decisionIs state "both".

(** The first step of [combineResults]: the retrieval result it works
    with, from the state or, in the deferred case, from [query] run now. *)
Definition settleRetrieval (state : DelegatingAgent.State) : M (option RagResult) :=
  if DelegatingAgent.isSome (DelegatingAgent.chartResult state)
     && negb (DelegatingAgent.isSome (DelegatingAgent.ragResult state))
     && DelegatingAgent.decisionIs state "both"
  then r <- RAGAgent.query (DelegatingAgent.userQuery state) ;; ret (Some r)
  else ret (DelegatingAgent.ragResult state).

(** What [combineResults] returns at its end, for the retrieval result it
    works with and the answer text reached before its last block. *)
Definition combined (state : DelegatingAgent.State) (settled : option RagResult)
  (text : string) : DelegatingAgent.Update :=
  let parts := DelegatingAgent.assemble (DelegatingAgent.chartResult state) settled in
  let finalAnswer :=
    DelegatingAgent.lastWord text (DelegatingAgent.chartResult state) settled in
  DelegatingAgent.finish state
    {| final_answer := finalAnswer;
       references := snd parts;
       fileIds := snd (fst parts);
       chartConfig := fst (fst (fst parts)) |}
    {| DelegatingAgent.role := "assistant"; DelegatingAgent.content := finalAnswer |}.

(** What [combineResults] returns from its [catch]. *)
Definition combineGaveUp (state : DelegatingAgent.State) : DelegatingAgent.Update :=
  DelegatingAgent.finish state DelegatingAgent.combineFailed
    (DelegatingAgent.assistant "Error in combining results").

(** The state after the classification answered [text]: the decision and
    one more message. *)
Definition classified (userQuery text : string) : DelegatingAgent.State :=
  let decision := JS.trim (JS.toLowerCase text) in
  DelegatingAgent.applyUpdate (startState userQuery)
    {| DelegatingAgent.upd_messages :=
         Some (DelegatingAgent.messages (startState userQuery)
               ++ [DelegatingAgent.assistant ("Decision: " ++ decision)])%list;
       DelegatingAgent.upd_userQuery := None;
       DelegatingAgent.upd_decision := Some decision;
       DelegatingAgent.upd_chartResult := None;
       DelegatingAgent.upd_ragResult := None;
       DelegatingAgent.upd_finalResponse := None |}.

(** The chat model fails on every prompt. *)
Definition failingChatWorld : World :=
  scripted (fun _ => Throw "quota exceeded") oneItem noItems noObjects parseNothing.

(** The chat model answers [decisionText] to the classification and
    [otherText] to every other prompt. *)
Definition decides (decisionText otherText : string) (p : Prompt) : Res string :=
  match p with
  | AnalyzePrompt _ => Ok decisionText
  | _ => Ok otherText
  end.

(** Decision [rag] on an index without entries. *)
Definition ragOnEmptyWorld : World :=
  scripted (decides "rag" "An answer.") noItems oneItem noObjects parseNothing.

(** Decision [both]; the chart is made, the search finds an entry, and
    the chat model answers every other prompt. *)
Definition bothWorld : World :=
  scripted (decides "both" "A combined answer.") oneItem noItems noObjects parseSales.

(** Decision [chart]; the extraction answer does not parse. *)
Definition chartWorld : World :=
  scripted (decides "chart" "no JSON here") oneItem noItems noObjects parseNothing.

(** ** The HTTP endpoints (index.js) *)

Module Server.

(** The JSON body of a request, with the fields the endpoints read; each
    may be missing, and each is a string when present (other JSON types are
    outside the model). *)
Record Body := {
  body_query : option string;
  body_chartType : option string;
  body_title : option string;
  body_data : option string
}.

(** What is sent with [res.json]. *)
Inductive Payload :=
| ErrorPayload (error : string)
| QueryPayload (query : string) (response : FinalResponse)
| ChartPayload (result : ChartResult)
| RagPayload (result : RagResult)
| SetupPayload (message : string).

(** An answer: the status set with [res.status] (200 when none is set) and
    the payload. *)
Record Reply := {
  status : nat;
  payload : Payload
}.

(** [{ success: false, error }] with a status. *)
Definition refuse (code : nat) (error : string) : Reply :=
  {| status := code; payload := ErrorPayload error |}.

(** [res.json(payload)] *)
Definition json (p : Payload) : Reply := {| status := 200; payload := p |}.

(** [const { ... } = req.body]: throws when [req.body] is undefined.  Where
    the body parser leaves an empty object for a request without a body,
    the body is [Some] of a body with every field missing. *)
Definition destructure (body : option Body) (field : string) : M Body :=
  match body with
  | Some b => ret b
  | None =>
      throw ("Cannot destructure property '" ++ field
             ++ "' of 'req.body' as it is undefined.")
  end.

(** A string that is present and not empty, the only truthy case. *)
Definition truthy (x : option string) : option string :=
  match x with
  | Some s => if String.eqb s EmptyString then None else Some s
  | None => None
  end.

(** [app.post('/query', ...)]; [agent] tells whether [delegatingAgent] is
    set. *)
Definition postQuery (agent : bool) (body : option Body) : M Reply :=
  try_catch
    (b <- destructure body "query" ;;
     match truthy (body_query b) with
     | None => ret (refuse 400 "Query is required")
     | Some query =>
         if negb agent
         then ret (refuse 503 "Agent system not initialized. Please run /setup first.")
         else
           result <- DelegatingAgent.processQuery query ;;
           ret (json (QueryPayload query result))
     end)
    (fun message => ret (refuse 500 message)).

(** [app.post('/test/chart', ...)] *)
Definition postTestChart (agent : bool) (body : option Body) : M Reply :=
  try_catch
    (b <- destructure body "chartType" ;;
     if negb agent
     then ret (refuse 503 "Agent system not initialized")
     else
       chartResult <-
         ChartTool.invoke
           (InputJsonText
              (JsonObject
                 {| chartType := Some (JS.orDefault (body_chartType b) "bar");
                    title := Some (JS.orDefault (body_title b) "Test Chart");
                    data := Some (JS.orDefault (body_data b) "Test data") |})) ;;
       ret (json (ChartPayload chartResult)))
    (fun message => ret (refuse 500 message)).

(** [app.post('/test/rag', ...)] *)
Definition postTestRag (agent : bool) (body : option Body) : M Reply :=
  try_catch
    (b <- destructure body "query" ;;
     match truthy (body_query b) with
     | None => ret (refuse 400 "Query is required")
     | Some query =>
         if negb agent
         then ret (refuse 503 "Agent system not initialized")
         else
           ragResult <- RAGAgent.query query ;;
           ret (json (RagPayload ragResult))
     end)
    (fun message => ret (refuse 500 message)).

End Server.

(** ** Database setup (setup/weaviate-setup.js) and the setup endpoint *)

(** Computations over collaborators [W] that leave events [E]: the shape
    of [M], for code that talks to other collaborators. *)
Section Effects.

Variables W E : Type.

Definition Eff (A : Type) : Type := W -> list E -> Res A * list E.

Definition eret {A : Type} (a : A) : Eff A := fun _ _ => (Ok a, []).

Definition ethrow {A : Type} (message : string) : Eff A := fun _ _ => (Throw message, []).

Definition ebind {A B : Type} (m : Eff A) (f : A -> Eff B) : Eff B :=
  fun w past =>
    match m w past with
    | (Ok a, t) => let (r, t') := f a w (past ++ t)%list in (r, (t ++ t')%list)
    | (Throw e, t) => (Throw e, t)
    end.

(** [try { m } catch (error) { handler(error.message) }] *)
Definition etry {A : Type} (m : Eff A) (handler : string -> Eff A) : Eff A :=
  fun w past =>
    match m w past with
    | (Ok a, t) => (Ok a, t)
    | (Throw e, t) => let (r, t') := handler e w (past ++ t)%list in (r, (t ++ t')%list)
    end.

(** [for (const x of arr) { await f(x) }] *)
Fixpoint forEach {A : Type} (f : A -> Eff unit) (arr : list A) : Eff unit :=
  match arr with
  | [] => eret tt
  | x :: rest => ebind (f x) (fun _ => forEach f rest)
  end.

End Effects.

Arguments eret {W E A} a.
Arguments ethrow {W E A} message.
Arguments ebind {W E A B} m f.
Arguments etry {W E A} m handler.
Arguments forEach {W E A} f arr.

Module Setup.

Definition CLASS_NAME : string := "QuestionAnswer".
Definition TENANT_NAME : string := "default".

(** A property of the class to create. *)
Record PropertyDefinition := {
  property_name : string;
  property_dataType : list string;
  property_description : string;
  property_indexInverted : bool
}.

(** The argument of [withClass]. *)
Record ClassDefinition := {
  class_name : string;
  class_description : string;
  class_multiTenancy_enabled : bool;
  class_properties : list PropertyDefinition
}.

Definition questionAnswerClass : ClassDefinition :=
  {| class_name := CLASS_NAME;
     class_description := "Question and answer pairs with multi-tenancy support";
     class_multiTenancy_enabled := true;
     class_properties :=
       [ {| property_name := "fileId";
            property_dataType := ["text"];
            property_description := "The identifier for each file";
            property_indexInverted := false |};
         {| property_name := "question";
            property_dataType := ["text"];
            property_description := "The question being asked";
            property_indexInverted := true |};
         {| property_name := "answer";
            property_dataType := ["text"];
            property_description := "The answer to the question";
            property_indexInverted := true |} ] |}.

(** A question and answer pair to store. *)
Record Sample := {
  sample_fileId : string;
  sample_question : string;
  sample_answer : string
}.

Definition sampleData : list Sample :=
 [
   {| sample_fileId := "file_001";
      sample_question := "What is machine learning?";
      sample_answer :=
        ("Machine learning is a subset of artificial intelligence that"
         ++ " enables computers to learn and improve from experience without"
         ++ " being explicitly programmed. It uses algorithms to identify"
         ++ " patterns in data and make predictions or decisions.")%string |};
   {| sample_fileId := "file_002";
      sample_question := "How does a neural network work?";
      sample_answer :=
        ("A neural network is a computational model inspired by biological"
         ++ " neural networks. It consists of interconnected nodes (neurons)"
         ++ " organized in layers. Information flows through the network,"
         ++ " with each connection having a weight that gets adjusted during"
         ++ " training to minimize prediction errors.")%string |};
   {| sample_fileId := "file_003";
      sample_question := "What is the difference between supervised and unsupervised learning?";
      sample_answer :=
        ("Supervised learning uses labeled training data to learn the"
         ++ " relationship between inputs and outputs, while unsupervised"
         ++ " learning finds hidden patterns in unlabeled data. Supervised"
         ++ " learning is used for classification and regression tasks, while"
         ++ " unsupervised learning is used for clustering and dimensionality"
         ++ " reduction.")%string |};
   {| sample_fileId := "file_004";
      sample_question := "What are the main types of machine learning algorithms?";
      sample_answer :=
        ("The main types include: 1) Supervised Learning (Linear"
         ++ " Regression, Logistic Regression, Decision Trees, Random Forest,"
         ++ " SVM), 2) Unsupervised Learning (K-means Clustering,"
         ++ " Hierarchical Clustering, PCA), 3) Reinforcement Learning"
         ++ " (Q-Learning, Deep Q-Networks), and 4) Deep Learning (CNNs,"
         ++ " RNNs, Transformers).")%string |};
   {| sample_fileId := "file_005";
      sample_question := "How do you evaluate machine learning models?";
      sample_answer :=
        ("Model evaluation involves metrics like accuracy, precision,"
         ++ " recall, F1-score for classification; MSE, MAE, R-squared for"
         ++ " regression; and cross-validation techniques to ensure robust"
         ++ " performance. The choice of metrics depends on the specific"
         ++ " problem and business requirements.")%string |}
 ].

(** The calls to the database made by the setup, in order. *)
Inductive SetupEvent :=
| ExistsCall (className : string)
| ClassCreate (definition : ClassDefinition)
| TenantsCreate (className : string) (tenants : list string)
| ObjectCreate (className : string) (tenant : option string) (properties : Sample).

(** The database as the setup uses it; each answer may depend on the calls
    made before. *)
Record Database := {
  schemaExists : list SetupEvent -> string -> Res bool;
  createClass : list SetupEvent -> ClassDefinition -> Res unit;
  createTenants : list SetupEvent -> string -> list string -> Res unit;
  createObject : list SetupEvent -> string -> option string -> Sample -> Res unit
}.

(** A computation of the setup. *)
Definition Task (A : Type) : Type := Eff Database SetupEvent A.

Definition callExists (className : string) : Task bool :=
  fun db past => (schemaExists db past className, [ExistsCall className]).

Definition callCreateClass (definition : ClassDefinition) : Task unit :=
  fun db past => (createClass db past definition, [ClassCreate definition]).

Definition callCreateTenants (className : string) (tenants : list string) : Task unit :=
  fun db past => (createTenants db past className tenants, [TenantsCreate className tenants]).

Definition callCreateObject (className : string) (tenant : option string)
  (properties : Sample) : Task unit :=
  fun db past =>
    (createObject db past className tenant properties,
     [ObjectCreate className tenant properties]).

(** The body of the loop over the samples: with the tenant, and if that
    throws, without. *)
Definition insertSample (data : Sample) : Task unit :=
  etry
    (callCreateObject CLASS_NAME (Some TENANT_NAME) data)
    (fun _ => callCreateObject CLASS_NAME None data).

Definition setupWeaviate : Task unit :=
  etry
    (ebind (callExists CLASS_NAME) (fun classExists =>
     ebind (if negb classExists then callCreateClass questionAnswerClass else eret tt)
       (fun _ =>
     ebind (etry (callCreateTenants CLASS_NAME [TENANT_NAME]) (fun _ => eret tt))
       (fun _ =>
     forEach insertSample sampleData))))
    (fun message => ethrow message).

(** [app.post('/setup', ...)] of index.js: the reply, and whether
    [delegatingAgent] is set afterwards. *)
Definition postSetup (agent : bool) : Task (Server.Reply * bool) :=
  etry
    (ebind setupWeaviate (fun _ =>
     eret (Server.json
             (Server.SetupPayload
                "Weaviate database and agent system initialized successfully"),
           true)))
    (fun message => eret (Server.refuse 500 message, agent)).

(** A database of which every call succeeds; the class exists or not. *)
Definition healthy (classExists : bool) : Database :=
  {| schemaExists := fun _ _ => Ok classExists;
     createClass := fun _ _ => Ok tt;
     createTenants := fun _ _ _ => Ok tt;
     createObject := fun _ _ _ _ => Ok tt |}.

(** A database without multi-tenancy: whatever names a tenant throws. *)
Definition withoutTenants : Database :=
  {| schemaExists := fun _ _ => Ok true;
     createClass := fun _ _ => Ok tt;
     createTenants := fun _ _ _ => Throw "multi-tenancy is not enabled";
     createObject := fun _ _ tenant _ =>
                       match tenant with
                       | Some _ => Throw "multi-tenancy is not enabled"
                       | None => Ok tt
                       end |}.

(** A database that cannot be reached. *)
Definition unreachable : Database :=
  {| schemaExists := fun _ _ => Throw "connect ECONNREFUSED";
     createClass := fun _ _ => Throw "connect ECONNREFUSED";
     createTenants := fun _ _ _ => Throw "connect ECONNREFUSED";
     createObject := fun _ _ _ _ => Throw "connect ECONNREFUSED" |}.

Definition isObjectCreate (e : SetupEvent) : bool :=
  match e with
  | ObjectCreate _ _ _ => true
  | _ => false
  end.

Definition isClassCreate (e : SetupEvent) : bool :=
  match e with
  | ClassCreate _ => true
  | _ => false
  end.

(** A sample was accepted: among the calls [all] there is one that stores
    it and that the database answered without throwing. *)
Definition accepted (db : Database) (all : list SetupEvent) (data : Sample) : Prop :=
  exists before after tenant,
    all = (before ++ ObjectCreate CLASS_NAME tenant data :: after)%list
    /\ createObject db before CLASS_NAME tenant data = Ok tt.

(** The samples sent with the tenant, in the order of the calls. *)
Fixpoint sentWithTenant (t : list SetupEvent) : list Sample :=
  match t with
  | [] => []
  | ObjectCreate _ (Some _) data :: rest => data :: sentWithTenant rest
  | _ :: rest => sentWithTenant rest
  end.

End Setup.

(* ================================================================== *)
(** * Properties *)
(* ================================================================== *)

(** ** The monad *)

Lemma trace_ret {A : Type} (a : A) w past : trace (ret a) w past = [].
Proof. reflexivity. Qed.

Lemma outcome_bind {A B : Type} (m : M A) (f : A -> M B) w past :
  outcome (bind m f) w past =
  match outcome m w past with
  | Ok a => outcome (f a) w (past ++ trace m w past)%list
  | Throw e => Throw e
  end.
Proof.
  unfold outcome, trace, bind.
  destruct (m w past) as [[a | e] t]; simpl; [ | reflexivity ].
  destruct (f a w (past ++ t)%list); reflexivity.
Qed.

Lemma trace_bind {A B : Type} (m : M A) (f : A -> M B) w past :
  trace (bind m f) w past =
  (trace m w past ++
   match outcome m w past with
   | Ok a => trace (f a) w (past ++ trace m w past)%list
   | Throw _ => []
   end)%list.
Proof.
  unfold outcome, trace, bind.
  destruct (m w past) as [[a | e] t]; simpl.
  - destruct (f a w (past ++ t)%list); reflexivity.
  - now rewrite app_nil_r.
Qed.

Lemma outcome_try_catch {A : Type} (m : M A) (h : string -> M A) w past :
  outcome (try_catch m h) w past =
  match outcome m w past with
  | Ok a => Ok a
  | Throw e => outcome (h e) w (past ++ trace m w past)%list
  end.
Proof.
  unfold outcome, trace, try_catch.
  destruct (m w past) as [[a | e] t]; simpl; [ reflexivity | ].
  destruct (h e w (past ++ t)%list); reflexivity.
Qed.

Lemma trace_try_catch {A : Type} (m : M A) (h : string -> M A) w past :
  trace (try_catch m h) w past =
  (trace m w past ++
   match outcome m w past with
   | Ok _ => []
   | Throw e => trace (h e) w (past ++ trace m w past)%list
   end)%list.
Proof.
  unfold outcome, trace, try_catch.
  destruct (m w past) as [[a | e] t]; simpl.
  - now rewrite app_nil_r.
  - destruct (h e w (past ++ t)%list); reflexivity.
Qed.

Lemma starts_app h t1 t2 : starts h (t1 ++ t2) = starts h t1 + starts h t2.
Proof. unfold starts. now rewrite filter_app, length_app. Qed.

(** *** Computations that never throw *)

Lemma neverThrows_ret {A : Type} (a : A) : neverThrows (ret a).
Proof. intros w past. now exists a. Qed.

Lemma neverThrows_bind {A B : Type} (m : M A) (f : A -> M B) :
  neverThrows m -> (forall a, neverThrows (f a)) -> neverThrows (bind m f).
Proof.
  intros Hm Hf w past. rewrite outcome_bind.
  destruct (Hm w past) as [a ->]. apply Hf.
Qed.

Lemma neverThrows_try_catch {A : Type} (m : M A) (h : string -> M A) :
  (forall e, neverThrows (h e)) -> neverThrows (try_catch m h).
Proof.
  intros Hh w past. rewrite outcome_try_catch.
  destruct (outcome m w past) as [a | e]; [ now exists a | apply Hh ].
Qed.

Lemma neverThrows_enter h : neverThrows (enter h).
Proof. intros w past. now exists tt. Qed.

Create HintDb nothrow.
#[local] Hint Resolve neverThrows_ret neverThrows_bind neverThrows_try_catch
  neverThrows_enter : nothrow.

(** *** Computations that start no handler *)

Lemma neverStarts_ret {A : Type} h (a : A) : neverStarts h (ret a).
Proof. intros w past. reflexivity. Qed.

Lemma neverStarts_throw {A : Type} h e : neverStarts h (@throw A e).
Proof. intros w past. reflexivity. Qed.

Lemma neverStarts_bind {A B : Type} h (m : M A) (f : A -> M B) :
  neverStarts h m -> (forall a, neverStarts h (f a)) -> neverStarts h (bind m f).
Proof.
  intros Hm Hf w past. rewrite trace_bind, starts_app, Hm.
  destruct (outcome m w past); [ apply Hf | reflexivity ].
Qed.

Lemma neverStarts_try_catch {A : Type} h (m : M A) (k : string -> M A) :
  neverStarts h m -> (forall e, neverStarts h (k e)) -> neverStarts h (try_catch m k).
Proof.
  intros Hm Hk w past. rewrite trace_try_catch, starts_app, Hm.
  destruct (outcome m w past); [ reflexivity | apply Hk ].
Qed.

Lemma neverStarts_chat h p : neverStarts h (chat p).
Proof. intros w past. destruct h; reflexivity. Qed.

Lemma neverStarts_callNearText h q n : neverStarts h (callNearText q n).
Proof. intros w past. destruct h; reflexivity. Qed.

Lemma neverStarts_callKeywordSearch h ks n : neverStarts h (callKeywordSearch ks n).
Proof. intros w past. destruct h; reflexivity. Qed.

Lemma neverStarts_callGetter h n : neverStarts h (callGetter n).
Proof. intros w past. destruct h; reflexivity. Qed.

Lemma neverStarts_parseJSON h s : neverStarts h (parseJSON s).
Proof. intros w past. reflexivity. Qed.

Lemma neverStarts_mapM {A B : Type} h (f : A -> M B) (l : list A) :
  (forall a, neverStarts h (f a)) -> neverStarts h (mapM f l).
Proof.
  intros Hf. induction l as [ | x l IH]; simpl.
  - apply neverStarts_ret.
  - apply neverStarts_bind; [ apply Hf | intros y ].
    apply neverStarts_bind; [ exact IH | intros ys; apply neverStarts_ret ].
Qed.

Create HintDb quiet.
#[local] Hint Resolve neverStarts_ret neverStarts_throw neverStarts_bind
  neverStarts_try_catch neverStarts_chat neverStarts_callNearText
  neverStarts_callKeywordSearch neverStarts_callGetter neverStarts_parseJSON
  neverStarts_mapM : quiet.

(** ** Keyword extraction *)

Lemma filter_filter_implied {A : Type} (p q : A -> bool) (l : list A) :
  (forall x, p x = true -> q x = true) ->
  filter p (filter q l) = filter p l.
Proof.
  intros Himp. induction l as [ | x l IH]; simpl; [ reflexivity | ].
  destruct (q x) eqn:Hq; simpl.
  - now rewrite IH.
  - destruct (p x) eqn:Hp; [ | exact IH ].
    apply Himp in Hp. congruence.
Qed.

Lemma meaningful_nonempty (word : string) :
  meaningful word = true -> negb (String.eqb word EmptyString) = true.
Proof. destruct word; [ discriminate | reflexivity ]. Qed.

Lemma splitAt_ext (p q : ascii -> bool) (s : string) :
  (fix agree (s : string) : Prop :=
     match s with
     | EmptyString => True
     | String c s' => p c = q c /\ agree s'
     end) s ->
  JS.splitAt p s = JS.splitAt q s.
Proof.
  induction s as [ | c s IH]; simpl; [ reflexivity | ].
  intros [Hc Hs]. rewrite Hc, (IH Hs). reflexivity.
Qed.

(** After lower-casing and blanking, a character that was not whitespace
    other than the space is whitespace only if it is the space. *)
Lemma normalized_char_whitespace (c : ascii) :
  (JS.isWhiteSpace c = true -> JS.isSpaceChar c = true) ->
  let c' := JS.lowerChar c in
  let c'' := if JS.isWordChar c' || JS.isWhiteSpace c' then c' else " "%char in
  JS.isWhiteSpace c'' = JS.isSpaceChar c''.
Proof.
  destruct c as [[] [] [] [] [] [] [] []]; vm_compute;
    intros H; first [ reflexivity | symmetry; exact (H eq_refl) ].
Qed.

Lemma normalized_splits_agree (query : string) :
  onlySpaces query ->
  JS.splitAt JS.isWhiteSpace (blankPunctuation (JS.toLowerCase query))
  = JS.splitAt JS.isSpaceChar (blankPunctuation (JS.toLowerCase query)).
Proof.
  intros H. apply splitAt_ext.
  induction query as [ | c s IH]; simpl; [ exact I | ].
  destruct H as [Hc Hs]. split; [ | exact (IH Hs) ].
  exact (normalized_char_whitespace c Hc).
Qed.

Lemma in_firstn {A : Type} (n : nat) (l : list A) (x : A) :
  In x (firstn n l) -> In x l.
Proof.
  revert l. induction n as [ | n IH]; intros [ | y l]; simpl; try tauto.
  intros [-> | H]; [ now left | right; exact (IH l H) ].
Qed.

Lemma extractKeywords_at_most_three (query : string) :
  length (extractKeywords query) <= 3.
Proof. unfold extractKeywords, JS.slice0. apply firstn_le_length. Qed.

Lemma extractKeywords_meaningful (query : string) :
  Forall (fun k => meaningful k = true) (extractKeywords query).
Proof.
  unfold extractKeywords, JS.slice0. apply Forall_forall. intros k Hk.
  apply in_firstn in Hk. apply filter_In in Hk. tauto.
Qed.

(** C6, as the code has it.  Keyword extraction is a function of the query
    alone: it yields at most three keywords, each longer than two characters
    and no stop word; on ["What is the Capital of France?"] it yields
    [what, capital, france]; and it is the extraction the specification
    describes (split on whitespace) for every query whose only whitespace is
    the space character, the one separator the code splits on. *)
Theorem C6_keyword_extraction (query : string) :
  extractKeywords "What is the Capital of France?" = ["what"; "capital"; "france"]
  /\ length (extractKeywords query) <= 3
  /\ Forall (fun k => meaningful k = true) (extractKeywords query)
  /\ (onlySpaces query -> extractKeywords query = extractKeywords_spec query).
Proof.
  split; [ reflexivity | ].
  split; [ apply extractKeywords_at_most_three | ].
  split; [ apply extractKeywords_meaningful | ].
  intros H. unfold extractKeywords, extractKeywords_spec, splitOnWhitespace,
    JS.slice0, JS.split_space.
  rewrite (normalized_splits_agree query H).
  rewrite filter_filter_implied by exact meaningful_nonempty.
  reflexivity.
Qed.

Lemma C6_keyword_extraction_witness :
  onlySpaces "big cat, small dog"
  /\ extractKeywords "big cat, small dog" = extractKeywords_spec "big cat, small dog".
Proof.
  assert (H : onlySpaces "big cat, small dog") by (vm_compute; intuition discriminate).
  split; [ exact H | ].
  exact (proj2 (proj2 (proj2 (C6_keyword_extraction "big cat, small dog"))) H).
Defined.

(** C6, the claim as written fails: a line feed is whitespace, the code
    does not split on it and keeps "learning", the line feed and "neural" as
    one keyword, where splitting on whitespace gives three words. *)
Lemma C6_counterexample :
  extractKeywords twoLineQuery
  = ["machine"; "learning" ++ JS.newline ++ "neural"; "networks"]
  /\ extractKeywords_spec twoLineQuery = ["machine"; "learning"; "neural"].
Proof. split; reflexivity. Qed.

(** ** The retrieval fallback chain *)

Lemma trace_mapM_fromObject (objects : list DataObject) w past :
  trace (mapM RAGAgent.fromObject objects) w past = [].
Proof.
  revert past. induction objects as [ | o objects IH]; intros past; [ reflexivity | ].
  simpl. rewrite trace_bind.
  assert (Ho : trace (RAGAgent.fromObject o) w past = []).
  { unfold RAGAgent.fromObject. destruct (properties o); reflexivity. }
  rewrite Ho. simpl.
  destruct (outcome (RAGAgent.fromObject o) w past); [ | reflexivity ].
  rewrite trace_bind, IH. simpl.
  destruct (outcome (mapM RAGAgent.fromObject objects) w (past ++ [])%list); reflexivity.
Qed.

Lemma trace_classItems (result : SearchResponse) w past :
  trace (RAGAgent.classItems result) w past = [].
Proof.
  destruct result as [r | r]; simpl; [ reflexivity | ].
  destruct (getter_data r); reflexivity.
Qed.

(** The events of the last resort of [directSearch]: one call of the getter. *)
Lemma trace_last_resort limit w past :
  trace
    (try_catch
       (allObjects <- callGetter limit ;;
        let objects := match getter_data allObjects with
                       | Some objects => objects
                       | None => []
                       end in
        entries <- mapM RAGAgent.fromObject objects ;;
        ret (RAGAgent.found entries (length objects)
               (Some "Used fallback fetchObjects API")))
       (fun fallbackError => ret (RAGAgent.searchFailed fallbackError))) w past
  = [GetterCall limit].
Proof.
  rewrite trace_try_catch, trace_bind. simpl.
  rewrite outcome_bind.
  change (trace (callGetter limit) w past) with [GetterCall limit].
  destruct (outcome (callGetter limit) w past) as [r | e]; simpl; [ | reflexivity ].
  rewrite trace_bind, trace_mapM_fromObject, outcome_bind. simpl.
  destruct (outcome (mapM RAGAgent.fromObject _) w _); reflexivity.
Qed.

(** The calls made by [directSearch], by what the collaborators do. *)
Lemma trace_directSearch query limit w past :
  trace (RAGAgent.directSearch query limit) w past =
  match nearText w past query limit with
  | Ok _ => [NearTextCall query limit]
  | Throw _ =>
      let keywords := extractKeywords query in
      if length keywords =? 0
      then [NearTextCall query limit; GetterCall limit; GetterCall limit]
      else
        match keywordSearch w (past ++ [NearTextCall query limit])%list keywords limit with
        | Ok _ => [NearTextCall query limit; KeywordCall keywords limit]
        | Throw _ => [NearTextCall query limit; KeywordCall keywords limit; GetterCall limit]
        end
  end.
Proof.
  unfold RAGAgent.directSearch.
  rewrite trace_try_catch.
  rewrite trace_bind, outcome_bind, trace_try_catch, outcome_try_catch.
  rewrite trace_bind, outcome_bind.
  change (trace (callNearText query limit) w past) with [NearTextCall query limit].
  change (outcome (callNearText query limit) w past) with (nearText w past query limit).
  destruct (nearText w past query limit) as [r | e]; simpl.
  - reflexivity.
  - rewrite trace_last_resort.
    destruct (length (extractKeywords query) =? 0) eqn:Hk.
    + unfold trace, outcome, bind, callGetter, ret. simpl.
      destruct (getObjects w (past ++ [NearTextCall query limit])%list limit) as [g | e'];
        simpl; [ destruct (getter_data g); reflexivity | reflexivity ].
    + unfold trace, outcome, bind, callKeywordSearch, ret. simpl.
      destruct (keywordSearch w (past ++ [NearTextCall query limit])%list
                  (extractKeywords query) limit) as [g | e']; reflexivity.
Qed.

(** C5.  In [directSearch] each tier is called only when the tier before
    it has thrown.  The keyword search is called exactly when the
    similarity search throws, unless keyword extraction yields no keyword,
    in which case it is skipped; a similarity search that succeeds, even
    with no entry, is followed by no other call; and the unrestricted fetch
    is called exactly when the similarity search has thrown and either the
    keyword search is skipped for want of keywords or it throws. *)
Theorem C5_fallback_chain w query limit past :
  let t := trace (RAGAgent.directSearch query limit) w past in
  let keywords := extractKeywords query in
  let tier1 := nearText w past query limit in
  let tier2 := keywordSearch w (past ++ [NearTextCall query limit])%list keywords limit in
  (keywordSearchInvoked t = true <-> threw tier1 = true /\ keywords <> [])
  /\ (threw tier1 = false -> t = [NearTextCall query limit])
  /\ (fetchInvoked t = true <->
      threw tier1 = true /\ (keywords = [] \/ threw tier2 = true)).
Proof.
  cbv zeta. rewrite trace_directSearch.
  destruct (nearText w past query limit) as [r | e]; cbv zeta; simpl.
  - intuition discriminate.
  - destruct (extractKeywords query) as [ | k ks] eqn:Hk; simpl.
    + intuition (discriminate || congruence).
    + destruct (keywordSearch w (past ++ [NearTextCall query limit])%list (k :: ks) limit);
        simpl; intuition (discriminate || congruence).
Qed.

Lemma C5_fallback_chain_witness :
  threw (nearText emptyIndexWorld [] "What is machine learning?" 3) = false
  /\ trace (RAGAgent.directSearch "What is machine learning?" 3) emptyIndexWorld []
     = [NearTextCall "What is machine learning?" 3].
Proof.
  split; [ reflexivity | ].
  exact (proj1 (proj2 (C5_fallback_chain emptyIndexWorld "What is machine learning?" 3 []))
           eq_refl).
Defined.

(** The skip of the keyword search: on ["Is it on?"] no token survives
    the extraction, so when the similarity search throws the keyword search
    is not called; the getter is called instead. *)
Example zero_keyword_skip :
  threw (nearText noVectorsWorld [] "Is it on?" 3) = true
  /\ extractKeywords "Is it on?" = []
  /\ trace (RAGAgent.directSearch "Is it on?" 3) noVectorsWorld []
     = [NearTextCall "Is it on?" 3; GetterCall 3; GetterCall 3]
  /\ keywordSearchInvoked (trace (RAGAgent.directSearch "Is it on?" 3) noVectorsWorld [])
     = false.
Proof. repeat split; reflexivity. Qed.

(** ** The retrieval handler *)

Lemma query_neverThrows (userQuery : string) : neverThrows (RAGAgent.query userQuery).
Proof. unfold RAGAgent.query. auto with nothrow. Qed.

(** The outcome of [query], by the outcome of the search. *)
Lemma outcome_query userQuery w past :
  outcome (RAGAgent.query userQuery) w past =
  let past1 := (past ++ [Enter RetrievalHandler])%list in
  match outcome (RAGAgent.directSearch userQuery 3) w past1 with
  | Throw message => Ok (RAGAgent.queryFailed message)
  | Ok searchResults =>
      if negb (search_success searchResults) then Ok RAGAgent.notFound
      else
        match results searchResults with
        | None =>
            Ok (RAGAgent.queryFailed
                  "Cannot read properties of undefined (reading 'length')")
        | Some entries =>
            if length entries =? 0 then Ok RAGAgent.notFound
            else
              let context := JS.join JS.newline (map RAGAgent.describe entries) in
              let past2 := (past1 ++ trace (RAGAgent.directSearch userQuery 3) w past1)%list in
              match chatModel w past2 (RagAnswerPrompt context userQuery) with
              | Ok text =>
                  Ok {| rag_success := true;
                        rag_answer := Some text;
                        rag_sources := Some (map fileId entries);
                        rag_error := None |}
              | Throw message => Ok (RAGAgent.queryFailed message)
              end
        end
  end.
Proof.
  unfold RAGAgent.query. rewrite outcome_bind. simpl.
  change (trace (enter RetrievalHandler) w past) with [Enter RetrievalHandler].
  rewrite outcome_try_catch, outcome_bind.
  destruct (outcome (RAGAgent.directSearch userQuery 3) w (past ++ [Enter RetrievalHandler])%list)
    as [sr | e]; [ | reflexivity ].
  destruct (search_success sr); simpl; [ | reflexivity ].
  rewrite outcome_bind. unfold RAGAgent.getResults.
  destruct (results sr) as [entries | ]; simpl; [ | reflexivity ].
  rewrite app_nil_r.
  destruct (length entries =? 0); [ reflexivity | ].
  rewrite outcome_bind. unfold outcome at 1. unfold chat. simpl.
  destruct (chatModel w _ _); reflexivity.
Qed.

(** C7.  When the fallback chain succeeds with no entry, [query] throws
    nothing and returns the soft miss: not successful, the fixed answer,
    no source. *)
Theorem C7_soft_miss w userQuery past searchResults :
  outcome (RAGAgent.directSearch userQuery 3) w (past ++ [Enter RetrievalHandler])%list
  = Ok searchResults ->
  search_success searchResults = true ->
  results searchResults = Some [] ->
  outcome (RAGAgent.query userQuery) w past
  = Ok {| rag_success := false;
          rag_answer := Some "I could not find relevant information in the database.";
          rag_sources := Some [];
          rag_error := None |}.
Proof.
  intros Hsearch Hok Hnone.
  rewrite outcome_query. cbv zeta. rewrite Hsearch, Hok, Hnone. reflexivity.
Qed.

Lemma C7_soft_miss_witness :
  outcome (RAGAgent.query "What is machine learning?") emptyIndexWorld []
  = Ok {| rag_success := false;
          rag_answer := Some "I could not find relevant information in the database.";
          rag_sources := Some [];
          rag_error := None |}.
Proof.
  apply (C7_soft_miss emptyIndexWorld "What is machine learning?" []
           (RAGAgent.found [] 0 None)); reflexivity.
Defined.

(** C4, as the code has it.  [query] never throws; and when the chat model
    throws on the answer prompt, it returns an outcome that is not
    successful, carries the error's message, has the fixed answer
    ["I encountered an error while processing your query."] and has no list
    of sources. *)
Theorem C4_completion_failure w userQuery past :
  (exists r, outcome (RAGAgent.query userQuery) w past = Ok r)
  /\ forall searchResults entries message,
       let past1 := (past ++ [Enter RetrievalHandler])%list in
       let past2 := (past1 ++ trace (RAGAgent.directSearch userQuery 3) w past1)%list in
       let context := JS.join JS.newline (map RAGAgent.describe entries) in
       outcome (RAGAgent.directSearch userQuery 3) w past1 = Ok searchResults ->
       search_success searchResults = true ->
       results searchResults = Some entries ->
       entries <> [] ->
       chatModel w past2 (RagAnswerPrompt context userQuery) = Throw message ->
       outcome (RAGAgent.query userQuery) w past
       = Ok {| rag_success := false;
               rag_answer := Some "I encountered an error while processing your query.";
               rag_sources := None;
               rag_error := Some message |}.
Proof.
  split; [ apply query_neverThrows | ].
  intros sr entries message past1 past2 context Hsearch Hok Hres Hne Hchat.
  rewrite outcome_query. cbv zeta. fold past1. rewrite Hsearch, Hok, Hres. simpl.
  destruct entries as [ | e es]; [ now elim Hne | ]. simpl length. simpl Nat.eqb. cbv iota.
  fold past2. fold context in Hchat |- *.
  unfold context in *. rewrite Hchat. reflexivity.
Qed.

Lemma C4_completion_failure_witness :
  outcome (RAGAgent.query "What is machine learning?") partialFailureWorld []
  = Ok {| rag_success := false;
          rag_answer := Some "I encountered an error while processing your query.";
          rag_sources := None;
          rag_error := Some "quota exceeded" |}.
Proof.
  apply (proj2 (C4_completion_failure partialFailureWorld "What is machine learning?" [])
           (RAGAgent.found [RAGAgent.toEntry sampleItem] 1 None)
           [RAGAgent.toEntry sampleItem] "quota exceeded");
    solve [ reflexivity | discriminate ].
Defined.

(** C4, the claim as written fails: when the chat model throws, the answer
    text of the outcome is a string, not [null], and there is no list of
    sources, not an empty one. *)
Lemma C4_counterexample :
  chatModel partialFailureWorld
    [Enter RetrievalHandler; NearTextCall "What is machine learning?" 3]
    (RagAnswerPrompt
       (JS.join JS.newline [RAGAgent.describe (RAGAgent.toEntry sampleItem)])
       "What is machine learning?")
  = Throw "quota exceeded"
  /\ exists r,
       outcome (RAGAgent.query "What is machine learning?") partialFailureWorld [] = Ok r
       /\ rag_answer r = Some "I encountered an error while processing your query."
       /\ rag_sources r = None.
Proof. split; [ reflexivity | eexists; repeat split ]. Qed.

(** ** The nodes of the graph *)

Import DelegatingAgent.

Lemma run_analyzeQuery state w past :
  analyzeQuery state w past =
  (match chatModel w past (AnalyzePrompt (userQuery state)) with
   | Ok text =>
       let decision := JS.trim (JS.toLowerCase text) in
       Ok {| upd_messages :=
               Some (messages state ++ [assistant ("Decision: " ++ decision)])%list;
             upd_userQuery := None;
             upd_decision := Some decision;
             upd_chartResult := None;
             upd_ragResult := None;
             upd_finalResponse := None |}
   | Throw e => Throw e
   end,
   [ChatCall (AnalyzePrompt (userQuery state))]).
Proof.
  unfold analyzeQuery, bind, chat, ret.
  destruct (chatModel w past (AnalyzePrompt (userQuery state))); reflexivity.
Qed.

Lemma run_directResponse state w past :
  directResponse state w past =
  (match chatModel w past (DirectPrompt (userQuery state)) with
   | Ok text =>
       Ok (finish state
             {| final_answer := Some text;
                references := NoReferences;
                fileIds := [];
                chartConfig := None |}
             (assistant text))
   | Throw e => Throw e
   end,
   [ChatCall (DirectPrompt (userQuery state))]).
Proof.
  unfold directResponse, bind, chat, ret.
  destruct (chatModel w past (DirectPrompt (userQuery state))); reflexivity.
Qed.

Lemma run_chartTool input w past :
  ChartTool.invoke input w past = (Ok (ChartTool.generated input), []).
Proof. reflexivity. Qed.

Lemma run_executeChartTool state w past :
  executeChartTool state w past =
  (let past1 := (past ++ [Enter VisualizationHandler])%list in
   match chatModel w past1 (ChartParamsPrompt (userQuery state)) with
   | Ok text =>
       let chartParams := match JSON_parse w text with
                          | Some value => value
                          | None => defaultChartParams (userQuery state)
                          end in
       Ok {| upd_messages := Some (messages state ++ [assistant "Chart tool executed"])%list;
             upd_userQuery := None;
             upd_decision := None;
             upd_chartResult := Some (ChartTool.generated (InputJsonText chartParams));
             upd_ragResult := None;
             upd_finalResponse := None |}
   | Throw message =>
       Ok {| upd_messages := Some (messages state ++ [assistant "Chart tool failed"])%list;
             upd_userQuery := None;
             upd_decision := None;
             upd_chartResult := Some {| chart_success := false;
                                        chart_chartConfig := None;
                                        chart_message := None;
                                        chart_error := Some message |};
             upd_ragResult := None;
             upd_finalResponse := None |}
   end,
   [Enter VisualizationHandler; ChatCall (ChartParamsPrompt (userQuery state))]).
Proof.
  unfold executeChartTool, bind, try_catch, enter, chat, parseJSON, ret. simpl.
  destruct (chatModel w (past ++ [Enter VisualizationHandler])%list
              (ChartParamsPrompt (userQuery state))); reflexivity.
Qed.

(** C8, as the code has it.  [executeChartTool] never throws and always
    writes a chart result.  A successful result carries a chart
    configuration and the message
    ["Generated <kind> chart configuration for: <title>"], where kind and
    title are the type and the title text of that configuration.  When the
    chat model throws, the result is not successful, has no configuration
    and carries the error's message.  When the chat model's answer does not
    parse, the chart is generated from the defaults: a bar chart titled
    ["Data Visualization"] whose data description is the query. *)
Theorem C8_visualization_outcome w state past :
  let past1 := (past ++ [Enter VisualizationHandler])%list in
  let asked := chatModel w past1 (ChartParamsPrompt (userQuery state)) in
  exists update chartResult,
    outcome (executeChartTool state) w past = Ok update
    /\ upd_chartResult update = Some chartResult
    /\ (chart_success chartResult = true ->
        exists config,
          chart_chartConfig chartResult = Some config
          /\ chart_message chartResult
             = Some ("Generated " ++ cfg_type config ++ " chart configuration for: "
                     ++ cfg_title_text config))
    /\ (forall message,
          asked = Throw message ->
          chartResult = {| chart_success := false;
                           chart_chartConfig := None;
                           chart_message := None;
                           chart_error := Some message |})
    /\ (forall text,
          asked = Ok text ->
          JSON_parse w text = None ->
          chartResult
          = ChartTool.generated
              (InputJsonText
                 (JsonObject {| chartType := Some "bar";
                                title := Some "Data Visualization";
                                data := Some (userQuery state) |}))
          /\ chart_success chartResult = true
          /\ chart_message chartResult
             = Some "Generated bar chart configuration for: Data Visualization").
Proof.
  cbv zeta. unfold outcome. rewrite run_executeChartTool. cbv zeta. simpl fst.
  destruct (chatModel w (past ++ [Enter VisualizationHandler])%list
              (ChartParamsPrompt (userQuery state))) as [text | message].
  - eexists. eexists. split; [ reflexivity | ]. split; [ reflexivity | ].
    split; [ | split ].
    + intros _. eexists. split; reflexivity.
    + intros m Hm. discriminate.
    + intros t Ht Hparse. injection Ht as <-. rewrite Hparse.
      repeat split; reflexivity.
  - eexists. eexists. split; [ reflexivity | ]. split; [ reflexivity | ].
    split; [ | split ].
    + simpl. intros H. discriminate.
    + intros m Hm. injection Hm as <-. reflexivity.
    + intros t Ht. discriminate.
Qed.

Lemma C8_visualization_outcome_witness :
  exists update chartResult,
    outcome (executeChartTool (startState "Show sales")) greetingWorld [] = Ok update
    /\ upd_chartResult update = Some chartResult
    /\ chart_success chartResult = true
    /\ chart_message chartResult
       = Some "Generated bar chart configuration for: Data Visualization".
Proof.
  destruct (C8_visualization_outcome greetingWorld (startState "Show sales") [])
    as (update & chartResult & Hout & Hres & _ & _ & Hdefault).
  exists update, chartResult.
  destruct (Hdefault " Hello! " eq_refl eq_refl) as (_ & Hok & Hmsg).
  repeat split; assumption.
Defined.

(** C8, the claim as written fails: the message of a successful outcome
    reads "... chart configuration for: ...", not "... chart for: ...". *)
Lemma C8_counterexample :
  exists update chartResult,
    outcome (executeChartTool (startState "Show sales")) partialFailureWorld [] = Ok update
    /\ upd_chartResult update = Some chartResult
    /\ chart_success chartResult = true
    /\ chart_message chartResult = Some "Generated bar chart configuration for: Sales"
    /\ String.eqb "Generated bar chart configuration for: Sales"
         "Generated bar chart for: Sales" = false.
Proof. eexists. eexists. repeat split. Qed.

(** ** The combination step *)

Lemma combineResults_neverThrows state : neverThrows (combineResults state).
Proof. unfold combineResults. auto with nothrow. Qed.

Lemma executeRAGAgent_neverThrows state : neverThrows (executeRAGAgent state).
Proof. unfold executeRAGAgent. auto with nothrow. Qed.

Lemma lastWord_chart finalAnswer chartResult ragResult :
  chartSucceeded chartResult = true ->
  exists text, lastWord finalAnswer chartResult ragResult = Some text.
Proof.
  intros Hc. unfold lastWord. rewrite Hc.
  destruct (String.eqb finalAnswer EmptyString); eexists; reflexivity.
Qed.

Lemma lastWord_assembled chartResult ragResult :
  chartSucceeded chartResult = false ->
  exists text,
    lastWord (snd (fst (fst (assemble chartResult ragResult)))) chartResult ragResult
    = Some text.
Proof.
  intros Hc. unfold assemble, lastWord. rewrite Hc.
  destruct (ragSucceeded ragResult) eqn:Hr; simpl; [ | eexists; reflexivity ].
  destruct ragResult as [r | ]; [ | discriminate ].
  destruct (rag_answer r) as [text | ]; simpl.
  - destruct (String.eqb text EmptyString); eexists; reflexivity.
  - eexists; reflexivity.
Qed.

(** The retrieval result [combineResults] works with: the one in the state
    or, in the deferred case, the one [query] returns now. *)
Lemma outcome_settle_retrieval state w past :
  exists settled,
    outcome
      (if isSome (chartResult state) && negb (isSome (ragResult state))
          && decisionIs state "both"
       then r <- RAGAgent.query (userQuery state) ;; ret (Some r)
       else ret (ragResult state)) w past
    = Ok settled
    /\ (isSome (chartResult state) && negb (isSome (ragResult state))
        && decisionIs state "both" = false -> settled = ragResult state)
    /\ (isSome (chartResult state) && negb (isSome (ragResult state))
        && decisionIs state "both" = true ->
        exists r, outcome (RAGAgent.query (userQuery state)) w past = Ok r
                  /\ settled = Some r).
Proof.
  destruct (isSome (chartResult state) && negb (isSome (ragResult state))
            && decisionIs state "both").
  - destruct (query_neverThrows (userQuery state) w past) as [r Hr].
    exists (Some r). rewrite outcome_bind, Hr. split; [ reflexivity | ].
    split; [ discriminate | intros _; now exists r ].
  - exists (ragResult state). split; [ reflexivity | ].
    split; [ reflexivity | discriminate ].
Qed.

(** A response written by [combineResults] has a string for an answer. *)
Lemma combineResults_wellFormed state w past update :
  outcome (combineResults state) w past = Ok update ->
  exists response, upd_finalResponse update = Some response /\ wellFormed response.
Proof.
  unfold combineResults. rewrite outcome_try_catch, outcome_bind.
  destruct (outcome_settle_retrieval state w past) as (settled & -> & _).
  destruct (assemble (chartResult state) settled) as [[[config text] ids] refs] eqn:Ha.
  rewrite outcome_bind.
  destruct (chartSucceeded (chartResult state)) eqn:Hc.
  - match goal with
    | |- context [outcome ?m w ?p] => destruct (outcome m w p) as [said | e]
    end; simpl; intros [= <-]; simpl.
    + eexists. split; [ reflexivity | ]. apply lastWord_chart. exact Hc.
    + eexists. split; [ reflexivity | ]. now exists "I encountered an error while processing your request.".
  - simpl. intros [= <-]. simpl. eexists. split; [ reflexivity | ].
    pose proof (lastWord_assembled (chartResult state) settled Hc) as Hl.
    rewrite Ha in Hl. exact Hl.
Qed.

(** C3, what the code does.  When the chart result is successful and the
    retrieval result the combination works with is absent or not
    successful, [combineResults] answers with the fixed text
    ["I've created a chart for you. "], whatever the message of the chart
    result, and passes on the chart configuration of the chart result. *)
Theorem C3_chart_without_retrieval w past state chart :
  chartResult state = Some chart ->
  chart_success chart = true ->
  match ragResult state with
  | Some r => rag_success r = false
  | None =>
      decisionIs state "both" = true ->
      exists r, outcome (RAGAgent.query (userQuery state)) w past = Ok r
                /\ rag_success r = false
  end ->
  exists update response,
    outcome (combineResults state) w past = Ok update
    /\ upd_finalResponse update = Some response
    /\ final_answer response = Some "I've created a chart for you. "
    /\ chartConfig response = chart_chartConfig chart.
Proof.
  intros Hchart Hok Hrag.
  unfold combineResults. rewrite outcome_try_catch, outcome_bind.
  destruct (outcome_settle_retrieval state w past) as (settled & -> & Hkeep & Hnow).
  assert (Hfail : ragSucceeded settled = false).
  { destruct (isSome (chartResult state) && negb (isSome (ragResult state))
              && decisionIs state "both") eqn:Hd.
    - destruct (Hnow eq_refl) as (r & Hr & ->).
      destruct (ragResult state) as [r0 | ] eqn:Hr0.
      + rewrite Hchart in Hd. simpl in Hd. discriminate.
      + rewrite Hchart in Hd. simpl in Hd.
        destruct (Hrag Hd) as (r' & Hr' & Hf). rewrite Hr in Hr'.
        injection Hr' as <-. exact Hf.
    - rewrite (Hkeep eq_refl). destruct (ragResult state) as [r0 | ]; [ exact Hrag | reflexivity ]. }
  unfold assemble. rewrite Hchart. simpl chartSucceeded. rewrite Hok, Hfail. simpl.
  eexists. eexists. split; [ reflexivity | ]. repeat split.
Qed.

Lemma C3_chart_without_retrieval_witness :
  exists update response,
    outcome
      (combineResults
         {| messages := [];
            userQuery := "Explain sales and chart them";
            decision := Some "both";
            chartResult := Some (ChartTool.generated (InputJsonText salesParams));
            ragResult := None;
            finalResponse := None |}) partialFailureWorld [] = Ok update
    /\ upd_finalResponse update = Some response
    /\ final_answer response = Some "I've created a chart for you. "
    /\ chartConfig response
       = chart_chartConfig (ChartTool.generated (InputJsonText salesParams)).
Proof.
  apply (C3_chart_without_retrieval partialFailureWorld []
           {| messages := [];
              userQuery := "Explain sales and chart them";
              decision := Some "both";
              chartResult := Some (ChartTool.generated (InputJsonText salesParams));
              ragResult := None;
              finalResponse := None |}
           (ChartTool.generated (InputJsonText salesParams)));
    [ reflexivity | reflexivity | ].
  intros _. exists (RAGAgent.queryFailed "quota exceeded"). split; reflexivity.
Defined.

(** C3, the claim as written fails: with the decision [both], the chart
    made and the chat model throwing in the retrieval handler, the answer
    is the fixed text and not the message of the chart result, which reads
    ["Generated bar chart configuration for: Sales"]. *)
Lemma C3_counterexample :
  exists update response,
    outcome
      (combineResults
         {| messages := [];
            userQuery := "Explain sales and chart them";
            decision := Some "both";
            chartResult := Some (ChartTool.generated (InputJsonText salesParams));
            ragResult := None;
            finalResponse := None |}) partialFailureWorld [] = Ok update
    /\ upd_finalResponse update = Some response
    /\ outcome (RAGAgent.query "Explain sales and chart them") partialFailureWorld []
       = Ok (RAGAgent.queryFailed "quota exceeded")
    /\ chart_success (ChartTool.generated (InputJsonText salesParams)) = true
    /\ chart_message (ChartTool.generated (InputJsonText salesParams))
       = Some "Generated bar chart configuration for: Sales"
    /\ final_answer response = Some "I've created a chart for you. "
    /\ String.eqb "I've created a chart for you. "
         "Generated bar chart configuration for: Sales" = false.
Proof. eexists. eexists. repeat split. Qed.

(** ** The graph *)

Lemma outcome_superSteps_S fuel n state w past :
  outcome (superSteps (S fuel) n state) w past =
  match outcome (runNode n state) w past with
  | Ok update =>
      let state' := applyUpdate state update in
      match edge n state' with
      | END => Ok state'
      | Next n' =>
          outcome (superSteps fuel n' state') w (past ++ trace (runNode n state) w past)%list
      end
  | Throw e => Throw e
  end.
Proof.
  simpl superSteps. rewrite outcome_bind.
  destruct (outcome (runNode n state) w past) as [update | e]; [ | reflexivity ].
  cbv zeta. destruct (edge n (applyUpdate state update)); reflexivity.
Qed.

Lemma trace_superSteps_S fuel n state w past :
  trace (superSteps (S fuel) n state) w past =
  (trace (runNode n state) w past ++
   match outcome (runNode n state) w past with
   | Ok update =>
       let state' := applyUpdate state update in
       match edge n state' with
       | END => []
       | Next n' =>
           trace (superSteps fuel n' state') w (past ++ trace (runNode n state) w past)%list
       end
   | Throw _ => []
   end)%list.
Proof.
  simpl superSteps. rewrite trace_bind.
  destruct (outcome (runNode n state) w past) as [update | e]; [ | reflexivity ].
  cbv zeta. destruct (edge n (applyUpdate state update)); reflexivity.
Qed.

(** Only the two terminal nodes write a final response, and what they
    write has a string for an answer. *)
Lemma runNode_wellFormed n state w past update :
  outcome (runNode n state) w past = Ok update ->
  forall response, upd_finalResponse update = Some response -> wellFormed response.
Proof.
  destruct n; simpl runNode.
  - unfold outcome. rewrite run_analyzeQuery. simpl.
    destruct (chatModel w past _); intros [= <-] r; discriminate.
  - unfold outcome. rewrite run_executeChartTool. cbv zeta. simpl fst.
    destruct (chatModel w _ _); intros [= <-] r; discriminate.
  - unfold executeRAGAgent. rewrite outcome_try_catch, outcome_bind.
    destruct (query_neverThrows (userQuery state) w past) as [r ->].
    simpl. intros [= <-] r'; discriminate.
  - unfold outcome. rewrite run_directResponse. simpl.
    destruct (chatModel w past _) as [text | e]; intros [= <-] r [= <-].
    now exists text.
  - intros H r Hr. apply combineResults_wellFormed in H.
    destruct H as (r' & Hr' & Hwf). congruence.
Qed.

Lemma superSteps_wellFormed fuel :
  forall n state w past state',
    (forall r, finalResponse state = Some r -> wellFormed r) ->
    outcome (superSteps fuel n state) w past = Ok state' ->
    forall r, finalResponse state' = Some r -> wellFormed r.
Proof.
  induction fuel as [ | fuel IH]; intros n state w past state' Hinv.
  - discriminate.
  - rewrite outcome_superSteps_S.
    destruct (outcome (runNode n state) w past) as [update | e] eqn:Hrun; [ | discriminate ].
    cbv zeta.
    assert (Hinv' : forall r, finalResponse (applyUpdate state update) = Some r -> wellFormed r).
    { intros r. simpl.
      destruct (upd_finalResponse update) as [y | ] eqn:Hy.
      - intros [= <-]. exact (runNode_wellFormed n state w past update Hrun y Hy).
      - apply Hinv. }
    destruct (edge n (applyUpdate state update)) as [n' | ].
    + apply IH. exact Hinv'.
    + intros [= <-]. exact Hinv'.
Qed.

(** C2.  Whatever the collaborators do, [processQuery] throws nothing and
    returns a final response with its four fields, the answer a string. *)
Theorem C2_no_throw w userQuery past :
  exists response,
    outcome (processQuery userQuery) w past = Ok response
    /\ wellFormed response.
Proof.
  unfold processQuery. rewrite outcome_try_catch, outcome_bind.
  destruct (outcome (invoke (initialState userQuery)) w past) as [result | e] eqn:Hrun.
  - simpl. eexists. split; [ reflexivity | ].
    destruct (finalResponse result) as [response | ] eqn:Hres.
    + unfold invoke in Hrun.
      refine (superSteps_wellFormed _ _ _ _ _ _ _ Hrun _ Hres).
      intros r H. discriminate H.
    + now exists "No response generated.".
  - simpl. eexists. split; [ reflexivity | ].
    now exists "I encountered an error while processing your query.".
Qed.

(** ** Counting the handlers *)

Ltac quiet_step :=
  first
    [ match goal with |- forall _, _ => intro end
    | apply neverStarts_ret
    | apply neverStarts_throw
    | apply neverStarts_chat
    | apply neverStarts_callNearText
    | apply neverStarts_callKeywordSearch
    | apply neverStarts_callGetter
    | apply neverStarts_parseJSON
    | apply neverStarts_mapM
    | match goal with
      | |- neverStarts _ (bind _ _) => apply neverStarts_bind
      | |- neverStarts _ (try_catch _ _) => apply neverStarts_try_catch
      | |- neverStarts _ (if ?b then _ else _) => destruct b
      | |- neverStarts _ (match ?x with _ => _ end) => destruct x
      | |- neverStarts _ (let _ := _ in _) => cbv zeta
      end ].

Lemma neverStarts_classItems h result : neverStarts h (RAGAgent.classItems result).
Proof. unfold RAGAgent.classItems. repeat quiet_step. Qed.

Lemma neverStarts_fromObject h item : neverStarts h (RAGAgent.fromObject item).
Proof. unfold RAGAgent.fromObject. repeat quiet_step. Qed.

Lemma neverStarts_directSearch h query limit :
  neverStarts h (RAGAgent.directSearch query limit).
Proof.
  unfold RAGAgent.directSearch.
  repeat first [ quiet_step | apply neverStarts_classItems | apply neverStarts_fromObject ].
Qed.

Lemma neverStarts_getResults h searchResults :
  neverStarts h (RAGAgent.getResults searchResults).
Proof. unfold RAGAgent.getResults. repeat quiet_step. Qed.

Ltac quiet :=
  repeat first
    [ apply neverStarts_directSearch
    | apply neverStarts_getResults
    | quiet_step ].

Lemma starts_bind_quiet {A B : Type} h (m : M A) (f : A -> M B) w past :
  (forall a, neverStarts h (f a)) ->
  starts h (trace (bind m f) w past) = starts h (trace m w past).
Proof.
  intros Hf. rewrite trace_bind, starts_app.
  destruct (outcome m w past); [ rewrite Hf | ]; apply Nat.add_0_r.
Qed.

Lemma starts_try_catch_quiet {A : Type} h (m : M A) (k : string -> M A) w past :
  (forall e, neverStarts h (k e)) ->
  starts h (trace (try_catch m k) w past) = starts h (trace m w past).
Proof.
  intros Hk. rewrite trace_try_catch, starts_app.
  destruct (outcome m w past); [ | rewrite Hk ]; apply Nat.add_0_r.
Qed.

(** One run of [query] is one start of the retrieval handler. *)
Lemma starts_query h userQuery w past :
  starts h (trace (RAGAgent.query userQuery) w past) =
  match h with
  | RetrievalHandler => 1
  | VisualizationHandler => 0
  end.
Proof.
  unfold RAGAgent.query.
  rewrite starts_bind_quiet by quiet.
  destruct h; reflexivity.
Qed.

Lemma neverStarts_query_visualization userQuery :
  neverStarts VisualizationHandler (RAGAgent.query userQuery).
Proof. intros w past. apply (starts_query VisualizationHandler). Qed.

(** [combineResults] never starts the visualization handler, and starts the
    retrieval handler once in the deferred case and not at all otherwise. *)
Lemma starts_combineResults h state w past :
  starts h (trace (combineResults state) w past) =
  match h with
  | VisualizationHandler => 0
  | RetrievalHandler =>
      if isSome (chartResult state) && negb (isSome (ragResult state))
         && decisionIs state "both"
      then 1 else 0
  end.
Proof.
  unfold combineResults.
  rewrite starts_try_catch_quiet by quiet.
  rewrite starts_bind_quiet by quiet.
  destruct (isSome (chartResult state) && negb (isSome (ragResult state))
            && decisionIs state "both").
  - rewrite starts_bind_quiet by quiet. apply starts_query.
  - destruct h; reflexivity.
Qed.

Lemma starts_executeChartTool h state w past :
  starts h (trace (executeChartTool state) w past) =
  match h with
  | VisualizationHandler => 1
  | RetrievalHandler => 0
  end.
Proof. unfold trace. rewrite run_executeChartTool. destruct h; reflexivity. Qed.

Lemma starts_executeRAGAgent h state w past :
  starts h (trace (executeRAGAgent state) w past) =
  match h with
  | RetrievalHandler => 1
  | VisualizationHandler => 0
  end.
Proof.
  unfold executeRAGAgent.
  rewrite starts_try_catch_quiet by quiet.
  rewrite starts_bind_quiet by quiet.
  apply starts_query.
Qed.

(** ** One request *)

Lemma trace_processQuery userQuery w past :
  trace (processQuery userQuery) w past = trace (invoke (initialState userQuery)) w past.
Proof.
  unfold processQuery. rewrite trace_try_catch, trace_bind, outcome_bind.
  destruct (outcome (invoke (initialState userQuery)) w past); simpl;
    now rewrite ?app_nil_r.
Qed.

Lemma trace_superSteps_combine fuel state w past :
  trace (superSteps (S fuel) combine_results state) w past
  = trace (combineResults state) w past.
Proof.
  rewrite trace_superSteps_S. simpl runNode.
  destruct (outcome (combineResults state) w past); simpl; now rewrite app_nil_r.
Qed.

Lemma trace_superSteps_direct fuel state w past :
  trace (superSteps (S fuel) direct_response state) w past
  = [ChatCall (DirectPrompt (userQuery state))].
Proof.
  rewrite trace_superSteps_S. simpl runNode.
  unfold trace at 1, outcome. rewrite run_directResponse. simpl.
  destruct (chatModel w past _); reflexivity.
Qed.

Lemma executeChartTool_update state w past :
  exists update chart,
    outcome (executeChartTool state) w past = Ok update
    /\ upd_chartResult update = Some chart
    /\ upd_ragResult update = None
    /\ upd_decision update = None.
Proof.
  unfold outcome. rewrite run_executeChartTool. cbv zeta. simpl fst.
  destruct (chatModel w _ _); eexists; eexists; repeat split.
Qed.

Lemma executeRAGAgent_update state w past :
  exists update r,
    outcome (executeRAGAgent state) w past = Ok update
    /\ upd_ragResult update = Some r
    /\ upd_chartResult update = None
    /\ upd_decision update = None.
Proof.
  unfold executeRAGAgent. rewrite outcome_try_catch, outcome_bind.
  destruct (query_neverThrows (userQuery state) w past) as [r ->].
  simpl. eexists; eexists; repeat split.
Qed.

(** The visualization leg: the chart tool, then the combination, in which
    the retrieval handler runs exactly when the decision is [both]. *)
Lemma trace_chart_leg fuel state w past :
  exists update,
    outcome (executeChartTool state) w past = Ok update
    /\ trace (superSteps (S (S fuel)) chart_tool state) w past
       = (trace (executeChartTool state) w past
          ++ trace (combineResults (applyUpdate state update)) w
               (past ++ trace (executeChartTool state) w past))%list
    /\ (ragResult state = None ->
        forall h,
          starts h (trace (combineResults (applyUpdate state update)) w
                      (past ++ trace (executeChartTool state) w past)%list)
          = match h with
            | VisualizationHandler => 0
            | RetrievalHandler => if decisionIs state "both" then 1 else 0
            end).
Proof.
  destruct (executeChartTool_update state w past) as (update & chart & Hrun & Hc & Hr & Hd).
  exists update. split; [ exact Hrun | ]. split.
  - rewrite trace_superSteps_S. cbn [runNode]. rewrite Hrun. cbv zeta. cbn [edge].
    now rewrite trace_superSteps_combine.
  - intros Hnone h. rewrite starts_combineResults.
    unfold decisionIs. simpl. rewrite Hc, Hr, Hd, Hnone. reflexivity.
Qed.

(** The retrieval leg: the retrieval agent, then the combination, which
    finds a retrieval result and does not run the handler again. *)
Lemma starts_rag_leg h fuel state w past :
  starts h (trace (superSteps (S (S fuel)) rag_agent state) w past)
  = match h with
    | VisualizationHandler => 0
    | RetrievalHandler => 1
    end.
Proof.
  destruct (executeRAGAgent_update state w past) as (update & r & Hrun & Hr & Hc & Hd).
  rewrite trace_superSteps_S. cbn [runNode]. rewrite Hrun. cbv zeta. cbn [edge].
  rewrite trace_superSteps_combine, starts_app, starts_executeRAGAgent, starts_combineResults.
  simpl. rewrite Hr. simpl. rewrite andb_false_r. destruct h; reflexivity.
Qed.

Lemma starts_chart_leg h fuel state w past :
  ragResult state = None ->
  starts h (trace (superSteps (S (S fuel)) chart_tool state) w past)
  = match h with
    | VisualizationHandler => 1
    | RetrievalHandler => if decisionIs state "both" then 1 else 0
    end.
Proof.
  intros Hnone.
  destruct (trace_chart_leg fuel state w past) as (update & _ & -> & Hcombine).
  rewrite starts_app, starts_executeChartTool, (Hcombine Hnone).
  destruct h; [ reflexivity | destruct (decisionIs state "both"); reflexivity ].
Qed.

(** The events of a request, by the classification. *)
Lemma trace_invoke q w past :
  trace (invoke (initialState q)) w past =
  ChatCall (AnalyzePrompt q) ::
  match chatModel w past (AnalyzePrompt q) with
  | Throw _ => []
  | Ok text =>
      let decision := JS.trim (JS.toLowerCase text) in
      let state1 :=
        applyUpdate (startState q)
          {| upd_messages :=
               Some (messages (startState q)
                     ++ [assistant ("Decision: " ++ decision)])%list;
             upd_userQuery := None;
             upd_decision := Some decision;
             upd_chartResult := None;
             upd_ragResult := None;
             upd_finalResponse := None |} in
      trace (superSteps 24 (routeDecision state1) state1) w
        (past ++ [ChatCall (AnalyzePrompt q)])%list
  end.
Proof.
  unfold invoke, recursionLimit. rewrite trace_superSteps_S. simpl runNode.
  unfold trace at 1 3, outcome. rewrite run_analyzeQuery. simpl fst. simpl snd.
  change (applyUpdate defaultState (initialState q)) with (startState q).
  change (DelegatingAgent.userQuery (startState q)) with q.
  destruct (chatModel w past (AnalyzePrompt q)); reflexivity.
Qed.

Lemma starts_cons_chat h p t : starts h (ChatCall p :: t) = starts h t.
Proof. destruct h; reflexivity. Qed.

(** The node after the classification is one of the two handlers or the
    direct reply. *)
Lemma routeDecision_cases state :
  (routeDecision state = chart_tool
   /\ (decision state = Some "chart" \/ decision state = Some "both"))
  \/ (routeDecision state = rag_agent /\ decision state = Some "rag")
  \/ (routeDecision state = direct_response
      /\ forall d, decision state = Some d -> ~ In d ["chart"; "rag"; "both"]).
Proof.
  unfold routeDecision. destruct (decision state) as [d | ].
  - destruct (String.eqb_spec d "chart") as [-> | Hc]; [ left; auto | ].
    destruct (String.eqb_spec d "rag") as [-> | Hr]; [ right; left; auto | ].
    destruct (String.eqb_spec d "both") as [-> | Hb]; [ left; auto | ].
    right; right. split; [ reflexivity | ].
    intros d' [= <-]. simpl. intuition congruence.
  - right; right. split; [ reflexivity | discriminate ].
Qed.

Lemma starts_invoke_le h q w past :
  starts h (trace (invoke (initialState q)) w past) <= 1.
Proof.
  rewrite trace_invoke, starts_cons_chat.
  destruct (chatModel w past (AnalyzePrompt q)) as [text | e]; [ | unfold starts; simpl; lia ].
  cbv zeta.
  match goal with
  | |- starts h (trace (superSteps 24 (routeDecision ?s) ?s) w ?p) <= 1 =>
      destruct (routeDecision_cases s) as [[-> _] | [[-> _] | [-> _]]];
      change 24 with (S (S 22))
  end.
  - rewrite starts_chart_leg by reflexivity.
    destruct h; [ lia | ]. match goal with |- (if ?b then _ else _) <= _ => destruct b end; lia.
  - rewrite starts_rag_leg. destruct h; lia.
  - rewrite trace_superSteps_direct. destruct h; unfold starts; simpl; lia.
Qed.

Lemma processQuery_neverThrows q : neverThrows (processQuery q).
Proof. unfold processQuery. auto with nothrow. Qed.

(** C9.  During one request each handler is started at most once.  A
    decision [both] is routed to the chart tool, which does not run the
    retrieval handler; [combineResults] runs the retrieval handler once
    when there is a chart result, no retrieval result and the decision is
    [both], and not at all otherwise; so that after a classification [both]
    the request is the classification, the chart tool and the combination,
    with one start of the visualization handler and one start of the
    retrieval handler, the latter during the combination. *)
Theorem C9_single_dispatch w q past :
  let t := trace (processQuery q) w past in
  (starts VisualizationHandler t <= 1 /\ starts RetrievalHandler t <= 1)
  /\ (forall state,
        decision state = Some "both" ->
        routeDecision state = chart_tool
        /\ neverStarts RetrievalHandler (runNode chart_tool state))
  /\ (forall state w' past',
        starts RetrievalHandler (trace (combineResults state) w' past')
        = if isSome (chartResult state) && negb (isSome (ragResult state))
             && decisionIs state "both"
          then 1 else 0)
  /\ (forall text,
        chatModel w past (AnalyzePrompt q) = Ok text ->
        JS.trim (JS.toLowerCase text) = "both" ->
        exists state1 state2,
          let past1 := (past ++ [ChatCall (AnalyzePrompt q)])%list in
          let past2 := (past1 ++ trace (executeChartTool state1) w past1)%list in
          t = (ChatCall (AnalyzePrompt q)
               :: trace (executeChartTool state1) w past1
               ++ trace (combineResults state2) w past2)%list
          /\ starts RetrievalHandler (trace (executeChartTool state1) w past1) = 0
          /\ starts RetrievalHandler (trace (combineResults state2) w past2) = 1
          /\ starts VisualizationHandler t = 1
          /\ starts RetrievalHandler t = 1).
Proof.
  cbv zeta. rewrite trace_processQuery.
  split; [ split; apply starts_invoke_le | ].
  split.
  { intros state Hd. split.
    - unfold routeDecision. rewrite Hd. reflexivity.
    - intros w' past'. apply (starts_executeChartTool RetrievalHandler). }
  split; [ intros state w' past'; apply (starts_combineResults RetrievalHandler) | ].
  intros text Hchat Hboth.
  rewrite trace_invoke, Hchat. cbv zeta. rewrite Hboth.
  match goal with
  | |- context [superSteps 24 (routeDecision ?s) ?s] =>
      set (state1 := s);
      change (routeDecision state1) with chart_tool;
      change 24 with (S (S 22))
  end.
  destruct (trace_chart_leg 22 state1 w (past ++ [ChatCall (AnalyzePrompt q)])%list)
    as (update & _ & Hleg & Hcombine).
  exists state1, (applyUpdate state1 update).
  rewrite Hleg.
  pose proof (Hcombine eq_refl RetrievalHandler) as HR.
  pose proof (Hcombine eq_refl VisualizationHandler) as HV.
  change (decisionIs state1 "both") with true in HR. cbv iota in HR.
  split; [ reflexivity | ].
  split; [ apply (starts_executeChartTool RetrievalHandler) | ].
  split; [ exact HR | ].
  rewrite !starts_cons_chat, !starts_app, HR, HV, !starts_executeChartTool.
  split; reflexivity.
Qed.

Lemma C9_single_dispatch_witness :
  starts VisualizationHandler
    (trace (processQuery "Explain sales and chart them") partialFailureWorld []) = 1
  /\ starts RetrievalHandler
       (trace (processQuery "Explain sales and chart them") partialFailureWorld []) = 1.
Proof.
  destruct (proj2 (proj2 (proj2
              (C9_single_dispatch partialFailureWorld "Explain sales and chart them" [])))
              "both" eq_refl eq_refl)
    as (state1 & state2 & _ & _ & _ & HV & HR).
  split; [ exact HV | exact HR ].
Defined.

(** ** Classification *)

(** C1, as the code has it.  When the classification answer, lower-cased
    and trimmed, is none of the four tokens, the classification step does
    not fail: the decision it stores is that text itself, routing sends the
    request to the direct reply, and the request is the classification
    followed by the direct reply, which [processQuery] answers without
    throwing; the retrieval handler is not run. *)
Theorem C1_unrecognised_decision w q past text :
  chatModel w past (AnalyzePrompt q) = Ok text ->
  ~ In (JS.trim (JS.toLowerCase text)) decisionTokens ->
  (forall state,
     userQuery state = q ->
     exists update,
       outcome (analyzeQuery state) w past = Ok update
       /\ upd_decision update = Some (JS.trim (JS.toLowerCase text))
       /\ routeDecision (applyUpdate state update) = direct_response)
  /\ (exists response, outcome (processQuery q) w past = Ok response)
  /\ trace (processQuery q) w past
     = [ChatCall (AnalyzePrompt q); ChatCall (DirectPrompt q)].
Proof.
  intros Hchat Hnone.
  assert (Hroute : forall state,
             decision state = Some (JS.trim (JS.toLowerCase text)) ->
             routeDecision state = direct_response).
  { intros state Hd.
    destruct (routeDecision_cases state) as [[_ [H | H]] | [[_ H] | [H _]]];
      [ | | | exact H ];
      rewrite Hd in H; injection H as H; elim Hnone; rewrite H; simpl; tauto. }
  split; [ | split ].
  - intros state <-. unfold outcome. rewrite run_analyzeQuery, Hchat. cbv zeta.
    eexists. split; [ reflexivity | ]. split; [ reflexivity | ].
    apply Hroute. reflexivity.
  - apply processQuery_neverThrows.
  - rewrite trace_processQuery, trace_invoke, Hchat. cbv zeta.
    rewrite Hroute by reflexivity.
    change 24 with (S 23). rewrite trace_superSteps_direct. reflexivity.
Qed.

Lemma C1_unrecognised_decision_witness :
  trace (processQuery "Hi there") greetingWorld []
  = [ChatCall (AnalyzePrompt "Hi there"); ChatCall (DirectPrompt "Hi there")].
Proof.
  refine (proj2 (proj2 (C1_unrecognised_decision greetingWorld "Hi there" [] " Hello! "
                          eq_refl _))).
  simpl. intuition discriminate.
Defined.

(** C1, the claim as written fails: the answer [" Hello! "] is none of the
    four tokens; the decision is then ["hello!"], not ["rag"], the next node
    is the direct reply, and the retrieval handler is never run. *)
Lemma C1_counterexample :
  existsb (String.eqb (JS.trim (JS.toLowerCase " Hello! "))) decisionTokens = false
  /\ exists update,
       outcome (analyzeQuery (startState "Hi there")) greetingWorld [] = Ok update
       /\ upd_decision update = Some "hello!"
       /\ routeDecision (applyUpdate (startState "Hi there") update) = direct_response
       /\ trace (processQuery "Hi there") greetingWorld []
          = [ChatCall (AnalyzePrompt "Hi there"); ChatCall (DirectPrompt "Hi there")]
       /\ starts RetrievalHandler (trace (processQuery "Hi there") greetingWorld []) = 0.
Proof. split; [ reflexivity | eexists; repeat split ]. Qed.

(** The scenario of the specification for a partial failure: the decision
    is [both], the chart is generated, the chat model fails in the
    retrieval agent.  The answer is the fixed text, not the message of the
    chart result. *)
Example partial_failure_run :
  exists state,
    outcome (invoke (initialState "Explain sales and chart them")) partialFailureWorld []
    = Ok state
    /\ decision state = Some "both"
    /\ option_map chart_success (chartResult state) = Some true
    /\ option_map chart_message (chartResult state)
       = Some (Some "Generated bar chart configuration for: Sales")
    /\ option_map rag_success (ragResult state) = None
    /\ option_map final_answer (finalResponse state)
       = Some (Some "I've created a chart for you. ")
    /\ option_map (fun r => isSome (chartConfig r)) (finalResponse state) = Some true.
Proof. eexists. repeat split. Qed.

(* ================================================================== *)
(** * Further properties of the code *)
(* ================================================================== *)

(** ** The search of the retrieval agent *)

Lemma run_fromObject (item : DataObject) w past :
  RAGAgent.fromObject item w past =
  (match properties item with
   | Some p =>
       Ok {| fileId := prop_fileId p;
             question := prop_question p;
             answer := prop_answer p;
             distance := None |}
   | None => Throw "Cannot read properties of undefined (reading 'fileId')"
   end, []).
Proof. unfold RAGAgent.fromObject. destruct (properties item); reflexivity. Qed.

Lemma outcome_mapM_fromObject (objects : list DataObject) w past :
  match outcome (mapM RAGAgent.fromObject objects) w past with
  | Ok entries => length entries = length objects
  | Throw e => e = "Cannot read properties of undefined (reading 'fileId')"
  end.
Proof.
  revert past. induction objects as [ | o objects IH]; intros past; [ reflexivity | ].
  destruct (outcome (mapM RAGAgent.fromObject (o :: objects)) w past) as [ys | e] eqn:H;
    simpl mapM in H; rewrite outcome_bind in H;
    unfold outcome at 1, trace in H; rewrite run_fromObject in H; simpl fst in H;
    simpl snd in H;
    (destruct (properties o) as [p | ]; [ | congruence ]);
    rewrite outcome_bind in H; specialize (IH (past ++ [])%list);
    destruct (outcome (mapM RAGAgent.fromObject objects) w (past ++ [])%list);
    simpl in H; try discriminate; injection H as <-; simpl; congruence.
Qed.

Lemma trace_lastResort limit w past : trace (lastResort limit) w past = [GetterCall limit].
Proof. apply trace_last_resort. Qed.

Lemma outcome_lastResort_eq limit w past :
  outcome (lastResort limit) w past =
  match getObjects w past limit with
  | Ok r =>
      let objects := match getter_data r with
                     | Some objects => objects
                     | None => []
                     end in
      match outcome (mapM RAGAgent.fromObject objects) w (past ++ [GetterCall limit])%list with
      | Ok entries =>
          Ok (RAGAgent.found entries (length objects) (Some "Used fallback fetchObjects API"))
      | Throw e => Ok (RAGAgent.searchFailed e)
      end
  | Throw e => Ok (RAGAgent.searchFailed e)
  end.
Proof.
  unfold lastResort. rewrite outcome_try_catch, outcome_bind.
  change (outcome (callGetter limit) w past) with (getObjects w past limit).
  change (trace (callGetter limit) w past) with [GetterCall limit].
  destruct (getObjects w past limit) as [r | e]; [ | reflexivity ].
  cbv zeta. rewrite outcome_bind.
  destruct (outcome (mapM RAGAgent.fromObject _) w _); reflexivity.
Qed.

(** What the last resort returns: entries as many as its count says, with
    the note of the fallback, or the failure of the search. *)
Lemma outcome_lastResort limit w past :
  exists searchResults,
    outcome (lastResort limit) w past = Ok searchResults
    /\ (if search_success searchResults
        then exists entries,
               results searchResults = Some entries
               /\ count searchResults = Some (length entries)
               /\ note searchResults = Some "Used fallback fetchObjects API"
               /\ search_error searchResults = None
        else results searchResults = None
             /\ search_message searchResults = Some "Both vector search and fallback failed"
             /\ exists e, search_error searchResults = Some e).
Proof.
  rewrite (outcome_lastResort_eq limit w past).
  destruct (getObjects w past limit) as [r | e].
  - cbv zeta.
    pose proof (outcome_mapM_fromObject
                  (match getter_data r with Some objects => objects | None => [] end)
                  w (past ++ [GetterCall limit])%list) as Hmap.
    destruct (outcome (mapM RAGAgent.fromObject _) w _) as [entries | e'].
    + eexists. split; [ reflexivity | ]. simpl.
      exists entries. rewrite Hmap. repeat split.
    + eexists. split; [ reflexivity | ]. simpl. repeat split. now exists e'.
  - eexists. split; [ reflexivity | ]. simpl. repeat split. now exists e.
Qed.

(** The outcome of [directSearch], by what the collaborators do. *)
Lemma outcome_directSearch query limit w past :
  outcome (RAGAgent.directSearch query limit) w past =
  let items (r : GraphQLResponse) :=
    match data_Get_class r with Some items => items | None => [] end in
  match nearText w past query limit with
  | Ok r => Ok (RAGAgent.found (map RAGAgent.toEntry (items r)) (length (items r)) None)
  | Throw _ =>
      let keywords := extractKeywords query in
      if length keywords =? 0
      then outcome (lastResort limit) w
             (past ++ [NearTextCall query limit; GetterCall limit])%list
      else
        match keywordSearch w (past ++ [NearTextCall query limit])%list keywords limit with
        | Ok r => Ok (RAGAgent.found (map RAGAgent.toEntry (items r)) (length (items r)) None)
        | Throw _ =>
            outcome (lastResort limit) w
              (past ++ [NearTextCall query limit; KeywordCall keywords limit])%list
        end
  end.
Proof.
  unfold RAGAgent.directSearch. fold (lastResort limit).
  set (L := lastResort limit).
  unfold outcome, try_catch, bind, callNearText, callGetter, callKeywordSearch, ret,
    RAGAgent.classItems.
  simpl.
  destruct (nearText w past query limit) as [r | e]; simpl; [ reflexivity | ].
  destruct (length (extractKeywords query) =? 0); simpl.
  - destruct (getObjects w (past ++ [NearTextCall query limit])%list limit) as [g | e'];
      simpl; [ destruct (getter_data g); simpl | ];
      rewrite <- ?app_assoc; simpl;
      destruct (L w (past ++ [NearTextCall query limit; GetterCall limit])%list);
      reflexivity.
  - destruct (keywordSearch w (past ++ [NearTextCall query limit])%list
                (extractKeywords query) limit) as [g | e']; simpl; [ reflexivity | ].
    rewrite <- ?app_assoc; simpl.
    destruct (L w _); reflexivity.
Qed.

(** When turning the getter's objects into entries throws, it is the
    TypeError of reading [fileId] on the missing [properties] of one of
    them. *)
Lemma mapM_fromObject_throws (objects : list DataObject) w past e :
  outcome (mapM RAGAgent.fromObject objects) w past = Throw e ->
  e = "Cannot read properties of undefined (reading 'fileId')"
  /\ exists o, In o objects /\ properties o = None.
Proof.
  revert past. induction objects as [ | o objects IH]; intros past H; [ discriminate | ].
  simpl mapM in H. rewrite outcome_bind in H.
  unfold outcome at 1, trace in H. rewrite run_fromObject in H.
  simpl fst in H. simpl snd in H.
  destruct (properties o) as [p | ] eqn:Hp.
  - rewrite outcome_bind in H. specialize (IH (past ++ [])%list).
    destruct (outcome (mapM RAGAgent.fromObject objects) w (past ++ [])%list) as [ys | e'];
      simpl in H; [ discriminate | ].
    injection H as <-. destruct (IH eq_refl) as (He & o' & Hin & Ho').
    split; [ exact He | ]. exists o'. split; [ now right | exact Ho' ].
  - injection H as <-. split; [ reflexivity | ]. exists o. split; [ now left | exact Hp ].
Qed.

(** The error of an unsuccessful last resort: what the getter threw or,
    when the getter answered, the TypeError met on its objects. *)
Lemma lastResort_error limit w past searchResults :
  outcome (lastResort limit) w past = Ok searchResults ->
  search_success searchResults = false ->
  exists e,
    search_error searchResults = Some e
    /\ match getObjects w past limit with
       | Throw thrown => e = thrown
       | Ok allObjects =>
           e = "Cannot read properties of undefined (reading 'fileId')"
           /\ exists o,
                In o (match getter_data allObjects with
                      | Some objects => objects
                      | None => []
                      end)
                /\ properties o = None
       end.
Proof.
  rewrite (outcome_lastResort_eq limit w past).
  destruct (getObjects w past limit) as [r | e].
  - cbv zeta.
    destruct (outcome (mapM RAGAgent.fromObject _) w _) as [entries | e'] eqn:Hmap.
    + intros [= <-]. discriminate.
    + intros [= <-] _. exists e'. split; [ reflexivity | ].
      exact (mapM_fromObject_throws _ _ _ _ Hmap).
  - intros [= <-] _. exists e. split; reflexivity.
Qed.

(** X1.  [directSearch] never throws.  A successful result lists its
    entries and counts them rightly; an unsuccessful one has no entries and
    the message "Both vector search and fallback failed", and is only
    returned after the getter was called: the getter is then the last call
    made, and the error of the result is what that call threw or, when it
    answered, the TypeError of reading [fileId] on the missing
    [properties] of one of its objects. *)
Theorem X1_directSearch_result w query limit past :
  exists searchResults,
    outcome (RAGAgent.directSearch query limit) w past = Ok searchResults
    /\ (if search_success searchResults
        then exists entries,
               results searchResults = Some entries
               /\ count searchResults = Some (length entries)
               /\ search_error searchResults = None
        else results searchResults = None
             /\ search_message searchResults = Some "Both vector search and fallback failed"
             /\ (exists e, search_error searchResults = Some e)
             /\ fetchInvoked (trace (RAGAgent.directSearch query limit) w past) = true
             /\ exists before e,
                  (past ++ trace (RAGAgent.directSearch query limit) w past)%list
                  = (before ++ [GetterCall limit])%list
                  /\ search_error searchResults = Some e
                  /\ match getObjects w before limit with
                     | Throw thrown => e = thrown
                     | Ok allObjects =>
                         e = "Cannot read properties of undefined (reading 'fileId')"
                         /\ exists o,
                              In o (match getter_data allObjects with
                                    | Some objects => objects
                                    | None => []
                                    end)
                              /\ properties o = None
                     end).
Proof.
  rewrite outcome_directSearch, trace_directSearch. cbv zeta.
  assert (Hlast : forall t',
             fetchInvoked (t' ++ [GetterCall limit]) = true ->
             exists searchResults,
               outcome (lastResort limit) w (past ++ t')%list = Ok searchResults
               /\ (if search_success searchResults
                   then exists entries,
                          results searchResults = Some entries
                          /\ count searchResults = Some (length entries)
                          /\ search_error searchResults = None
                   else results searchResults = None
                        /\ search_message searchResults
                           = Some "Both vector search and fallback failed"
                        /\ (exists e, search_error searchResults = Some e)
                        /\ fetchInvoked (t' ++ [GetterCall limit]) = true
                        /\ exists before e,
                             (past ++ t' ++ [GetterCall limit])%list
                             = (before ++ [GetterCall limit])%list
                             /\ search_error searchResults = Some e
                             /\ match getObjects w before limit with
                                | Throw thrown => e = thrown
                                | Ok allObjects =>
                                    e = "Cannot read properties of undefined (reading 'fileId')"
                                    /\ exists o,
                                         In o (match getter_data allObjects with
                                               | Some objects => objects
                                               | None => []
                                               end)
                                         /\ properties o = None
                                end)).
  { intros t' Ht.
    destruct (outcome_lastResort limit w (past ++ t')%list) as (sr & Hrun & Hsr).
    exists sr. split; [ exact Hrun | ].
    destruct (search_success sr) eqn:Hs.
    - destruct Hsr as (entries & H1 & H2 & _ & H4). now exists entries.
    - destruct Hsr as (H1 & H2 & H3).
      destruct (lastResort_error limit w (past ++ t')%list sr Hrun Hs) as (e & He & Hwhy).
      repeat (split; [ assumption | ]).
      exists (past ++ t')%list, e. split; [ apply app_assoc | ]. split; assumption. }
  destruct (nearText w past query limit) as [r | e].
  - eexists. split; [ reflexivity | ]. simpl. eexists. rewrite length_map. repeat split.
  - destruct (length (extractKeywords query) =? 0).
    + exact (Hlast [NearTextCall query limit; GetterCall limit] eq_refl).
    + destruct (keywordSearch w _ _ limit) as [r | e'].
      * eexists. split; [ reflexivity | ]. simpl. eexists. rewrite length_map. repeat split.
      * exact (Hlast [NearTextCall query limit; KeywordCall (extractKeywords query) limit]
                 eq_refl).
Qed.

(** X2.  When the similarity search throws and no keyword survives, the
    getter is called twice: the answer of the first call is dropped
    (reading [data.Get] of it throws), and the result is that of the last
    resort, run after both calls. *)
Theorem X2_first_fetch_discarded w query limit past :
  threw (nearText w past query limit) = true ->
  extractKeywords query = [] ->
  trace (RAGAgent.directSearch query limit) w past
  = [NearTextCall query limit; GetterCall limit; GetterCall limit]
  /\ outcome (RAGAgent.directSearch query limit) w past
     = outcome (lastResort limit) w
         (past ++ [NearTextCall query limit; GetterCall limit])%list.
Proof.
  intros Hthrew Hnone.
  rewrite outcome_directSearch, trace_directSearch. cbv zeta.
  destruct (nearText w past query limit); [ discriminate | ].
  rewrite Hnone. split; reflexivity.
Qed.

Lemma X2_first_fetch_discarded_witness :
  trace (RAGAgent.directSearch "Is it on?" 3) noVectorsWorld []
  = [NearTextCall "Is it on?" 3; GetterCall 3; GetterCall 3]
  /\ outcome (RAGAgent.directSearch "Is it on?" 3) noVectorsWorld []
     = outcome (lastResort 3) noVectorsWorld [NearTextCall "Is it on?" 3; GetterCall 3].
Proof.
  exact (X2_first_fetch_discarded noVectorsWorld "Is it on?" 3 [] eq_refl eq_refl).
Defined.

(** ** The retrieval handler *)

(** The run of [query], by the run of the search. *)
Lemma run_query userQuery w past :
  RAGAgent.query userQuery w past =
  let past1 := (past ++ [Enter RetrievalHandler])%list in
  let searched := RAGAgent.directSearch userQuery 3 w past1 in
  let t := snd searched in
  match fst searched with
  | Throw message => (Ok (RAGAgent.queryFailed message), Enter RetrievalHandler :: t)
  | Ok searchResults =>
      if negb (search_success searchResults)
      then (Ok RAGAgent.notFound, Enter RetrievalHandler :: t)
      else
        match results searchResults with
        | None =>
            (Ok (RAGAgent.queryFailed
                   "Cannot read properties of undefined (reading 'length')"),
             Enter RetrievalHandler :: t)
        | Some entries =>
            if length entries =? 0
            then (Ok RAGAgent.notFound, Enter RetrievalHandler :: t)
            else
              let context := JS.join JS.newline (map RAGAgent.describe entries) in
              (match chatModel w (past1 ++ t)%list (RagAnswerPrompt context userQuery) with
               | Ok text =>
                   Ok {| rag_success := true;
                         rag_answer := Some text;
                         rag_sources := Some (map fileId entries);
                         rag_error := None |}
               | Throw message => Ok (RAGAgent.queryFailed message)
               end,
               Enter RetrievalHandler
               :: t ++ [ChatCall (RagAnswerPrompt context userQuery)])%list
        end
  end.
Proof.
  unfold RAGAgent.query. set (D := RAGAgent.directSearch userQuery 3).
  unfold bind, try_catch, enter, chat, ret, RAGAgent.getResults. cbv zeta.
  destruct (D w (past ++ [Enter RetrievalHandler])%list) as [[sr | e] t]; simpl;
    [ | now rewrite app_nil_r ].
  destruct (search_success sr); simpl; [ | now rewrite !app_nil_r ].
  destruct (results sr) as [entries | ]; simpl; [ | now rewrite !app_nil_r ].
  rewrite !app_nil_r.
  destruct (length entries =? 0); simpl; [ now rewrite !app_nil_r | ].
  destruct (chatModel w _ _); simpl; now rewrite ?app_nil_r.
Qed.

Lemma chatCalls_directSearch query limit w past :
  chatCalls (trace (RAGAgent.directSearch query limit) w past) = 0.
Proof.
  rewrite trace_directSearch. cbv zeta.
  destruct (nearText w past query limit); [ reflexivity | ].
  destruct (length (extractKeywords query) =? 0); [ reflexivity | ].
  destruct (keywordSearch w _ _ limit); reflexivity.
Qed.

Lemma chatCalls_app t1 t2 : chatCalls (t1 ++ t2) = chatCalls t1 + chatCalls t2.
Proof. unfold chatCalls. now rewrite filter_app, length_app. Qed.

(** X3.  [query] reports success only when the search found at least one
    entry and the chat model answered; the answer is then the chat model's
    text and the sources are the file ids of the entries, in the order of
    the search, one per entry. *)
Theorem X3_query_success w userQuery past r :
  outcome (RAGAgent.query userQuery) w past = Ok r ->
  rag_success r = true ->
  let past1 := (past ++ [Enter RetrievalHandler])%list in
  exists searchResults entries text,
    outcome (RAGAgent.directSearch userQuery 3) w past1 = Ok searchResults
    /\ search_success searchResults = true
    /\ results searchResults = Some entries
    /\ entries <> []
    /\ chatModel w (past1 ++ trace (RAGAgent.directSearch userQuery 3) w past1)%list
         (RagAnswerPrompt (JS.join JS.newline (map RAGAgent.describe entries)) userQuery)
       = Ok text
    /\ rag_answer r = Some text
    /\ rag_sources r = Some (map fileId entries)
    /\ length (map fileId entries) = length entries
    /\ rag_error r = None.
Proof.
  intros Hrun Hok. cbv zeta. rewrite outcome_query in Hrun. cbv zeta in Hrun.
  destruct (outcome (RAGAgent.directSearch userQuery 3) w _) as [sr | e];
    [ | injection Hrun as <-; discriminate ].
  destruct (search_success sr) eqn:Hs; simpl in Hrun;
    [ | injection Hrun as <-; discriminate ].
  destruct (results sr) as [entries | ] eqn:Hr; [ | injection Hrun as <-; discriminate ].
  destruct entries as [ | e es]; [ injection Hrun as <-; discriminate | ].
  simpl length in Hrun. cbv iota beta in Hrun. simpl Nat.eqb in Hrun. cbv iota in Hrun.
  destruct (chatModel w _ _) as [text | m] eqn:Hchat;
    [ | injection Hrun as <-; discriminate ].
  injection Hrun as <-.
  exists sr, (e :: es), text. rewrite length_map.
  repeat split; try reflexivity; try assumption. discriminate.
Qed.

Lemma X3_query_success_witness :
  exists searchResults entries text,
    outcome (RAGAgent.directSearch "What is machine learning?" 3) greetingWorld
      [Enter RetrievalHandler] = Ok searchResults
    /\ results searchResults = Some entries
    /\ entries <> []
    /\ rag_sources
         {| rag_success := true;
            rag_answer := Some " Hello! ";
            rag_sources := Some ["file_001"];
            rag_error := None |} = Some (map fileId entries)
    /\ Some " Hello! " = Some text.
Proof.
  destruct (X3_query_success greetingWorld "What is machine learning?" []
              {| rag_success := true;
                 rag_answer := Some " Hello! ";
                 rag_sources := Some ["file_001"];
                 rag_error := None |} eq_refl eq_refl)
    as (sr & entries & text & H1 & _ & H3 & H4 & _ & H6 & H7 & _).
  exists sr, entries, text. repeat split; assumption.
Defined.

(** X4.  [query] calls the chat model at most once, and not at all when
    the search failed or found no entry. *)
Theorem X4_query_chat_calls w userQuery past :
  let past1 := (past ++ [Enter RetrievalHandler])%list in
  let t := trace (RAGAgent.query userQuery) w past in
  chatCalls t <= 1
  /\ (forall searchResults,
        outcome (RAGAgent.directSearch userQuery 3) w past1 = Ok searchResults ->
        search_success searchResults = false \/ results searchResults = Some [] ->
        chatCalls t = 0)
  /\ (forall r,
        outcome (RAGAgent.query userQuery) w past = Ok r ->
        rag_success r = true ->
        chatCalls t = 1).
Proof.
  cbv zeta.
  pose proof (chatCalls_directSearch userQuery 3 w (past ++ [Enter RetrievalHandler])%list)
    as Hquiet.
  unfold trace, chatCalls in *. unfold outcome. rewrite run_query. cbv zeta.
  destruct (RAGAgent.directSearch userQuery 3 w (past ++ [Enter RetrievalHandler])%list)
    as [[sr | e] t]; simpl fst; simpl snd in *.
  - destruct (search_success sr) eqn:Hs; simpl negb; cbv iota.
    + destruct (results sr) as [[ | en es] | ] eqn:Hr; simpl.
      * rewrite Hquiet. repeat split; intros; try lia.
        match goal with H : Ok _ = Ok _ |- _ => injection H as <- end. discriminate.
      * rewrite filter_app, length_app, Hquiet. simpl.
        split; [ lia | ]. split; [ | reflexivity ].
        intros sr' [= <-] [H | H]; congruence.
      * rewrite Hquiet. repeat split; intros; try lia.
        match goal with H : Ok _ = Ok _ |- _ => injection H as <- end. discriminate.
    + simpl. rewrite Hquiet. repeat split; intros; try lia.
      match goal with H : Ok _ = Ok _ |- _ => injection H as <- end. discriminate.
  - simpl. rewrite Hquiet. repeat split; intros; try lia; try discriminate.
    match goal with H : Ok _ = Ok _ |- _ => injection H as <- end. discriminate.
Qed.

Lemma X4_query_chat_calls_witness :
  chatCalls (trace (RAGAgent.query "What is machine learning?") emptyIndexWorld []) = 0.
Proof.
  exact (proj1 (proj2 (X4_query_chat_calls emptyIndexWorld "What is machine learning?" []))
           (RAGAgent.found [] 0 None) eq_refl (or_intror eq_refl)).
Defined.

(** ** The keywords *)

Lemma allChars_mapChars (p : ascii -> bool) (f : ascii -> ascii) (s : string) :
  allChars p (JS.mapChars f s) = allChars (fun c => p (f c)) s.
Proof. induction s as [ | c s IH]; simpl; [ reflexivity | now rewrite IH ]. Qed.

Lemma allChars_always (p : ascii -> bool) (s : string) :
  (forall c, p c = true) -> allChars p s = true.
Proof.
  intros Hp. induction s as [ | c s IH]; simpl; [ reflexivity | now rewrite Hp, IH ].
Qed.

(** The pieces of a split hold no separator, and keep what held of every
    character of the string. *)
Lemma splitAt_pieces (sep p q : ascii -> bool) (s : string) :
  (forall c, p c = true -> sep c = false -> q c = true) ->
  allChars p s = true ->
  Forall (fun piece => allChars q piece = true) (JS.splitAt sep s).
Proof.
  intros Hq. induction s as [ | c s IH]; simpl; intros Hs.
  - constructor; [ reflexivity | constructor ].
  - apply andb_true_iff in Hs. destruct Hs as [Hc Hs]. specialize (IH Hs).
    destruct (sep c) eqn:Hsep.
    + constructor; [ reflexivity | exact IH ].
    + destruct (JS.splitAt sep s) as [ | w ws].
      * constructor; [ simpl; now rewrite (Hq c Hc Hsep) | constructor ].
      * inversion IH as [ | ? ? Hw Hws]; subst.
        constructor; [ simpl; now rewrite (Hq c Hc Hsep), Hw | exact Hws ].
Qed.

Lemma normalized_char (c : ascii) :
  let c' := JS.lowerChar c in
  let c'' := if JS.isWordChar c' || JS.isWhiteSpace c' then c' else " "%char in
  JS.isLower c'' || JS.isDigit c'' || (JS.code c'' =? 95) || JS.isWhiteSpace c'' = true.
Proof. destruct c as [[] [] [] [] [] [] [] []]; reflexivity. Qed.

Lemma Forall_firstn {A : Type} (P : A -> Prop) (n : nat) (l : list A) :
  Forall P l -> Forall P (firstn n l).
Proof.
  intros H. apply Forall_forall. intros x Hx.
  apply in_firstn in Hx. revert x Hx. now apply Forall_forall.
Qed.

Lemma Forall_filter {A : Type} (P : A -> Prop) (f : A -> bool) (l : list A) :
  Forall P l -> Forall P (filter f l).
Proof.
  intros H. apply Forall_forall. intros x Hx.
  apply filter_In in Hx. destruct Hx as [Hx _]. revert x Hx. now apply Forall_forall.
Qed.

(** X5.  Whatever the query, every keyword is made of lower-case letters,
    digits, underscores and whitespace other than the space: it holds no
    space, no upper-case letter and no punctuation. *)
Theorem X5_keyword_characters (query : string) :
  Forall (fun k => allChars keywordChar k = true) (extractKeywords query).
Proof.
  unfold extractKeywords, JS.slice0, JS.split_space.
  apply Forall_firstn, Forall_filter.
  apply splitAt_pieces with
    (p := fun c => JS.isLower c || JS.isDigit c || (JS.code c =? 95) || JS.isWhiteSpace c).
  - intros c Hc Hsep. unfold keywordChar. now rewrite Hc, Hsep.
  - unfold blankPunctuation, JS.toLowerCase. rewrite !allChars_mapChars.
    apply allChars_always. exact normalized_char.
Qed.

(** ** The chart tool *)

(** X6.  For every chart type, known or not, the mock data has six labels
    and at least one dataset, every dataset has one number per label, and
    the data description plays no part. *)
Theorem X6_mock_data_shape (kind description : string) :
  let mock := ChartTool.generateMockData kind description in
  length (labels mock) = 6
  /\ datasets mock <> []
  /\ Forall (fun ds => length (ds_data ds) = length (labels mock)) (datasets mock)
  /\ forall description', ChartTool.generateMockData kind description' = mock.
Proof.
  cbv zeta. unfold ChartTool.generateMockData.
  destruct (String.eqb kind "line"); [ | destruct (String.eqb kind "bar");
    [ | destruct (String.eqb kind "pie" || String.eqb kind "doughnut");
      [ | destruct (String.eqb kind "radar") ] ] ];
    simpl; (split; [ reflexivity | ]); (split; [ discriminate | ]);
    (split; [ repeat constructor | reflexivity ]).
Qed.

Lemma orDefault_nonempty (x : option string) (d : string) :
  d <> EmptyString -> JS.orDefault x d <> EmptyString.
Proof.
  intros Hd. unfold JS.orDefault. destruct x as [s | ]; [ | exact Hd ].
  destruct (String.eqb_spec s EmptyString); [ exact Hd | assumption ].
Qed.

(** X7.  The chart tool succeeds on every input and calls no collaborator.
    Its answer carries a configuration whose type and title are never
    empty, the message built from them, and the y scale exactly when the
    type is neither pie nor doughnut. *)
Theorem X7_chart_tool_always_succeeds (input : ToolInput) w past :
  exists r config,
    outcome (ChartTool._call input) w past = Ok r
    /\ trace (ChartTool._call input) w past = []
    /\ chart_success r = true
    /\ chart_error r = None
    /\ chart_chartConfig r = Some config
    /\ cfg_type config <> EmptyString
    /\ cfg_title_text config <> EmptyString
    /\ chart_message r
       = Some (ChartTool.generatedMessage (cfg_type config) (cfg_title_text config))
    /\ (cfg_scales_y_beginAtZero config = None <->
        cfg_type config = "pie" \/ cfg_type config = "doughnut").
Proof.
  set (kind := JS.orDefault (chartType (ChartTool.readInput input)) "bar").
  set (heading := JS.orDefault (title (ChartTool.readInput input)) "Chart").
  exists (ChartTool.generated input).
  exists (ChartTool.buildConfig kind heading
            (ChartTool.generateMockData kind
               (JS.orDefault (data (ChartTool.readInput input)) "Data"))).
  cbn [cfg_type cfg_title_text cfg_scales_y_beginAtZero ChartTool.buildConfig].
  repeat split; try (apply orDefault_nonempty; discriminate).
  - destruct (String.eqb_spec kind "pie"); [ now left | ].
    destruct (String.eqb_spec kind "doughnut"); [ now right | simpl; discriminate ].
  - intros [H | H]; rewrite H; reflexivity.
Qed.

(** X8.  A chart type and a title that are given and not empty come back
    as the type and the title text of the configuration and in the
    message, and an object input is treated like the JSON text of the same
    object. *)
Theorem X8_chart_tool_keeps_request (p : ChartParams) (kind heading : string) w past :
  chartType p = Some kind ->
  title p = Some heading ->
  kind <> EmptyString ->
  heading <> EmptyString ->
  outcome (ChartTool._call (InputObject p)) w past
  = outcome (ChartTool._call (InputJsonText (JsonObject p))) w past
  /\ exists r config,
       outcome (ChartTool._call (InputJsonText (JsonObject p))) w past = Ok r
       /\ chart_chartConfig r = Some config
       /\ cfg_type config = kind
       /\ cfg_title_text config = heading
       /\ chart_message r
          = Some ("Generated " ++ kind ++ " chart configuration for: " ++ heading).
Proof.
  intros Hk Ht Hkne Htne. split; [ reflexivity | ].
  assert (Hkind : JS.orDefault (chartType p) "bar" = kind).
  { rewrite Hk. unfold JS.orDefault.
    destruct (String.eqb_spec kind EmptyString); [ contradiction | reflexivity ]. }
  assert (Hhead : JS.orDefault (title p) "Chart" = heading).
  { rewrite Ht. unfold JS.orDefault.
    destruct (String.eqb_spec heading EmptyString); [ contradiction | reflexivity ]. }
  eexists. eexists. split; [ reflexivity | ]. simpl.
  rewrite Hkind, Hhead. repeat split.
Qed.

Lemma X8_chart_tool_keeps_request_witness :
  exists r config,
    outcome (ChartTool._call
               (InputJsonText
                  (JsonObject {| chartType := Some "radar";
                                 title := Some "Products";
                                 data := None |}))) greetingWorld [] = Ok r
    /\ chart_chartConfig r = Some config
    /\ cfg_type config = "radar"
    /\ cfg_title_text config = "Products"
    /\ chart_message r = Some "Generated radar chart configuration for: Products".
Proof.
  apply (proj2 (X8_chart_tool_keeps_request
                  {| chartType := Some "radar"; title := Some "Products"; data := None |}
                  "radar" "Products" greetingWorld [] eq_refl eq_refl
                  ltac:(discriminate) ltac:(discriminate))).
Defined.

(** ** The visualization handler *)

(** X9.  [executeChartTool] makes one call to the chat model and writes a
    chart result that is unsuccessful exactly when that call throws:
    whatever the chat model answers, parsable or not, a chart is made. *)
Theorem X9_visualization_fails_only_on_throw w state past :
  let past1 := (past ++ [Enter VisualizationHandler])%list in
  let asked := chatModel w past1 (ChartParamsPrompt (userQuery state)) in
  trace (executeChartTool state) w past
  = [Enter VisualizationHandler; ChatCall (ChartParamsPrompt (userQuery state))]
  /\ exists update r,
       outcome (executeChartTool state) w past = Ok update
       /\ upd_chartResult update = Some r
       /\ chart_success r = negb (threw asked)
       /\ (chart_success r = true <-> exists config, chart_chartConfig r = Some config).
Proof.
  cbv zeta. unfold trace, outcome. rewrite run_executeChartTool. cbv zeta.
  split; [ reflexivity | ]. simpl fst.
  destruct (chatModel w (past ++ [Enter VisualizationHandler])%list
              (ChartParamsPrompt (userQuery state))) as [text | e].
  - eexists. eexists. split; [ reflexivity | ]. split; [ reflexivity | ].
    split; [ reflexivity | ]. split; [ intros _; eexists; reflexivity | reflexivity ].
  - eexists. eexists. split; [ reflexivity | ]. split; [ reflexivity | ].
    split; [ reflexivity | ]. simpl. split; [ discriminate | intros [c Hc]; discriminate ].
Qed.

(** ** The combination step, case by case *)

Lemma run_settleRetrieval state w past :
  exists settled,
    settleRetrieval state w past
    = (Ok settled, if deferred state then trace (RAGAgent.query (userQuery state)) w past else [])
    /\ (deferred state = false -> settled = ragResult state)
    /\ (deferred state = true ->
        exists r, outcome (RAGAgent.query (userQuery state)) w past = Ok r
                  /\ settled = Some r).
Proof.
  unfold settleRetrieval, deferred.
  destruct (isSome (chartResult state) && negb (isSome (ragResult state))
            && decisionIs state "both").
  - destruct (query_neverThrows (userQuery state) w past) as [r Hr].
    exists (Some r). unfold outcome, trace in *. unfold bind, ret.
    destruct (RAGAgent.query (userQuery state) w past) as [res t]. simpl in Hr. subst res.
    simpl. rewrite app_nil_r. split; [ reflexivity | ].
    split; [ discriminate | intros _; now exists r ].
  - exists (ragResult state). split; [ reflexivity | ].
    split; [ reflexivity | discriminate ].
Qed.

(** The run of [combineResults], by the retrieval result it works with and
    by what the chat model does when both results are successful. *)
Lemma run_combineResults state w past :
  combineResults state w past =
  match settleRetrieval state w past with
  | (Throw _, t0) => (Ok (combineGaveUp state), t0)
  | (Ok settled, t0) =>
      let text := snd (fst (fst (assemble (chartResult state) settled))) in
      match chartResult state, settled with
      | Some c, Some r =>
          if chart_success c && rag_success r
          then
            let prompt := CombinePrompt (userQuery state) c (rag_answer r) in
            (match chatModel w (past ++ t0)%list prompt with
             | Ok said => Ok (combined state settled said)
             | Throw _ => Ok (combineGaveUp state)
             end, (t0 ++ [ChatCall prompt])%list)
          else (Ok (combined state settled text), t0)
      | _, _ => (Ok (combined state settled text), t0)
      end
  end.
Proof.
  unfold combineResults. fold (settleRetrieval state).
  unfold combined, combineGaveUp, try_catch, bind.
  destruct (settleRetrieval state w past) as [[settled | e] t0];
    [ | simpl; now rewrite app_nil_r ].
  destruct (assemble (chartResult state) settled) as [[[cfg text] ids] refs] eqn:Ha.
  simpl fst. simpl snd.
  destruct (chartResult state) as [c | ] eqn:Hc; cbn [chartSucceeded].
  - destruct settled as [r | ]; cbn [chartSucceeded ragSucceeded].
    + destruct (chart_success c && rag_success r).
      * unfold chat. simpl.
        destruct (chatModel w (past ++ t0)%list _); simpl; now rewrite ?app_nil_r.
      * simpl. now rewrite !app_nil_r.
    + rewrite andb_false_r. simpl. now rewrite !app_nil_r.
  - simpl. now rewrite !app_nil_r.
Qed.

Lemma settleRetrieval_present state w past r :
  ragResult state = Some r ->
  settleRetrieval state w past = (Ok (Some r), []).
Proof.
  intros Hr. unfold settleRetrieval. rewrite Hr. simpl.
  now rewrite andb_false_r.
Qed.

Lemma settleRetrieval_not_deferred state w past :
  deferred state = false ->
  settleRetrieval state w past = (Ok (ragResult state), []).
Proof.
  unfold deferred, settleRetrieval. intros ->. reflexivity.
Qed.

(** A successful [query] has called the chat model once. *)
Lemma chatCalls_query_success userQuery w past r :
  outcome (RAGAgent.query userQuery) w past = Ok r ->
  rag_success r = true ->
  chatCalls (trace (RAGAgent.query userQuery) w past) = 1.
Proof.
  pose proof (chatCalls_directSearch userQuery 3 w (past ++ [Enter RetrievalHandler])%list)
    as Hquiet.
  unfold trace, chatCalls in *. unfold outcome. rewrite run_query. cbv zeta.
  destruct (RAGAgent.directSearch userQuery 3 w (past ++ [Enter RetrievalHandler])%list)
    as [[sr | e] t]; simpl fst; simpl snd in *.
  - destruct (search_success sr); simpl negb; cbv iota.
    + destruct (results sr) as [[ | en es] | ]; simpl.
      * intros [= <-]. discriminate.
      * intros _ _. rewrite filter_app, length_app, Hquiet. reflexivity.
      * intros [= <-]. discriminate.
    + simpl. intros [= <-]. discriminate.
  - simpl. intros [= <-]. discriminate.
Qed.

(** X10.  When the chart result is successful and so is the retrieval
    result the combination works with (the one in the state or, when the
    state has none and the decision is [both], the one [query] returns
    now, which is how a run of the graph gets here), [combineResults] sends
    the combination prompt once, after the calls of the deferred retrieval
    if any: the chat model is then called twice in the step, once by the
    retrieval handler and once for the combination.  If the chat model
    answers the combination prompt, the answer text is what it said (or,
    if it said nothing, the message of the chart result), with the chart
    configuration, the sources as file ids and the same sources as
    references.  If it throws, the response is the fixed failure: the
    chart and the sources are dropped. *)
Theorem X10_combine_both_successful w past state chart r :
  chartResult state = Some chart ->
  chart_success chart = true ->
  match ragResult state with
  | Some inState => inState = r
  | None =>
      decisionIs state "both" = true
      /\ outcome (RAGAgent.query (userQuery state)) w past = Ok r
  end ->
  rag_success r = true ->
  let t0 := match ragResult state with
            | Some _ => []
            | None => trace (RAGAgent.query (userQuery state)) w past
            end in
  let prompt := CombinePrompt (userQuery state) chart (rag_answer r) in
  let ids := match rag_sources r with Some ids => ids | None => [] end in
  trace (combineResults state) w past = (t0 ++ [ChatCall prompt])%list
  /\ chatCalls (trace (combineResults state) w past)
     = match ragResult state with
       | Some _ => 1
       | None => 2
       end
  /\ exists update response,
       outcome (combineResults state) w past = Ok update
       /\ upd_finalResponse update = Some response
       /\ match chatModel w (past ++ t0)%list prompt with
          | Ok said =>
              final_answer response
              = Some (if String.eqb said EmptyString
                      then JS.orDefault (chart_message chart) "Chart created successfully."
                      else said)
              /\ chartConfig response = chart_chartConfig chart
              /\ fileIds response = ids
              /\ references response = RagSources ids
          | Throw _ =>
              final_answer response
              = Some "I encountered an error while processing your request."
              /\ chartConfig response = None
              /\ fileIds response = []
              /\ references response = NoReferences
          end.
Proof.
  intros Hc Hcs Hr Hrs. cbv zeta.
  assert (Hsettle : settleRetrieval state w past
                    = (Ok (Some r),
                       match ragResult state with
                       | Some _ => []
                       | None => trace (RAGAgent.query (userQuery state)) w past
                       end)).
  { destruct (ragResult state) as [r0 | ] eqn:Hr0.
    - subst r0. exact (settleRetrieval_present state w past r Hr0).
    - destruct Hr as [Hboth Hq].
      assert (Hd : deferred state = true)
        by (unfold deferred; rewrite Hc, Hr0; exact Hboth).
      destruct (run_settleRetrieval state w past) as (settled & Hrun & _ & Hnow).
      destruct (Hnow Hd) as (r' & Hq' & ->). rewrite Hq in Hq'. injection Hq' as <-.
      rewrite Hrun, Hd. reflexivity. }
  assert (Hcalls : chatCalls match ragResult state with
                             | Some _ => []
                             | None => trace (RAGAgent.query (userQuery state)) w past
                             end
                   = match ragResult state with Some _ => 0 | None => 1 end).
  { destruct (ragResult state) as [r0 | ]; [ reflexivity | ].
    destruct Hr as [_ Hq]. exact (chatCalls_query_success _ _ _ _ Hq Hrs). }
  set (t0 := match ragResult state with
             | Some _ => []
             | None => trace (RAGAgent.query (userQuery state)) w past
             end) in *.
  unfold trace at 1 2, outcome. rewrite run_combineResults, Hsettle, Hc, Hcs, Hrs.
  cbv zeta. simpl andb. cbv iota. simpl fst. simpl snd.
  split; [ reflexivity | ].
  split.
  { rewrite chatCalls_app, Hcalls. destruct (ragResult state); reflexivity. }
  destruct (chatModel w (past ++ t0)%list (CombinePrompt (userQuery state) chart (rag_answer r)))
    as [said | e].
  - eexists. eexists. split; [ reflexivity | ]. split; [ reflexivity | ].
    unfold combined, assemble, lastWord. rewrite Hc. simpl. rewrite Hcs, Hrs. simpl.
    destruct r as [ok ans [ids | ] err]; simpl; repeat split;
      destruct (String.eqb said EmptyString); reflexivity.
  - eexists. eexists. split; [ reflexivity | ]. split; [ reflexivity | ].
    repeat split.
Qed.

Lemma X10_combine_both_successful_witness :
  chatCalls
    (trace
       (combineResults
          {| messages := [];
             userQuery := "Explain sales and chart them";
             decision := Some "both";
             chartResult := Some (ChartTool.generated (InputJsonText salesParams));
             ragResult := None;
             finalResponse := None |}) bothWorld [])
  = 2.
Proof.
  exact (proj1 (proj2 (X10_combine_both_successful bothWorld []
                  {| messages := [];
                     userQuery := "Explain sales and chart them";
                     decision := Some "both";
                     chartResult := Some (ChartTool.generated (InputJsonText salesParams));
                     ragResult := None;
                     finalResponse := None |}
                  (ChartTool.generated (InputJsonText salesParams))
                  {| rag_success := true;
                     rag_answer := Some "A combined answer.";
                     rag_sources := Some [fileId (RAGAgent.toEntry sampleItem)];
                     rag_error := None |}
                  eq_refl eq_refl (conj eq_refl eq_refl) eq_refl))).
Defined.

(** A run with the decision [both] in which both handlers succeed: the
    combination step finds a chart result and no retrieval result, runs the
    retrieval handler itself, and the chat model is called four times in
    the run (classification, extraction, retrieval answer, combination). *)
Example both_successful_run :
  exists state,
    outcome (invoke (initialState "Explain sales and chart them")) bothWorld [] = Ok state
    /\ decision state = Some "both"
    /\ option_map chart_success (chartResult state) = Some true
    /\ option_map rag_success (ragResult state) = None
    /\ option_map final_answer (finalResponse state) = Some (Some "A combined answer.")
    /\ chatCalls (trace (invoke (initialState "Explain sales and chart them")) bothWorld [])
       = 4
    /\ starts RetrievalHandler
         (trace (invoke (initialState "Explain sales and chart them")) bothWorld [])
       = 1.
Proof. eexists. repeat split. Qed.

Lemma combined_retrieval_only state r :
  chartSucceeded (chartResult state) = false ->
  rag_success r = true ->
  combined state (Some r) (snd (fst (fst (assemble (chartResult state) (Some r)))))
  = finish state
      {| final_answer := Some (JS.toStr (rag_answer r));
         references := RagSources match rag_sources r with Some ids => ids | None => [] end;
         fileIds := match rag_sources r with Some ids => ids | None => [] end;
         chartConfig := None |}
      {| role := "assistant"; content := Some (JS.toStr (rag_answer r)) |}.
Proof.
  intros Hc Hrs. unfold combined, assemble, lastWord. rewrite Hc. simpl. rewrite Hrs. simpl.
  destruct r as [ok [ans | ] [ids | ] err]; simpl;
    try (destruct (String.eqb_spec ans EmptyString) as [-> | _]); reflexivity.
Qed.

Lemma combined_nothing_successful state settled :
  chartSucceeded (chartResult state) = false ->
  ragSucceeded settled = false ->
  combined state settled (snd (fst (fst (assemble (chartResult state) settled))))
  = finish state
      {| final_answer := Some "I encountered an error processing your request.";
         references := NoReferences;
         fileIds := [];
         chartConfig := None |}
      (assistant "I encountered an error processing your request.").
Proof.
  intros Hc Hfail. unfold combined, assemble, lastWord. rewrite Hc, Hfail. reflexivity.
Qed.

Lemma combined_chart_only state chart settled :
  chartResult state = Some chart ->
  chart_success chart = true ->
  ragSucceeded settled = false ->
  combined state settled (snd (fst (fst (assemble (chartResult state) settled))))
  = finish state
      {| final_answer := Some "I've created a chart for you. ";
         references := NoReferences;
         fileIds := [];
         chartConfig := chart_chartConfig chart |}
      (assistant "I've created a chart for you. ").
Proof.
  intros Hc Hcs Hfail. unfold combined, assemble, lastWord. rewrite Hc. simpl.
  rewrite Hcs, Hfail. reflexivity.
Qed.

(** X11.  When there is no successful chart result and the retrieval
    result is present and successful, [combineResults] calls nobody and
    answers with the retrieval's answer, its sources as file ids and as
    references, and no chart. *)
Theorem X11_combine_retrieval_only w past state r :
  chartSucceeded (chartResult state) = false ->
  ragResult state = Some r ->
  rag_success r = true ->
  let ids := match rag_sources r with Some ids => ids | None => [] end in
  combineResults state w past
  = (Ok (finish state
           {| final_answer := Some (JS.toStr (rag_answer r));
              references := RagSources ids;
              fileIds := ids;
              chartConfig := None |}
           {| role := "assistant"; content := Some (JS.toStr (rag_answer r)) |}), []).
Proof.
  intros Hc Hr Hrs. cbv zeta. rewrite run_combineResults.
  rewrite (settleRetrieval_present state w past r Hr).
  cbv zeta. rewrite (combined_retrieval_only state r Hc Hrs).
  destruct (chartResult state) as [c | ]; [ | reflexivity ].
  simpl in Hc. rewrite Hc. reflexivity.
Qed.

Lemma X11_combine_retrieval_only_witness :
  exists update,
    combineResults
      {| messages := [];
         userQuery := "What is machine learning?";
         decision := Some "rag";
         chartResult := None;
         ragResult := Some {| rag_success := true;
                              rag_answer := Some "A subset of AI.";
                              rag_sources := Some ["file_001"];
                              rag_error := None |};
         finalResponse := None |} greetingWorld [] = (Ok update, [])
    /\ option_map final_answer (upd_finalResponse update) = Some (Some "A subset of AI.")
    /\ option_map fileIds (upd_finalResponse update) = Some ["file_001"].
Proof.
  eexists. split.
  - apply (X11_combine_retrieval_only greetingWorld []
             {| messages := [];
                userQuery := "What is machine learning?";
                decision := Some "rag";
                chartResult := None;
                ragResult := Some {| rag_success := true;
                                     rag_answer := Some "A subset of AI.";
                                     rag_sources := Some ["file_001"];
                                     rag_error := None |};
                finalResponse := None |}
             {| rag_success := true;
                rag_answer := Some "A subset of AI.";
                rag_sources := Some ["file_001"];
                rag_error := None |}); reflexivity.
  - split; reflexivity.
Defined.

(** X12.  When neither result is successful, [combineResults] calls nobody
    and answers with the fixed text
    ["I encountered an error processing your request."], without sources or
    chart: the answer text and the error of an unsuccessful retrieval
    result are not passed on. *)
Theorem X12_combine_nothing_successful w past state :
  chartSucceeded (chartResult state) = false ->
  match ragResult state with
  | Some r => rag_success r = false
  | None => deferred state = false
  end ->
  combineResults state w past
  = (Ok (finish state
           {| final_answer := Some "I encountered an error processing your request.";
              references := NoReferences;
              fileIds := [];
              chartConfig := None |}
           (assistant "I encountered an error processing your request.")), []).
Proof.
  intros Hc Hrag. rewrite run_combineResults.
  assert (Hsettle : settleRetrieval state w past = (Ok (ragResult state), [])).
  { destruct (ragResult state) as [r | ] eqn:Hr.
    - rewrite <- Hr. apply settleRetrieval_not_deferred.
      unfold deferred. rewrite Hr. simpl. now rewrite andb_false_r.
    - rewrite <- Hr. now apply settleRetrieval_not_deferred. }
  rewrite Hsettle.
  assert (Hfail : ragSucceeded (ragResult state) = false).
  { destruct (ragResult state); [ exact Hrag | reflexivity ]. }
  cbv zeta. rewrite (combined_nothing_successful state (ragResult state) Hc Hfail).
  destruct (chartResult state) as [c | ]; [ | reflexivity ].
  destruct (ragResult state) as [r | ]; [ | reflexivity ].
  simpl in Hc, Hfail. rewrite Hc. reflexivity.
Qed.

Lemma X12_combine_nothing_successful_witness :
  combineResults
    {| messages := [];
       userQuery := "What is machine learning?";
       decision := Some "rag";
       chartResult := None;
       ragResult := Some RAGAgent.notFound;
       finalResponse := None |} greetingWorld []
  = (Ok (finish
           {| messages := [];
              userQuery := "What is machine learning?";
              decision := Some "rag";
              chartResult := None;
              ragResult := Some RAGAgent.notFound;
              finalResponse := None |}
           {| final_answer := Some "I encountered an error processing your request.";
              references := NoReferences;
              fileIds := [];
              chartConfig := None |}
           (assistant "I encountered an error processing your request.")), []).
Proof.
  apply (X12_combine_nothing_successful greetingWorld []
           {| messages := [];
              userQuery := "What is machine learning?";
              decision := Some "rag";
              chartResult := None;
              ragResult := Some RAGAgent.notFound;
              finalResponse := None |}); reflexivity.
Defined.

(** ** What the nodes write *)

Lemma run_executeRAGAgent state w past :
  executeRAGAgent state w past =
  (match fst (RAGAgent.query (userQuery state) w past) with
   | Ok ragResult =>
       Ok {| upd_messages := Some (messages state ++ [assistant "RAG agent executed"])%list;
             upd_userQuery := None;
             upd_decision := None;
             upd_chartResult := None;
             upd_ragResult := Some ragResult;
             upd_finalResponse := None |}
   | Throw message =>
       Ok {| upd_messages := Some (messages state ++ [assistant "RAG agent failed"])%list;
             upd_userQuery := None;
             upd_decision := None;
             upd_chartResult := None;
             upd_ragResult := Some {| rag_success := false;
                                      rag_answer := None;
                                      rag_sources := None;
                                      rag_error := Some message |};
             upd_finalResponse := None |}
   end,
   snd (RAGAgent.query (userQuery state) w past)).
Proof.
  unfold executeRAGAgent, try_catch, bind, ret.
  destruct (RAGAgent.query (userQuery state) w past) as [[r | e] t]; simpl;
    now rewrite !app_nil_r.
Qed.

Lemma combineResults_finishes state w past :
  exists response said,
    outcome (combineResults state) w past = Ok (finish state response said)
    /\ role said = "assistant".
Proof.
  unfold outcome. rewrite run_combineResults.
  destruct (settleRetrieval state w past) as [[settled | e] t0];
    [ | eexists; eexists; split; reflexivity ].
  cbv zeta.
  destruct (chartResult state) as [c | ];
    [ | eexists; eexists; split; reflexivity ].
  destruct settled as [r | ]; [ | eexists; eexists; split; reflexivity ].
  destruct (chart_success c && rag_success r);
    [ | eexists; eexists; split; reflexivity ].
  simpl fst. destruct (chatModel w _ _); eexists; eexists; split; reflexivity.
Qed.

(** What a node returns: one more assistant message after the messages of
    the state, and its own channel. *)
Lemma runNode_update n state w past update :
  outcome (runNode n state) w past = Ok update ->
  (exists said,
     role said = "assistant"
     /\ upd_messages update = Some (messages state ++ [said])%list)
  /\ upd_userQuery update = None
  /\ (n <> analyze_query -> upd_decision update = None)
  /\ (n <> chart_tool -> upd_chartResult update = None)
  /\ (n <> rag_agent -> upd_ragResult update = None)
  /\ match n with
     | direct_response | combine_results => exists r, upd_finalResponse update = Some r
     | _ => upd_finalResponse update = None
     end.
Proof.
  intros Hrun.
  destruct n; simpl runNode in Hrun.
  - unfold outcome in Hrun. rewrite run_analyzeQuery in Hrun. simpl in Hrun.
    destruct (chatModel w past _) as [text | e]; [ | discriminate ].
    injection Hrun as <-. simpl.
    split; [ eexists; split; [ | reflexivity ]; reflexivity | ].
    repeat split; intros; congruence.
  - unfold outcome in Hrun. rewrite run_executeChartTool in Hrun. cbv zeta in Hrun.
    simpl fst in Hrun.
    destruct (chatModel w _ _) as [text | e]; injection Hrun as <-; simpl;
      (split; [ eexists; split; [ | reflexivity ]; reflexivity | ]);
      repeat split; intros; congruence.
  - unfold outcome in Hrun. rewrite run_executeRAGAgent in Hrun. simpl fst in Hrun.
    destruct (fst (RAGAgent.query (userQuery state) w past)); injection Hrun as <-; simpl;
      (split; [ eexists; split; [ | reflexivity ]; reflexivity | ]);
      repeat split; intros; congruence.
  - unfold outcome in Hrun. rewrite run_directResponse in Hrun. simpl in Hrun.
    destruct (chatModel w past _) as [text | e]; [ | discriminate ].
    injection Hrun as <-. simpl.
    split; [ eexists; split; [ | reflexivity ]; reflexivity | ].
    repeat split; intros; try congruence. eexists; reflexivity.
  - destruct (combineResults_finishes state w past) as (response & said & Hfin & Hrole).
    rewrite Hfin in Hrun. injection Hrun as <-. simpl.
    split; [ exists said; split; [ exact Hrole | reflexivity ] | ].
    repeat split; intros; try congruence. eexists; reflexivity.
Qed.

(** X13.  A node that returns appends one assistant message after a second
    copy of all the messages so far, so that the message list more than
    doubles at every step; it leaves the query alone, and writes no channel
    but its own: the decision is written by [analyze_query] only, the chart
    result by [chart_tool] only, the retrieval result by [rag_agent] only
    (not by [combine_results], even when it runs the retrieval handler),
    and the final response by the two terminal nodes, which always write
    it. *)
Theorem X13_node_writes n state w past update :
  outcome (runNode n state) w past = Ok update ->
  let state' := applyUpdate state update in
  (exists said,
     role said = "assistant"
     /\ messages state' = (messages state ++ messages state ++ [said])%list)
  /\ length (messages state') = 2 * length (messages state) + 1
  /\ userQuery state' = userQuery state
  /\ (n <> analyze_query -> decision state' = decision state)
  /\ (n <> chart_tool -> chartResult state' = chartResult state)
  /\ (n <> rag_agent -> ragResult state' = ragResult state)
  /\ match n with
     | direct_response | combine_results => exists r, finalResponse state' = Some r
     | _ => finalResponse state' = finalResponse state
     end.
Proof.
  intros Hrun. cbv zeta.
  destruct (runNode_update n state w past update Hrun)
    as ((said & Hrole & Hm) & Hq & Hd & Hc & Hr & Hf).
  unfold applyUpdate. simpl. rewrite Hm, Hq.
  split; [ exists said; split; [ exact Hrole | reflexivity ] | ].
  split; [ rewrite !length_app; simpl; lia | ].
  split; [ reflexivity | ].
  split; [ intros Hn; now rewrite (Hd Hn) | ].
  split; [ intros Hn; now rewrite (Hc Hn) | ].
  split; [ intros Hn; now rewrite (Hr Hn) | ].
  destruct n; try (now rewrite Hf); destruct Hf as [r ->]; now exists r.
Qed.

Lemma X13_node_writes_witness :
  length (messages
            (applyUpdate (startState "Hi there")
               (finish (startState "Hi there")
                  {| final_answer := Some " Hello! ";
                     references := NoReferences;
                     fileIds := [];
                     chartConfig := None |}
                  (assistant " Hello! "))))
  = 2 * length (messages (startState "Hi there")) + 1.
Proof.
  exact (proj1 (proj2 (X13_node_writes direct_response (startState "Hi there")
                         greetingWorld []
                         (finish (startState "Hi there")
                            {| final_answer := Some " Hello! ";
                               references := NoReferences;
                               fileIds := [];
                               chartConfig := None |}
                            (assistant " Hello! "))
                         eq_refl))).
Defined.

(** ** A run of the graph *)

Lemma outcome_invoke q w past :
  outcome (invoke (initialState q)) w past =
  match chatModel w past (AnalyzePrompt q) with
  | Throw e => Throw e
  | Ok text =>
      outcome (superSteps 24 (routeDecision (classified q text)) (classified q text)) w
        (past ++ [ChatCall (AnalyzePrompt q)])%list
  end.
Proof.
  unfold invoke, recursionLimit.
  change (applyUpdate defaultState (initialState q)) with (startState q).
  rewrite outcome_superSteps_S. cbn [runNode].
  assert (Ht : trace (analyzeQuery (startState q)) w past = [ChatCall (AnalyzePrompt q)])
    by (unfold trace; now rewrite run_analyzeQuery).
  assert (Ho : outcome (analyzeQuery (startState q)) w past
               = fst (analyzeQuery (startState q) w past)) by reflexivity.
  rewrite Ht, Ho, run_analyzeQuery. simpl fst.
  change (DelegatingAgent.userQuery (startState q)) with q.
  destruct (chatModel w past (AnalyzePrompt q)) as [text | e]; reflexivity.
Qed.

(** From a node other than the classification, a run that returns leaves
    query and decision as they were, has written the final response, and
    has gone through one or two nodes. *)
Lemma superSteps_from_handler fuel :
  forall n state w past state',
    n <> analyze_query ->
    outcome (superSteps fuel n state) w past = Ok state' ->
    userQuery state' = userQuery state
    /\ decision state' = decision state
    /\ (exists r, finalResponse state' = Some r)
    /\ length (messages state')
       = match n with
         | direct_response | combine_results => 2 * length (messages state) + 1
         | _ => 4 * length (messages state) + 3
         end.
Proof.
  induction fuel as [ | fuel IH]; intros n state w past state' Hn; [ discriminate | ].
  rewrite outcome_superSteps_S.
  destruct (outcome (runNode n state) w past) as [update | e] eqn:Hrun; [ | discriminate ].
  cbv zeta.
  destruct (runNode_update n state w past update Hrun)
    as ((said & _ & Hm) & Hq & Hd & _ & _ & Hf).
  specialize (Hd Hn).
  assert (Hq' : userQuery (applyUpdate state update) = userQuery state)
    by (simpl; now rewrite Hq).
  assert (Hd' : decision (applyUpdate state update) = decision state)
    by (simpl; now rewrite Hd).
  assert (Hl : length (messages (applyUpdate state update))
               = 2 * length (messages state) + 1)
    by (simpl; rewrite Hm, !length_app; simpl; lia).
  destruct n; try congruence; cbn [edge].
  - intros Hrest. apply IH in Hrest; [ | discriminate ].
    destruct Hrest as (H1 & H2 & H3 & H4).
    repeat split; try congruence. lia.
  - intros Hrest. apply IH in Hrest; [ | discriminate ].
    destruct Hrest as (H1 & H2 & H3 & H4).
    repeat split; try congruence. lia.
  - intros [= <-]. repeat split; try assumption.
    destruct Hf as [r Hr]. exists r. simpl. now rewrite Hr.
  - intros [= <-]. repeat split; try assumption.
    destruct Hf as [r Hr]. exists r. simpl. now rewrite Hr.
Qed.

Lemma routeDecision_not_analyze state : routeDecision state <> analyze_query.
Proof.
  destruct (routeDecision_cases state) as [[-> _] | [[-> _] | [-> _]]]; discriminate.
Qed.

(** X14.  When the graph returns, the state holds the query as given, the
    decision read from the classification answer (lower-cased and trimmed),
    a final response, and 7 messages after a direct reply or 15 after a
    handler and the combination. *)
Theorem X14_state_after_run w q past state :
  outcome (invoke (initialState q)) w past = Ok state ->
  userQuery state = q
  /\ (exists text,
        chatModel w past (AnalyzePrompt q) = Ok text
        /\ decision state = Some (JS.trim (JS.toLowerCase text))
        /\ length (messages state)
           = match routeDecision (classified q text) with
             | direct_response => 7
             | _ => 15
             end)
  /\ exists r, finalResponse state = Some r.
Proof.
  rewrite outcome_invoke.
  destruct (chatModel w past (AnalyzePrompt q)) as [text | e]; [ | discriminate ].
  intros Hleg.
  apply superSteps_from_handler in Hleg; [ | apply routeDecision_not_analyze ].
  destruct Hleg as (Hq & Hd & Hf & Hl).
  split; [ exact Hq | ]. split; [ | exact Hf ].
  exists text. split; [ reflexivity | ]. split; [ exact Hd | ].
  rewrite Hl.
  destruct (routeDecision_cases (classified q text)) as [[-> _] | [[-> _] | [-> _]]];
    reflexivity.
Qed.

Lemma X14_state_after_run_witness :
  exists state,
    outcome (invoke (initialState "Hi there")) greetingWorld [] = Ok state
    /\ userQuery state = "Hi there"
    /\ decision state = Some "hello!"
    /\ length (messages state) = 7.
Proof.
  eexists. split; [ reflexivity | ].
  destruct (X14_state_after_run greetingWorld "Hi there" [] _ eq_refl)
    as (Hq & (text & Ht & Hd & Hl) & _).
  injection Ht as <-. repeat split; assumption.
Defined.

(** A handler followed by the combination always returns. *)
Lemma handler_leg_returns fuel n state w past :
  n = chart_tool \/ n = rag_agent ->
  exists state', outcome (superSteps (S (S fuel)) n state) w past = Ok state'.
Proof.
  intros Hn. rewrite outcome_superSteps_S.
  assert (Hrun : exists update, outcome (runNode n state) w past = Ok update).
  { destruct Hn as [-> | ->]; simpl runNode.
    - destruct (executeChartTool_update state w past) as (u & _ & Hu & _). now exists u.
    - apply executeRAGAgent_neverThrows. }
  destruct Hrun as [update ->]. cbv zeta.
  assert (He : edge n (applyUpdate state update) = Next combine_results)
    by (destruct Hn as [-> | ->]; reflexivity).
  rewrite He, outcome_superSteps_S. cbn [runNode].
  destruct (combineResults_neverThrows (applyUpdate state update) w
              (past ++ trace (runNode n state) w past)%list) as [u' ->].
  cbv zeta. cbn [edge]. eexists; reflexivity.
Qed.

(** X15.  The graph throws only what the chat model threw in the
    classification or in the direct reply: once a decision [chart], [rag]
    or [both] is taken the run always returns, and the step limit of the
    graph is never reached. *)
Theorem X15_run_throws_only_chat_errors w q past e :
  outcome (invoke (initialState q)) w past = Throw e ->
  chatModel w past (AnalyzePrompt q) = Throw e
  \/ exists text,
       chatModel w past (AnalyzePrompt q) = Ok text
       /\ routeDecision (classified q text) = direct_response
       /\ chatModel w (past ++ [ChatCall (AnalyzePrompt q)])%list (DirectPrompt q) = Throw e.
Proof.
  rewrite outcome_invoke.
  destruct (chatModel w past (AnalyzePrompt q)) as [text | e0]; [ | intros [= <-]; now left ].
  intros Hleg. right. exists text. split; [ reflexivity | ].
  destruct (routeDecision_cases (classified q text)) as [[Hr _] | [[Hr _] | [Hr _]]];
    rewrite Hr in Hleg |- *.
  - destruct (handler_leg_returns 22 chart_tool (classified q text) w
                (past ++ [ChatCall (AnalyzePrompt q)])%list (or_introl eq_refl)) as [st Hst].
    change (S (S 22)) with 24 in Hst. congruence.
  - destruct (handler_leg_returns 22 rag_agent (classified q text) w
                (past ++ [ChatCall (AnalyzePrompt q)])%list (or_intror eq_refl)) as [st Hst].
    change (S (S 22)) with 24 in Hst. congruence.
  - split; [ reflexivity | ].
    change 24 with (S 23) in Hleg.
    rewrite outcome_superSteps_S in Hleg. cbn [runNode] in Hleg.
    unfold outcome in Hleg. rewrite run_directResponse in Hleg. simpl fst in Hleg.
    change (userQuery (classified q text)) with q in Hleg.
    destruct (chatModel w _ (DirectPrompt q)) as [said | e1]; [ discriminate | ].
    congruence.
Qed.

Lemma X15_run_throws_only_chat_errors_witness :
  chatModel failingChatWorld [] (AnalyzePrompt "Hi there") = Throw "quota exceeded"
  \/ exists text,
       chatModel failingChatWorld [] (AnalyzePrompt "Hi there") = Ok text
       /\ routeDecision (classified "Hi there" text) = direct_response
       /\ chatModel failingChatWorld ([] ++ [ChatCall (AnalyzePrompt "Hi there")])%list
            (DirectPrompt "Hi there") = Throw "quota exceeded".
Proof.
  exact (X15_run_throws_only_chat_errors failingChatWorld "Hi there" [] "quota exceeded"
           eq_refl).
Defined.

(** ** One request, by its decision *)

Lemma outcome_processQuery q w past :
  outcome (processQuery q) w past =
  Ok match outcome (invoke (initialState q)) w past with
     | Ok result =>
         match finalResponse result with
         | Some response => response
         | None => noResponse
         end
     | Throw _ => DelegatingAgent.queryFailed
     end.
Proof.
  unfold processQuery. rewrite outcome_try_catch, outcome_bind.
  destruct (outcome (invoke (initialState q)) w past); reflexivity.
Qed.

Lemma outcome_superSteps_combine fuel state w past :
  outcome (superSteps (S fuel) combine_results state) w past =
  match outcome (combineResults state) w past with
  | Ok update => Ok (applyUpdate state update)
  | Throw e => Throw e
  end.
Proof.
  rewrite outcome_superSteps_S. cbn [runNode].
  destruct (outcome (combineResults state) w past); reflexivity.
Qed.

Lemma routeDecision_classified q text :
  routeDecision (classified q text) =
  let d := JS.trim (JS.toLowerCase text) in
  if String.eqb d "chart" then chart_tool
  else if String.eqb d "rag" then rag_agent
  else if String.eqb d "both" then chart_tool
  else direct_response.
Proof. reflexivity. Qed.

(** X16.  When the classification answer, lower-cased and trimmed, is none
    of [chart], [rag] and [both], the response of [processQuery] is the
    chat model's direct reply, without sources or chart; and if the chat
    model throws on the direct reply, it is the fixed failure of
    [processQuery]. *)
Theorem X16_direct_request w q past text :
  chatModel w past (AnalyzePrompt q) = Ok text ->
  ~ In (JS.trim (JS.toLowerCase text)) ["chart"; "rag"; "both"] ->
  outcome (processQuery q) w past
  = Ok match chatModel w (past ++ [ChatCall (AnalyzePrompt q)])%list (DirectPrompt q) with
       | Ok said =>
           {| final_answer := Some said;
              references := NoReferences;
              fileIds := [];
              chartConfig := None |}
       | Throw _ =>
           {| final_answer := Some "I encountered an error while processing your query.";
              references := NoReferences;
              fileIds := [];
              chartConfig := None |}
       end.
Proof.
  intros Hchat Hnone.
  rewrite outcome_processQuery, outcome_invoke, Hchat.
  assert (Hroute : routeDecision (classified q text) = direct_response).
  { rewrite routeDecision_classified. cbv zeta.
    destruct (String.eqb_spec (JS.trim (JS.toLowerCase text)) "chart") as [H | _];
      [ elim Hnone; rewrite H; simpl; tauto | ].
    destruct (String.eqb_spec (JS.trim (JS.toLowerCase text)) "rag") as [H | _];
      [ elim Hnone; rewrite H; simpl; tauto | ].
    destruct (String.eqb_spec (JS.trim (JS.toLowerCase text)) "both") as [H | _];
      [ elim Hnone; rewrite H; simpl; tauto | reflexivity ]. }
  rewrite Hroute. change 24 with (S 23).
  rewrite outcome_superSteps_S. cbn [runNode].
  unfold outcome at 1. rewrite run_directResponse. simpl fst.
  change (userQuery (classified q text)) with q.
  destruct (chatModel w _ (DirectPrompt q)); reflexivity.
Qed.

Lemma X16_direct_request_witness :
  outcome (processQuery "Hi there") greetingWorld []
  = Ok {| final_answer := Some " Hello! ";
          references := NoReferences;
          fileIds := [];
          chartConfig := None |}.
Proof.
  refine (X16_direct_request greetingWorld "Hi there" [] " Hello! " eq_refl _).
  simpl. intuition discriminate.
Defined.

(** X17.  When the decision is [chart], the retrieval handler is not run
    and the response has no sources.  If the chat model answers the
    extraction prompt, whatever it says, the answer text is the fixed
    ["I've created a chart for you. "] and the chart is the generated
    one; if it throws, the answer text is the fixed
    ["I encountered an error processing your request."] and there is no
    chart. *)
Theorem X17_chart_request w q past text :
  chatModel w past (AnalyzePrompt q) = Ok text ->
  JS.trim (JS.toLowerCase text) = "chart" ->
  let past1 := (past ++ [ChatCall (AnalyzePrompt q); Enter VisualizationHandler])%list in
  starts RetrievalHandler (trace (processQuery q) w past) = 0
  /\ outcome (processQuery q) w past
     = Ok match chatModel w past1 (ChartParamsPrompt q) with
          | Ok answer =>
              let chartParams := match JSON_parse w answer with
                                 | Some value => value
                                 | None => defaultChartParams q
                                 end in
              {| final_answer := Some "I've created a chart for you. ";
                 references := NoReferences;
                 fileIds := [];
                 chartConfig :=
                   chart_chartConfig (ChartTool.generated (InputJsonText chartParams)) |}
          | Throw _ =>
              {| final_answer := Some "I encountered an error processing your request.";
                 references := NoReferences;
                 fileIds := [];
                 chartConfig := None |}
          end.
Proof.
  intros Hchat Hd. cbv zeta.
  assert (Hroute : routeDecision (classified q text) = chart_tool).
  { rewrite routeDecision_classified. cbv zeta. rewrite Hd. reflexivity. }
  split.
  - rewrite trace_processQuery, trace_invoke, Hchat, starts_cons_chat. cbv zeta.
    fold (classified q text). rewrite Hroute. change 24 with (S (S 22)).
    rewrite starts_chart_leg by reflexivity.
    unfold decisionIs, classified. simpl decision. rewrite Hd. reflexivity.
  - rewrite outcome_processQuery, outcome_invoke, Hchat, Hroute.
    change 24 with (S (S 22)). rewrite outcome_superSteps_S. cbn [runNode].
    unfold outcome at 1, trace. rewrite run_executeChartTool. cbv zeta.
    simpl fst. simpl snd. change (userQuery (classified q text)) with q.
    rewrite <- app_assoc. simpl app.
    destruct (chatModel w (past ++ [ChatCall (AnalyzePrompt q); Enter VisualizationHandler])%list
                (ChartParamsPrompt q)) as [answer | e];
      cbn [edge]; rewrite outcome_superSteps_combine; unfold outcome;
      rewrite run_combineResults;
      (rewrite settleRetrieval_not_deferred
         by (unfold deferred, decisionIs; simpl; rewrite Hd; reflexivity));
      cbv zeta; simpl chartResult; simpl ragResult; cbv iota.
    + rewrite combined_chart_only with
        (chart := ChartTool.generated
                    (InputJsonText match JSON_parse w answer with
                                   | Some value => value
                                   | None => defaultChartParams q
                                   end));
        reflexivity.
    + rewrite combined_nothing_successful; reflexivity.
Qed.

Lemma X17_chart_request_witness :
  outcome (processQuery "Show sales as a chart") chartWorld []
  = Ok {| final_answer := Some "I've created a chart for you. ";
          references := NoReferences;
          fileIds := [];
          chartConfig :=
            chart_chartConfig
              (ChartTool.generated
                 (InputJsonText (defaultChartParams "Show sales as a chart"))) |}.
Proof.
  exact (proj2 (X17_chart_request chartWorld "Show sales as a chart" [] "chart"
                  eq_refl eq_refl)).
Defined.

(** X18.  When the decision is [rag], the response has no chart and is
    settled by the one run of the retrieval handler: if it is successful,
    its answer with its sources as file ids and references; if not, also
    on a soft miss, the fixed text
    ["I encountered an error processing your request."] without sources,
    and not the answer text of the retrieval outcome. *)
Theorem X18_retrieval_request w q past text :
  chatModel w past (AnalyzePrompt q) = Ok text ->
  JS.trim (JS.toLowerCase text) = "rag" ->
  exists r,
    outcome (RAGAgent.query q) w (past ++ [ChatCall (AnalyzePrompt q)])%list = Ok r
    /\ outcome (processQuery q) w past
       = Ok (if rag_success r
             then {| final_answer := Some (JS.toStr (rag_answer r));
                     references :=
                       RagSources match rag_sources r with Some ids => ids | None => [] end;
                     fileIds := match rag_sources r with Some ids => ids | None => [] end;
                     chartConfig := None |}
             else {| final_answer := Some "I encountered an error processing your request.";
                     references := NoReferences;
                     fileIds := [];
                     chartConfig := None |}).
Proof.
  intros Hchat Hd.
  assert (Hroute : routeDecision (classified q text) = rag_agent).
  { rewrite routeDecision_classified. cbv zeta. rewrite Hd. reflexivity. }
  destruct (query_neverThrows q w (past ++ [ChatCall (AnalyzePrompt q)])%list) as [r Hr].
  exists r. split; [ exact Hr | ].
  rewrite outcome_processQuery, outcome_invoke, Hchat, Hroute.
  change 24 with (S (S 22)). rewrite outcome_superSteps_S. cbn [runNode].
  unfold outcome at 1, trace. rewrite run_executeRAGAgent.
  change (userQuery (classified q text)) with q.
  unfold outcome in Hr. simpl fst. rewrite Hr. cbv zeta. cbn [edge].
  rewrite outcome_superSteps_combine. unfold outcome. rewrite run_combineResults.
  rewrite (settleRetrieval_present _ w _ r) by reflexivity.
  cbv zeta. simpl chartResult. cbv iota.
  destruct (rag_success r) eqn:Hs.
  - rewrite combined_retrieval_only by (try reflexivity; exact Hs). reflexivity.
  - rewrite combined_nothing_successful by (try reflexivity; exact Hs). reflexivity.
Qed.

Lemma X18_retrieval_request_witness :
  exists r,
    outcome (RAGAgent.query "What is machine learning?") ragOnEmptyWorld
      [ChatCall (AnalyzePrompt "What is machine learning?")] = Ok r
    /\ rag_answer r = Some "I could not find relevant information in the database."
    /\ outcome (processQuery "What is machine learning?") ragOnEmptyWorld []
       = Ok {| final_answer := Some "I encountered an error processing your request.";
               references := NoReferences;
               fileIds := [];
               chartConfig := None |}.
Proof.
  destruct (X18_retrieval_request ragOnEmptyWorld "What is machine learning?" [] "rag"
              eq_refl eq_refl) as (r & Hr & Hp).
  exists r. split; [ exact Hr | ].
  assert (Hv : r = RAGAgent.notFound).
  { assert (H : outcome (RAGAgent.query "What is machine learning?") ragOnEmptyWorld
                  [ChatCall (AnalyzePrompt "What is machine learning?")]
                = Ok RAGAgent.notFound) by reflexivity.
    simpl app in Hr. rewrite H in Hr. now injection Hr. }
  subst r. split; [ reflexivity | exact Hp ].
Defined.

(** ** Sources of a response *)

Lemma sameSources_combined state settled text response :
  upd_finalResponse (combined state settled text) = Some response ->
  sameSources response.
Proof.
  unfold combined, assemble, sameSources. simpl. intros [= <-]. simpl.
  destruct (chartSucceeded (chartResult state)), (ragSucceeded settled); reflexivity.
Qed.

Lemma runNode_sameSources n state w past update :
  outcome (runNode n state) w past = Ok update ->
  forall response, upd_finalResponse update = Some response -> sameSources response.
Proof.
  destruct n; simpl runNode.
  - intros H r Hr.
    destruct (runNode_update analyze_query state w past update H) as (_ & _ & _ & _ & _ & Hf).
    congruence.
  - intros H r Hr.
    destruct (runNode_update chart_tool state w past update H) as (_ & _ & _ & _ & _ & Hf).
    congruence.
  - intros H r Hr.
    destruct (runNode_update rag_agent state w past update H) as (_ & _ & _ & _ & _ & Hf).
    congruence.
  - unfold outcome. rewrite run_directResponse. simpl.
    destruct (chatModel w past _) as [text | e]; intros [= <-] r [= <-]. reflexivity.
  - unfold outcome. rewrite run_combineResults.
    destruct (settleRetrieval state w past) as [[settled | e] t0];
      [ | intros [= <-] r [= <-]; reflexivity ].
    cbv zeta.
    destruct (chartResult state) as [c | ] eqn:Hc;
      [ | intros [= <-] r Hr; exact (sameSources_combined _ _ _ _ Hr) ].
    destruct settled as [r0 | ];
      [ | intros [= <-] r Hr; exact (sameSources_combined _ _ _ _ Hr) ].
    destruct (chart_success c && rag_success r0);
      [ | intros [= <-] r Hr; exact (sameSources_combined _ _ _ _ Hr) ].
    simpl fst. destruct (chatModel w _ _).
    + intros [= <-] r Hr. exact (sameSources_combined _ _ _ _ Hr).
    + intros [= <-] r [= <-]. reflexivity.
Qed.

Lemma superSteps_sameSources fuel :
  forall n state w past state',
    (forall r, finalResponse state = Some r -> sameSources r) ->
    outcome (superSteps fuel n state) w past = Ok state' ->
    forall r, finalResponse state' = Some r -> sameSources r.
Proof.
  induction fuel as [ | fuel IH]; intros n state w past state' Hinv.
  - discriminate.
  - rewrite outcome_superSteps_S.
    destruct (outcome (runNode n state) w past) as [update | e] eqn:Hrun; [ | discriminate ].
    cbv zeta.
    assert (Hinv' : forall r, finalResponse (applyUpdate state update) = Some r -> sameSources r).
    { intros r. simpl.
      destruct (upd_finalResponse update) as [y | ] eqn:Hy.
      - intros [= <-]. exact (runNode_sameSources n state w past update Hrun y Hy).
      - apply Hinv. }
    destruct (edge n (applyUpdate state update)) as [n' | ].
    + apply IH. exact Hinv'.
    + intros [= <-]. exact Hinv'.
Qed.

(** X19.  In every response of [processQuery] the references and the file
    ids tell the same sources: either there are no references and no file
    ids, or the references are [ragSources] with exactly the file ids. *)
Theorem X19_sources_agree w q past :
  exists response,
    outcome (processQuery q) w past = Ok response
    /\ match references response with
       | NoReferences => fileIds response = []
       | RagSources ids => fileIds response = ids
       end.
Proof.
  rewrite outcome_processQuery. eexists. split; [ reflexivity | ].
  destruct (outcome (invoke (initialState q)) w past) as [result | e] eqn:Hrun;
    [ | reflexivity ].
  destruct (finalResponse result) as [response | ] eqn:Hres; [ | reflexivity ].
  unfold invoke in Hrun.
  refine (superSteps_sameSources _ _ _ _ _ _ _ Hrun _ Hres).
  intros r H. discriminate H.
Qed.

(** ** The endpoints *)

Lemma processQuery_wellFormed w q past :
  exists response,
    outcome (processQuery q) w past = Ok response /\ wellFormed response.
Proof.
  rewrite outcome_processQuery. eexists. split; [ reflexivity | ].
  destruct (outcome (invoke (initialState q)) w past) as [result | e] eqn:Hrun.
  - destruct (finalResponse result) as [response | ] eqn:Hres.
    + unfold invoke in Hrun.
      refine (superSteps_wellFormed _ _ _ _ _ _ _ Hrun _ Hres).
      intros r H. discriminate H.
    + now exists "No response generated.".
  - now exists "I encountered an error while processing your query.".
Qed.

Lemma run_postQuery agent b w past :
  Server.postQuery agent (Some b) w past =
  match Server.truthy (Server.body_query b) with
  | None => (Ok (Server.refuse 400 "Query is required"), [])
  | Some query =>
      if agent
      then
        (match fst (processQuery query w past) with
         | Ok result => Ok (Server.json (Server.QueryPayload query result))
         | Throw message => Ok (Server.refuse 500 message)
         end, snd (processQuery query w past))
      else (Ok (Server.refuse 503 "Agent system not initialized. Please run /setup first."),
            [])
  end.
Proof.
  unfold Server.postQuery. set (P := processQuery).
  unfold try_catch, bind, ret, Server.destructure. simpl.
  destruct (Server.truthy (Server.body_query b)) as [query | ]; [ | reflexivity ].
  destruct agent; [ | reflexivity ]. simpl.
  destruct (P query w (past ++ [])%list) as [res t] eqn:HP.
  rewrite app_nil_r in HP. rewrite HP.
  destruct res; simpl; now rewrite ?app_nil_r.
Qed.

(** X20.  The query endpoint answers a request that has a body with 400
    when the query is missing or empty, otherwise with 503 when the agent is
    not set, otherwise with 200 and the response of [processQuery], whose
    answer is a string; it never answers such a request with 500, and
    calls no collaborator unless it answers 200. *)
Theorem X20_query_endpoint agent b w past :
  exists reply,
    outcome (Server.postQuery agent (Some b)) w past = Ok reply
    /\ Server.status reply <> 500
    /\ match Server.truthy (Server.body_query b) with
       | None =>
           reply = Server.refuse 400 "Query is required"
           /\ trace (Server.postQuery agent (Some b)) w past = []
       | Some query =>
           if agent
           then exists response,
                  reply = Server.json (Server.QueryPayload query response)
                  /\ outcome (processQuery query) w past = Ok response
                  /\ wellFormed response
           else reply = Server.refuse 503
                          "Agent system not initialized. Please run /setup first."
                /\ trace (Server.postQuery agent (Some b)) w past = []
       end.
Proof.
  unfold outcome, trace. rewrite run_postQuery.
  destruct (Server.truthy (Server.body_query b)) as [query | ];
    [ | eexists; split; [ reflexivity | split; [ discriminate | split; reflexivity ] ] ].
  destruct agent;
    [ | eexists; split; [ reflexivity | split; [ discriminate | split; reflexivity ] ] ].
  destruct (processQuery_wellFormed w query past) as (response & Hr & Hwf).
  unfold outcome in Hr. simpl fst. rewrite Hr.
  eexists. split; [ reflexivity | ]. split; [ discriminate | ].
  exists response. repeat split; assumption.
Qed.

(** X21.  The chart test endpoint checks nothing but the agent: with a
    body it answers 503 when the agent is not set and otherwise 200 with a
    successful chart result, whose type and title are those of the body or,
    when they are missing or empty, [bar] and ["Test Chart"]. *)
Theorem X21_chart_test_endpoint agent b w past :
  exists reply,
    outcome (Server.postTestChart agent (Some b)) w past = Ok reply
    /\ trace (Server.postTestChart agent (Some b)) w past = []
    /\ if agent
       then exists result config,
              reply = Server.json (Server.ChartPayload result)
              /\ chart_success result = true
              /\ chart_chartConfig result = Some config
              /\ cfg_type config = JS.orDefault (Server.body_chartType b) "bar"
              /\ cfg_title_text config = JS.orDefault (Server.body_title b) "Test Chart"
       else reply = Server.refuse 503 "Agent system not initialized".
Proof.
  destruct agent.
  - eexists. split; [ reflexivity | ]. split; [ reflexivity | ].
    eexists. eexists. split; [ reflexivity | ]. split; [ reflexivity | ].
    split; [ reflexivity | ].
    unfold ChartTool.buildConfig. simpl.
    assert (Hfix : forall s d, s <> EmptyString -> JS.orDefault (Some s) d = s).
    { intros s d Hs. unfold JS.orDefault.
      destruct (String.eqb_spec s EmptyString); [ contradiction | reflexivity ]. }
    split; apply Hfix; apply orDefault_nonempty; discriminate.
  - eexists. split; [ reflexivity | ]. split; reflexivity.
Qed.

Lemma run_postTestRag agent b w past :
  Server.postTestRag agent (Some b) w past =
  match Server.truthy (Server.body_query b) with
  | None => (Ok (Server.refuse 400 "Query is required"), [])
  | Some query =>
      if agent
      then
        (match fst (RAGAgent.query query w past) with
         | Ok result => Ok (Server.json (Server.RagPayload result))
         | Throw message => Ok (Server.refuse 500 message)
         end, snd (RAGAgent.query query w past))
      else (Ok (Server.refuse 503 "Agent system not initialized"), [])
  end.
Proof.
  unfold Server.postTestRag. set (Q := RAGAgent.query).
  unfold try_catch, bind, ret, Server.destructure. simpl.
  destruct (Server.truthy (Server.body_query b)) as [query | ]; [ | reflexivity ].
  destruct agent; [ | reflexivity ]. simpl.
  destruct (Q query w (past ++ [])%list) as [res t] eqn:HQ.
  rewrite app_nil_r in HQ. rewrite HQ.
  destruct res; simpl; now rewrite ?app_nil_r.
Qed.

(** X22.  The retrieval test endpoint answers a request that has a body
    like the query endpoint (400, then 503), and otherwise 200 with the
    outcome of the retrieval handler, successful or not: an unsuccessful
    retrieval is still answered with status 200, never with 500. *)
Theorem X22_rag_test_endpoint agent b w past :
  exists reply,
    outcome (Server.postTestRag agent (Some b)) w past = Ok reply
    /\ match Server.truthy (Server.body_query b) with
       | None => reply = Server.refuse 400 "Query is required"
       | Some query =>
           if agent
           then exists result,
                  reply = Server.json (Server.RagPayload result)
                  /\ Server.status reply = 200
                  /\ outcome (RAGAgent.query query) w past = Ok result
           else reply = Server.refuse 503 "Agent system not initialized"
       end.
Proof.
  unfold outcome. rewrite run_postTestRag.
  destruct (Server.truthy (Server.body_query b)) as [query | ];
    [ | eexists; split; reflexivity ].
  destruct agent; [ | eexists; split; reflexivity ].
  destruct (query_neverThrows query w past) as [result Hr].
  unfold outcome in Hr. simpl fst. rewrite Hr.
  eexists. split; [ reflexivity | ]. exists result. repeat split.
Qed.

(** ** The database setup *)

Lemma run_insertSample data db past :
  Setup.insertSample data db past =
  match Setup.createObject db past Setup.CLASS_NAME (Some Setup.TENANT_NAME) data with
  | Ok a => (Ok a, [Setup.ObjectCreate Setup.CLASS_NAME (Some Setup.TENANT_NAME) data])
  | Throw _ =>
      (Setup.createObject db
         (past ++ [Setup.ObjectCreate Setup.CLASS_NAME (Some Setup.TENANT_NAME) data])%list
         Setup.CLASS_NAME None data,
       [Setup.ObjectCreate Setup.CLASS_NAME (Some Setup.TENANT_NAME) data;
        Setup.ObjectCreate Setup.CLASS_NAME None data])
  end.
Proof.
  unfold Setup.insertSample, etry, Setup.callCreateObject.
  destruct (Setup.createObject db past Setup.CLASS_NAME (Some Setup.TENANT_NAME) data);
    reflexivity.
Qed.

Lemma accepted_later db past t t' data :
  Setup.accepted db ((past ++ t) ++ t')%list data ->
  Setup.accepted db (past ++ t ++ t')%list data.
Proof. now rewrite app_assoc. Qed.

(** The loop over the samples. *)
Lemma run_forEach_insertSample (samples : list Setup.Sample) :
  forall db past,
    let r := fst (forEach Setup.insertSample samples db past) in
    let t := snd (forEach Setup.insertSample samples db past) in
    forallb Setup.isObjectCreate t = true
    /\ length t <= 2 * length samples
    /\ match r with
       | Ok _ =>
           Setup.sentWithTenant t = samples
           /\ length samples <= length t
           /\ Forall (Setup.accepted db (past ++ t)%list) samples
       | Throw e =>
           exists data before e',
             In data samples
             /\ Setup.createObject db before Setup.CLASS_NAME (Some Setup.TENANT_NAME) data
                = Throw e'
             /\ Setup.createObject db
                  (before ++ [Setup.ObjectCreate Setup.CLASS_NAME
                                (Some Setup.TENANT_NAME) data])%list
                  Setup.CLASS_NAME None data
                = Throw e
       end.
Proof.
  induction samples as [ | x rest IH]; intros db past; cbv zeta.
  - simpl. repeat split; try lia. constructor.
  - simpl forEach. unfold ebind. rewrite run_insertSample.
    destruct (Setup.createObject db past Setup.CLASS_NAME (Some Setup.TENANT_NAME) x)
      as [[] | e1] eqn:H1.
    + specialize (IH db (past ++ [Setup.ObjectCreate Setup.CLASS_NAME
                                     (Some Setup.TENANT_NAME) x])%list).
      cbv zeta in IH. cbv beta iota.
      destruct (forEach Setup.insertSample rest db _) as [r t]. simpl fst in *. simpl snd in *.
      destruct IH as (Hall & Hlen & Hres).
      split; [ exact Hall | ]. split; [ simpl; lia | ].
      destruct r as [[] | e].
      * destruct Hres as (Hsent & Hmin & Hacc).
        split; [ simpl; now rewrite Hsent | ]. split; [ simpl; lia | ].
        constructor.
        -- exists past, t, (Some Setup.TENANT_NAME). split; [ reflexivity | exact H1 ].
        -- revert Hacc. apply Forall_impl. intros d Hd.
           rewrite <- app_assoc in Hd. exact Hd.
      * destruct Hres as (data & before & e' & Hin & Hb1 & Hb2).
        exists data, before, e'. split; [ now right | now split ].
    + destruct (Setup.createObject db
                  (past ++ [Setup.ObjectCreate Setup.CLASS_NAME (Some Setup.TENANT_NAME) x])%list
                  Setup.CLASS_NAME None x) as [[] | e2] eqn:H2.
      * specialize (IH db (past ++ [Setup.ObjectCreate Setup.CLASS_NAME
                                       (Some Setup.TENANT_NAME) x;
                                     Setup.ObjectCreate Setup.CLASS_NAME None x])%list).
        cbv zeta in IH. cbv beta iota.
        destruct (forEach Setup.insertSample rest db _) as [r t].
        simpl fst in *. simpl snd in *.
        destruct IH as (Hall & Hlen & Hres).
        split; [ exact Hall | ]. split; [ simpl; lia | ].
        destruct r as [[] | e].
        -- destruct Hres as (Hsent & Hmin & Hacc).
           split; [ simpl; now rewrite Hsent | ]. split; [ simpl; lia | ].
           constructor.
           ++ exists (past ++ [Setup.ObjectCreate Setup.CLASS_NAME
                                 (Some Setup.TENANT_NAME) x])%list, t, None.
              split; [ now rewrite <- app_assoc | exact H2 ].
           ++ revert Hacc. apply Forall_impl. intros d Hd.
              rewrite <- app_assoc in Hd. exact Hd.
        -- destruct Hres as (data & before & e' & Hin & Hb1 & Hb2).
           exists data, before, e'. split; [ now right | now split ].
      * simpl. split; [ reflexivity | ]. split; [ lia | ].
        exists x, past, e1. split; [ now left | now split ].
Qed.

(** The run of [setupWeaviate], up to the loop over the samples. *)
Lemma run_setupWeaviate db past :
  Setup.setupWeaviate db past =
  match Setup.schemaExists db past Setup.CLASS_NAME with
  | Throw e => (Throw e, [Setup.ExistsCall Setup.CLASS_NAME])
  | Ok present =>
      let past1 := (past ++ [Setup.ExistsCall Setup.CLASS_NAME])%list in
      let t1 := if present then [] else [Setup.ClassCreate Setup.questionAnswerClass] in
      match (if present then Ok tt
             else Setup.createClass db past1 Setup.questionAnswerClass) with
      | Throw e => (Throw e, Setup.ExistsCall Setup.CLASS_NAME :: t1)
      | Ok _ =>
          let t2 := (t1 ++ [Setup.TenantsCreate Setup.CLASS_NAME [Setup.TENANT_NAME]])%list in
          let loop := forEach Setup.insertSample Setup.sampleData db (past1 ++ t2)%list in
          (fst loop, (Setup.ExistsCall Setup.CLASS_NAME :: t2 ++ snd loop)%list)
      end
  end.
Proof.
  unfold Setup.setupWeaviate.
  set (L := forEach Setup.insertSample Setup.sampleData).
  unfold etry, ebind, eret, ethrow, Setup.callExists, Setup.callCreateClass,
    Setup.callCreateTenants.
  destruct (Setup.schemaExists db past Setup.CLASS_NAME) as [[ | ] | e]; simpl;
    [ | | reflexivity ].
  - destruct (Setup.createTenants db _ _ _); simpl;
      rewrite <- ?app_assoc; simpl;
      destruct (L db _) as [[[] | e] t]; simpl; now rewrite ?app_nil_r.
  - destruct (Setup.createClass db _ _) as [[] | e]; simpl; [ | reflexivity ].
    destruct (Setup.createTenants db _ _ _); simpl;
      rewrite <- ?app_assoc; simpl;
      destruct (L db _) as [[[] | e] t]; simpl; now rewrite ?app_nil_r.
Qed.

Lemma sentWithTenant_app t1 t2 :
  Setup.sentWithTenant (t1 ++ t2) = (Setup.sentWithTenant t1 ++ Setup.sentWithTenant t2)%list.
Proof.
  induction t1 as [ | e t1 IH]; [ reflexivity | ].
  destruct e as [ | | | c [tn | ] d]; simpl; now rewrite IH.
Qed.

Lemma filter_all {A : Type} (f : A -> bool) (l : list A) :
  forallb f l = true -> filter f l = l.
Proof.
  induction l as [ | x l IH]; simpl; [ reflexivity | ].
  intros H. apply andb_true_iff in H. destruct H as [Hx Hl]. now rewrite Hx, IH.
Qed.

Lemma no_class_create_among_objects t :
  forallb Setup.isObjectCreate t = true -> existsb Setup.isClassCreate t = false.
Proof.
  induction t as [ | e t IH]; simpl; [ reflexivity | ].
  intros H. apply andb_true_iff in H. destruct H as [He Ht].
  rewrite (IH Ht). destruct e; try discriminate; reflexivity.
Qed.

(** X23.  When [setupWeaviate] returns, each of the five samples was sent
    with the tenant, once and in the order of the list, every sample was
    accepted by the database in one of its calls (with the tenant or, after
    that call threw, without), and between five and ten calls stored
    objects. *)
Theorem X23_setup_stores_every_sample db past :
  fst (Setup.setupWeaviate db past) = Ok tt ->
  let t := snd (Setup.setupWeaviate db past) in
  Setup.sentWithTenant t = Setup.sampleData
  /\ Forall (Setup.accepted db (past ++ t)%list) Setup.sampleData
  /\ 5 <= length (filter Setup.isObjectCreate t) <= 10.
Proof.
  rewrite run_setupWeaviate. cbv zeta.
  destruct (Setup.schemaExists db past Setup.CLASS_NAME) as [present | e]; [ | discriminate ].
  set (t1 := if present then [] else [Setup.ClassCreate Setup.questionAnswerClass]).
  destruct (if present then Ok tt
            else Setup.createClass db (past ++ [Setup.ExistsCall Setup.CLASS_NAME])%list
                   Setup.questionAnswerClass) as [[] | e]; [ | discriminate ].
  pose proof (run_forEach_insertSample Setup.sampleData db
                ((past ++ [Setup.ExistsCall Setup.CLASS_NAME])
                 ++ t1 ++ [Setup.TenantsCreate Setup.CLASS_NAME [Setup.TENANT_NAME]])%list)
    as Hloop.
  cbv zeta in Hloop.
  destruct (forEach Setup.insertSample Setup.sampleData db _) as [r tl].
  simpl fst in *. simpl snd in *. intros ->.
  destruct Hloop as (Hall & Hmax & Hsent & Hmin & Hacc).
  assert (Ht1 : Setup.sentWithTenant t1 = [] /\ filter Setup.isObjectCreate t1 = [])
    by (unfold t1; destruct present; split; reflexivity).
  destruct Ht1 as [Hs1 Hf1].
  split; [ | split ].
  - simpl. rewrite !sentWithTenant_app, Hs1. exact Hsent.
  - revert Hacc. apply Forall_impl. intros d Hd.
    rewrite <- !app_assoc in Hd. simpl in Hd. rewrite <- ?app_assoc. exact Hd.
  - simpl filter. rewrite !filter_app, Hf1, (filter_all _ _ Hall). simpl.
    change (length Setup.sampleData) with 5 in *. lia.
Qed.

Lemma X23_setup_stores_every_sample_witness :
  Setup.sentWithTenant (snd (Setup.setupWeaviate Setup.withoutTenants []))
  = Setup.sampleData
  /\ length (filter Setup.isObjectCreate (snd (Setup.setupWeaviate Setup.withoutTenants [])))
     = 10.
Proof.
  split.
  - exact (proj1 (X23_setup_stores_every_sample Setup.withoutTenants [] eq_refl)).
  - reflexivity.
Defined.

(** X24.  [setupWeaviate] throws only what the database threw when asked
    whether the class exists, when creating the missing class, or when
    storing a sample without the tenant after storing it with the tenant
    had thrown too: a failure to create the tenant never fails the
    setup. *)
Theorem X24_setup_failures db past e :
  fst (Setup.setupWeaviate db past) = Throw e ->
  Setup.schemaExists db past Setup.CLASS_NAME = Throw e
  \/ (Setup.schemaExists db past Setup.CLASS_NAME = Ok false
      /\ Setup.createClass db (past ++ [Setup.ExistsCall Setup.CLASS_NAME])%list
           Setup.questionAnswerClass = Throw e)
  \/ exists data before e',
       In data Setup.sampleData
       /\ Setup.createObject db before Setup.CLASS_NAME (Some Setup.TENANT_NAME) data
          = Throw e'
       /\ Setup.createObject db
            (before ++ [Setup.ObjectCreate Setup.CLASS_NAME (Some Setup.TENANT_NAME) data])%list
            Setup.CLASS_NAME None data
          = Throw e.
Proof.
  rewrite run_setupWeaviate. cbv zeta.
  destruct (Setup.schemaExists db past Setup.CLASS_NAME) as [present | e0];
    [ | intros [= <-]; now left ].
  destruct present.
  - pose proof (run_forEach_insertSample Setup.sampleData db
                  ((past ++ [Setup.ExistsCall Setup.CLASS_NAME])
                   ++ [] ++ [Setup.TenantsCreate Setup.CLASS_NAME [Setup.TENANT_NAME]])%list)
      as Hloop.
    cbv zeta in Hloop.
    destruct (forEach Setup.insertSample Setup.sampleData db _) as [r tl].
    simpl fst in *. intros ->. destruct Hloop as (_ & _ & Hres). right; right. exact Hres.
  - destruct (Setup.createClass db _ _) as [[] | e1];
      [ | intros [= <-]; right; left; now split ].
    pose proof (run_forEach_insertSample Setup.sampleData db
                  ((past ++ [Setup.ExistsCall Setup.CLASS_NAME])
                   ++ [Setup.ClassCreate Setup.questionAnswerClass]
                   ++ [Setup.TenantsCreate Setup.CLASS_NAME [Setup.TENANT_NAME]])%list)
      as Hloop.
    cbv zeta in Hloop.
    destruct (forEach Setup.insertSample Setup.sampleData db _) as [r tl].
    simpl fst in *. intros ->. destruct Hloop as (_ & _ & Hres). right; right. exact Hres.
Qed.

Lemma X24_setup_failures_witness :
  Setup.schemaExists Setup.unreachable [] Setup.CLASS_NAME = Throw "connect ECONNREFUSED"
  \/ (Setup.schemaExists Setup.unreachable [] Setup.CLASS_NAME = Ok false
      /\ Setup.createClass Setup.unreachable ([] ++ [Setup.ExistsCall Setup.CLASS_NAME])%list
           Setup.questionAnswerClass = Throw "connect ECONNREFUSED")
  \/ exists data before e',
       In data Setup.sampleData
       /\ Setup.createObject Setup.unreachable before Setup.CLASS_NAME
            (Some Setup.TENANT_NAME) data = Throw e'
       /\ Setup.createObject Setup.unreachable
            (before ++ [Setup.ObjectCreate Setup.CLASS_NAME (Some Setup.TENANT_NAME) data])%list
            Setup.CLASS_NAME None data
          = Throw "connect ECONNREFUSED".
Proof.
  exact (X24_setup_failures Setup.unreachable [] "connect ECONNREFUSED" eq_refl).
Defined.

(** X25.  The class is created exactly when the database answers that it
    does not exist; and when that question throws, nothing else is called
    and the setup throws the same error. *)
Theorem X25_class_created_when_missing db past :
  let t := snd (Setup.setupWeaviate db past) in
  (existsb Setup.isClassCreate t = true <->
   Setup.schemaExists db past Setup.CLASS_NAME = Ok false)
  /\ forall e,
       Setup.schemaExists db past Setup.CLASS_NAME = Throw e ->
       Setup.setupWeaviate db past = (Throw e, [Setup.ExistsCall Setup.CLASS_NAME]).
Proof.
  cbv zeta. rewrite run_setupWeaviate. cbv zeta.
  destruct (Setup.schemaExists db past Setup.CLASS_NAME) as [[ | ] | e0].
  - pose proof (run_forEach_insertSample Setup.sampleData db
                  ((past ++ [Setup.ExistsCall Setup.CLASS_NAME])
                   ++ [] ++ [Setup.TenantsCreate Setup.CLASS_NAME [Setup.TENANT_NAME]])%list)
      as (Hall & _).
    destruct (forEach Setup.insertSample Setup.sampleData db _) as [r tl].
    cbn [fst snd app existsb Setup.isClassCreate orb] in *.
    rewrite (no_class_create_among_objects _ Hall).
    split; [ split; discriminate | discriminate ].
  - split; [ | discriminate ].
    destruct (Setup.createClass db _ _); simpl; split; reflexivity.
  - split; [ simpl; split; discriminate | ]. intros e [= <-]. reflexivity.
Qed.

Lemma run_postSetup agent db past :
  Setup.postSetup agent db past =
  (Ok match fst (Setup.setupWeaviate db past) with
      | Ok _ =>
          (Server.json
             (Server.SetupPayload
                "Weaviate database and agent system initialized successfully"), true)
      | Throw message => (Server.refuse 500 message, agent)
      end,
   snd (Setup.setupWeaviate db past)).
Proof.
  unfold Setup.postSetup, etry, ebind, eret.
  destruct (Setup.setupWeaviate db past) as [[[] | e] t]; simpl; now rewrite !app_nil_r.
Qed.

(** X26.  The setup endpoint always answers: with 200, the agent being set
    from then on, when [setupWeaviate] returned, and with 500 and the
    error's message, the agent being left as it was, when it threw.  So an
    agent that is set is never unset; and once the endpoint has answered
    200, a query with a non-empty text is answered 200 by the query
    endpoint, whatever the collaborators do. *)
Theorem X26_setup_endpoint agent db past :
  exists reply agent',
    fst (Setup.postSetup agent db past) = Ok (reply, agent')
    /\ (Server.status reply = 200 <-> fst (Setup.setupWeaviate db past) = Ok tt)
    /\ (forall e,
          fst (Setup.setupWeaviate db past) = Throw e ->
          reply = Server.refuse 500 e /\ agent' = agent)
    /\ (agent = true -> agent' = true)
    /\ (Server.status reply = 200 ->
        agent' = true
        /\ forall b query w past',
             Server.truthy (Server.body_query b) = Some query ->
             exists answer,
               outcome (Server.postQuery agent' (Some b)) w past' = Ok answer
               /\ Server.status answer = 200).
Proof.
  rewrite run_postSetup. simpl fst.
  destruct (fst (Setup.setupWeaviate db past)) as [[] | e].
  - eexists. eexists. split; [ reflexivity | ]. simpl.
    split; [ split; reflexivity | ]. split; [ discriminate | ].
    split; [ reflexivity | ]. intros _. split; [ reflexivity | ].
    intros b query w past' Hq. unfold outcome. rewrite run_postQuery, Hq.
    destruct (processQuery_wellFormed w query past') as (response & Hr & _).
    unfold outcome in Hr. simpl fst. rewrite Hr. eexists. split; reflexivity.
  - eexists. eexists. split; [ reflexivity | ]. simpl.
    split; [ split; discriminate | ].
    split; [ intros e' [= <-]; split; reflexivity | ].
    split; [ trivial | discriminate ].
Qed.
